(** * DHCPv4 message codec, constructors, modifiers and reply correlation

    A shallow embedding of the Go package [dhcpv4] (files [dhcpv4.go],
    [modifiers.go], [client.go]) and of the DHCPv6 [OptIAPrefix] parser that
    the test file of package [dhcpv6] exercises.

    Conventions of the embedding:
    - a Go [byte]/[uint8] is a [Z] in [0, 256); [uint16] and [uint32] are [Z]
      in their ranges; the conversions that truncate ([uint8(len(hwaddr))],
      [byte(v >> 8)]) are written out;
    - a [[]byte] is a [list Z]; slicing [s[a:b]] is [slice a b s];
    - a [net.IP] is a byte slice for which [nil] matters ([To4] returns it,
      [NewRequestFromOffer] tests for it), hence [option (list Z)];
    - a function that returns [(value, error)] or that can panic returns a
      [result];
    - a method with a pointer receiver that mutates the message takes the
      message and returns the new one;
    - calls to [log.Printf] only emit warnings and are left out; sockets,
      interface lookup and the string forms are outside the development. *)

From Stdlib Require Import ZArith List Lia String Ascii Bool.
From stdpp Require Import base list.
Import ListNotations.

Local Open Scope Z_scope.

(** ** Results of fallible Go code *)

Inductive result (A : Type) : Type :=
| Ok (a : A)              (* [return a, nil] *)
| Err (e : string)        (* [return nil, err] *)
| Panic (e : string).     (* a run-time panic *)
Arguments Ok {A} a.
Arguments Err {A} e.
Arguments Panic {A} e.

Definition bind {A B} (r : result A) (k : A -> result B) : result B :=
  match r with
  | Ok a => k a
  | Err e => Err e
  | Panic e => Panic e
  end.

Notation "'let*' x ':=' r 'in' k" := (bind r (fun x => k))
  (at level 10, x name, r at level 100, k at level 200).

Definition is_Ok {A} (r : result A) : bool :=
  match r with Ok _ => true | _ => false end.

(** ** Bytes, slices and fixed-width integers *)

Definition is_byte (b : Z) : Prop := 0 <= b < 256.
Definition bytes_ok (l : list Z) : Prop := Forall is_byte l.

(** [s[lo:hi]] *)
Definition slice (lo hi : nat) (s : list Z) : list Z := take (hi - lo) (drop lo s).

(** Go's builtin [copy(dst, src)]: overwrites the first
    [min(len(dst), len(src))] elements of [dst]. *)
Definition copy (dst src : list Z) : list Z :=
  take (length dst) src ++ drop (length src) dst.

(** [encoding/binary]: [BigEndian.PutUint32], [BigEndian.PutUint16],
    [BigEndian.Uint32], [BigEndian.Uint16], [LittleEndian.Uint32]. *)
Definition PutUint32 (v : Z) : list Z :=
  [ Z.land (Z.shiftr v 24) 255; Z.land (Z.shiftr v 16) 255;
    Z.land (Z.shiftr v 8) 255; Z.land v 255 ].

Definition PutUint16 (v : Z) : list Z :=
  [ Z.land (Z.shiftr v 8) 255; Z.land v 255 ].

Definition Uint32 (b : list Z) : Z :=
  Z.lor (Z.lor (Z.lor (nth 3 b 0) (Z.shiftl (nth 2 b 0) 8))
               (Z.shiftl (nth 1 b 0) 16))
        (Z.shiftl (nth 0 b 0) 24).

Definition Uint16 (b : list Z) : Z :=
  Z.lor (nth 1 b 0) (Z.shiftl (nth 0 b 0) 8).

Definition LittleEndian_Uint32 (b : list Z) : Z :=
  Z.lor (Z.lor (Z.lor (nth 0 b 0) (Z.shiftl (nth 1 b 0) 8))
               (Z.shiftl (nth 2 b 0) 16))
        (Z.shiftl (nth 3 b 0) 24).

(** ** [net.IP] *)

Definition IP : Type := option (list Z).

Definition IPv4len : nat := 4.
Definition IPv6len : nat := 16.

Definition isZeros (p : list Z) : bool := forallb (Z.eqb 0) p.

(** [net.IP.To4]: the 4-byte form of an IPv4 address, [nil] otherwise. *)
Definition To4 (ip : IP) : IP :=
  match ip with
  | None => None
  | Some p =>
      if Nat.eqb (length p) IPv4len then Some p
      else if Nat.eqb (length p) IPv6len && isZeros (take 10 p)
                && (nth 10 p 0 =? 255) && (nth 11 p 0 =? 255)
           then Some (slice 12 16 p)
           else None
  end.

(** [append(ret, ip...)] for a possibly nil slice. *)
Definition ipBytes (ip : IP) : list Z :=
  match ip with Some p => p | None => [] end.

(** [net.IPv4(a, b, c, d)]: the 16-byte form. *)
Definition IPv4 (a b c d : Z) : IP :=
  Some [0; 0; 0; 0; 0; 0; 0; 0; 0; 0; 255; 255; a; b; c; d].

Definition IPv4zero : IP := IPv4 0 0 0 0.
Definition IPv4bcast : IP := IPv4 255 255 255 255.

Definition v4InV6Prefix : list Z := [0; 0; 0; 0; 0; 0; 0; 0; 0; 0; 255; 255].

Definition bytesEqual (x y : list Z) : bool :=
  Nat.eqb (length x) (length y) && forallb (fun p => fst p =? snd p) (zip x y).

(** [net.IP.Equal]: an IPv4 address and the same address in IPv6 form are
    equal. *)
Definition IP_Equal (ip x : IP) : bool :=
  let ip := ipBytes ip in
  let x := ipBytes x in
  if Nat.eqb (length ip) (length x) then bytesEqual ip x
  else if Nat.eqb (length ip) IPv4len && Nat.eqb (length x) IPv6len
  then bytesEqual (slice 0 12 x) v4InV6Prefix && bytesEqual ip (drop 12 x)
  else if Nat.eqb (length ip) IPv6len && Nat.eqb (length x) IPv4len
  then bytesEqual (slice 0 12 ip) v4InV6Prefix && bytesEqual (drop 12 ip) x
  else false.

(** ** Package [dhcpv4] *)

Module dhcpv4.

(** Modelled from the spec: the enumerations of [types.go], which is not among
    the sources.  The spec gives [BOOTREQUEST = 1], [BOOTREPLY = 2],
    [Ethernet = 1], [Pad = 0], [End = 255] and the magic cookie
    [99.130.83.99]; the other numbers are the IANA assignments of the
    symbolic names (section 4.1). *)
Definition OpcodeBootRequest : Z := 1.
Definition OpcodeBootReply : Z := 2.
Definition HwTypeEthernet : Z := 1.

Definition MessageTypeNone : Z := 0.
Definition MessageTypeDiscover : Z := 1.
Definition MessageTypeOffer : Z := 2.
Definition MessageTypeRequest : Z := 3.
Definition MessageTypeAck : Z := 5.
Definition MessageTypeInform : Z := 8.

Definition OptionPad : Z := 0.
Definition OptionSubnetMask : Z := 1.
Definition OptionRouter : Z := 3.
Definition OptionDomainNameServer : Z := 6.
Definition OptionDomainName : Z := 15.
Definition OptionRequestedIPAddress : Z := 50.
Definition OptionDHCPMessageType : Z := 53.
Definition OptionServerIdentifier : Z := 54.
Definition OptionParameterRequestList : Z := 55.
Definition OptionTFTPServerName : Z := 66.
Definition OptionBootfileName : Z := 67.
Definition OptionUserClassInformation : Z := 77.
Definition OptionEnd : Z := 255.

Definition MagicCookie : list Z := [99; 130; 83; 99].

(** [HeaderSize] and [MaxMessageSize] of [dhcpv4.go]. *)
Definition HeaderSize : nat := 236.
Definition MaxMessageSize : nat := 576.

(** *** Options

    The interface [Option] with the implementations that the constructors,
    [WithNetboot], [WithRequestedOptions] and the receive path build and
    inspect, and the user class option that [WithUserClass] builds.
    [OptionGeneric] carries every other code as opaque bytes. *)
Inductive Option : Type :=
| OptionGeneric (OptionCode : Z) (Data : list Z)
| OptMessageType (MessageType : Z)
| OptParameterRequestList (RequestedOpts : list Z)
| OptRequestedIPAddress (RequestedAddr : IP)
| OptServerIdentifier (ServerID : IP)
| OptUserClass (UserClasses : list (list Z)) (Rfc3004 : bool).

Module Opt.

(** [Option.Code()] *)
Definition Code (o : Option) : Z :=
  match o with
  | OptionGeneric c _ => c
  | OptMessageType _ => OptionDHCPMessageType
  | OptParameterRequestList _ => OptionParameterRequestList
  | OptRequestedIPAddress _ => OptionRequestedIPAddress
  | OptServerIdentifier _ => OptionServerIdentifier
  | OptUserClass _ _ => OptionUserClassInformation
  end.

(** Modelled from the spec: [Option.ToBytes()] of the option files, which are
    not among the sources.  Sections 4.2 and 6.1: each variant emits [code],
    then a one-byte [length], then the value; [End] and [Pad] have no length.
    [MessageType] has a single byte payload, the parameter request list is
    the sequence of its codes, [ServerIdentifier] and [RequestedIPAddress]
    hold the 4 bytes of an IPv4 address.  Section 3.4: the value of a user
    class option is, in the RFC 3004 encoding, its identifiers each after a
    one-byte length, and in the legacy encoding the identifiers one after
    the other without length bytes. *)
Definition tlv (code : Z) (value : list Z) : list Z :=
  code :: (Z.of_nat (length value) mod 256) :: value.

Definition userClassValue (ucs : list (list Z)) (rfc : bool) : list Z :=
  if rfc
  then flat_map (fun uc => (Z.of_nat (length uc) mod 256) :: uc) ucs
  else concat ucs.

Definition ToBytes (o : Option) : list Z :=
  match o with
  | OptionGeneric c data =>
      if (c =? OptionEnd) || (c =? OptionPad) then [c] else tlv c data
  | OptMessageType t => tlv OptionDHCPMessageType [t]
  | OptParameterRequestList l => tlv OptionParameterRequestList l
  | OptRequestedIPAddress ip => tlv OptionRequestedIPAddress (ipBytes (To4 ip))
  | OptServerIdentifier ip => tlv OptionServerIdentifier (ipBytes (To4 ip))
  | OptUserClass ucs rfc =>
      tlv OptionUserClassInformation (userClassValue ucs rfc)
  end.

End Opt.

(** *** The message *)

Record DHCPv4 : Type := mkDHCPv4 {
  opcode : Z;                 (* OpcodeType, uint8 *)
  hwType : Z;                 (* iana.HwTypeType, uint8 *)
  hwAddrLen : Z;              (* uint8 *)
  hopCount : Z;               (* uint8 *)
  transactionID : Z;          (* uint32 *)
  numSeconds : Z;             (* uint16 *)
  flags : Z;                  (* uint16 *)
  clientIPAddr : IP;
  yourIPAddr : IP;
  serverIPAddr : IP;
  gatewayIPAddr : IP;
  clientHwAddr : list Z;      (* [16]byte *)
  serverHostName : list Z;    (* [64]byte *)
  bootFileName : list Z;      (* [128]byte *)
  options : list Option
}.

(** The invariants that the Go types of the fields give. *)
Record well_typed (d : DHCPv4) : Prop := {
  wt_opcode : 0 <= opcode d < 256;
  wt_hwType : 0 <= hwType d < 256;
  wt_hwAddrLen : 0 <= hwAddrLen d < 256;
  wt_hopCount : 0 <= hopCount d < 256;
  wt_transactionID : 0 <= transactionID d < 2 ^ 32;
  wt_numSeconds : 0 <= numSeconds d < 2 ^ 16;
  wt_flags : 0 <= flags d < 2 ^ 16;
  wt_clientHwAddr : length (clientHwAddr d) = 16%nat;
  wt_serverHostName : length (serverHostName d) = 64%nat;
  wt_bootFileName : length (bootFileName d) = 128%nat
}.

(** The three fixed arrays have their declared sizes. *)
Definition arrays_sized (d : DHCPv4) : Prop :=
  length (clientHwAddr d) = 16%nat /\
  length (serverHostName d) = 64%nat /\
  length (bootFileName d) = 128%nat.

Definition Modifier : Type := DHCPv4 -> result DHCPv4.

(** Field updates. *)
Definition with_opcode (v : Z) (d : DHCPv4) : DHCPv4 :=
  mkDHCPv4 v (hwType d) (hwAddrLen d) (hopCount d) (transactionID d)
    (numSeconds d) (flags d) (clientIPAddr d) (yourIPAddr d) (serverIPAddr d)
    (gatewayIPAddr d) (clientHwAddr d) (serverHostName d) (bootFileName d)
    (options d).
Definition with_hwType (v : Z) (d : DHCPv4) : DHCPv4 :=
  mkDHCPv4 (opcode d) v (hwAddrLen d) (hopCount d) (transactionID d)
    (numSeconds d) (flags d) (clientIPAddr d) (yourIPAddr d) (serverIPAddr d)
    (gatewayIPAddr d) (clientHwAddr d) (serverHostName d) (bootFileName d)
    (options d).
Definition with_hwAddrLen (v : Z) (d : DHCPv4) : DHCPv4 :=
  mkDHCPv4 (opcode d) (hwType d) v (hopCount d) (transactionID d)
    (numSeconds d) (flags d) (clientIPAddr d) (yourIPAddr d) (serverIPAddr d)
    (gatewayIPAddr d) (clientHwAddr d) (serverHostName d) (bootFileName d)
    (options d).
Definition with_hopCount (v : Z) (d : DHCPv4) : DHCPv4 :=
  mkDHCPv4 (opcode d) (hwType d) (hwAddrLen d) v (transactionID d)
    (numSeconds d) (flags d) (clientIPAddr d) (yourIPAddr d) (serverIPAddr d)
    (gatewayIPAddr d) (clientHwAddr d) (serverHostName d) (bootFileName d)
    (options d).
Definition with_transactionID (v : Z) (d : DHCPv4) : DHCPv4 :=
  mkDHCPv4 (opcode d) (hwType d) (hwAddrLen d) (hopCount d) v
    (numSeconds d) (flags d) (clientIPAddr d) (yourIPAddr d) (serverIPAddr d)
    (gatewayIPAddr d) (clientHwAddr d) (serverHostName d) (bootFileName d)
    (options d).
Definition with_numSeconds (v : Z) (d : DHCPv4) : DHCPv4 :=
  mkDHCPv4 (opcode d) (hwType d) (hwAddrLen d) (hopCount d) (transactionID d)
    v (flags d) (clientIPAddr d) (yourIPAddr d) (serverIPAddr d)
    (gatewayIPAddr d) (clientHwAddr d) (serverHostName d) (bootFileName d)
    (options d).
Definition with_flags (v : Z) (d : DHCPv4) : DHCPv4 :=
  mkDHCPv4 (opcode d) (hwType d) (hwAddrLen d) (hopCount d) (transactionID d)
    (numSeconds d) v (clientIPAddr d) (yourIPAddr d) (serverIPAddr d)
    (gatewayIPAddr d) (clientHwAddr d) (serverHostName d) (bootFileName d)
    (options d).
Definition with_clientIPAddr (v : IP) (d : DHCPv4) : DHCPv4 :=
  mkDHCPv4 (opcode d) (hwType d) (hwAddrLen d) (hopCount d) (transactionID d)
    (numSeconds d) (flags d) v (yourIPAddr d) (serverIPAddr d)
    (gatewayIPAddr d) (clientHwAddr d) (serverHostName d) (bootFileName d)
    (options d).
Definition with_yourIPAddr (v : IP) (d : DHCPv4) : DHCPv4 :=
  mkDHCPv4 (opcode d) (hwType d) (hwAddrLen d) (hopCount d) (transactionID d)
    (numSeconds d) (flags d) (clientIPAddr d) v (serverIPAddr d)
    (gatewayIPAddr d) (clientHwAddr d) (serverHostName d) (bootFileName d)
    (options d).
Definition with_serverIPAddr (v : IP) (d : DHCPv4) : DHCPv4 :=
  mkDHCPv4 (opcode d) (hwType d) (hwAddrLen d) (hopCount d) (transactionID d)
    (numSeconds d) (flags d) (clientIPAddr d) (yourIPAddr d) v
    (gatewayIPAddr d) (clientHwAddr d) (serverHostName d) (bootFileName d)
    (options d).
Definition with_gatewayIPAddr (v : IP) (d : DHCPv4) : DHCPv4 :=
  mkDHCPv4 (opcode d) (hwType d) (hwAddrLen d) (hopCount d) (transactionID d)
    (numSeconds d) (flags d) (clientIPAddr d) (yourIPAddr d) (serverIPAddr d)
    v (clientHwAddr d) (serverHostName d) (bootFileName d)
    (options d).
Definition with_clientHwAddr (v : list Z) (d : DHCPv4) : DHCPv4 :=
  mkDHCPv4 (opcode d) (hwType d) (hwAddrLen d) (hopCount d) (transactionID d)
    (numSeconds d) (flags d) (clientIPAddr d) (yourIPAddr d) (serverIPAddr d)
    (gatewayIPAddr d) v (serverHostName d) (bootFileName d)
    (options d).
Definition with_serverHostName (v : list Z) (d : DHCPv4) : DHCPv4 :=
  mkDHCPv4 (opcode d) (hwType d) (hwAddrLen d) (hopCount d) (transactionID d)
    (numSeconds d) (flags d) (clientIPAddr d) (yourIPAddr d) (serverIPAddr d)
    (gatewayIPAddr d) (clientHwAddr d) v (bootFileName d)
    (options d).
Definition with_bootFileName (v : list Z) (d : DHCPv4) : DHCPv4 :=
  mkDHCPv4 (opcode d) (hwType d) (hwAddrLen d) (hopCount d) (transactionID d)
    (numSeconds d) (flags d) (clientIPAddr d) (yourIPAddr d) (serverIPAddr d)
    (gatewayIPAddr d) (clientHwAddr d) (serverHostName d) v
    (options d).
Definition with_options (v : list Option) (d : DHCPv4) : DHCPv4 :=
  mkDHCPv4 (opcode d) (hwType d) (hwAddrLen d) (hopCount d) (transactionID d)
    (numSeconds d) (flags d) (clientIPAddr d) (yourIPAddr d) (serverIPAddr d)
    (gatewayIPAddr d) (clientHwAddr d) (serverHostName d) (bootFileName d)
    v.

(** *** Accessors and mutators of [dhcpv4.go] *)

Definition SetOpcode (v : Z) (d : DHCPv4) : DHCPv4 := with_opcode v d.
Definition SetHwType (v : Z) (d : DHCPv4) : DHCPv4 := with_hwType v d.

(** Limits the length to the maximum 16 of the standard. *)
Definition SetHwAddrLen (hwAddrLen : Z) (d : DHCPv4) : DHCPv4 :=
  let hwAddrLen := if 16 <? hwAddrLen then 16 else hwAddrLen in
  with_hwAddrLen hwAddrLen d.

Definition SetHopCount (v : Z) (d : DHCPv4) : DHCPv4 := with_hopCount v d.
Definition SetTransactionID (v : Z) (d : DHCPv4) : DHCPv4 := with_transactionID v d.
Definition SetNumSeconds (v : Z) (d : DHCPv4) : DHCPv4 := with_numSeconds v d.
Definition SetFlags (v : Z) (d : DHCPv4) : DHCPv4 := with_flags v d.

(** [d.flags&0x8000 == 0x8000] *)
Definition IsBroadcast (d : DHCPv4) : bool := Z.land (flags d) 32768 =? 32768.
(** [d.flags |= 0x8000] *)
Definition SetBroadcast (d : DHCPv4) : DHCPv4 := with_flags (Z.lor (flags d) 32768) d.
(** [d.flags&0x8000 == 0] *)
Definition IsUnicast (d : DHCPv4) : bool := Z.land (flags d) 32768 =? 0.
(** [d.flags &= ^uint16(0x8000)] *)
Definition SetUnicast (d : DHCPv4) : DHCPv4 := with_flags (Z.land (flags d) 32767) d.

Definition SetClientIPAddr (ip : IP) (d : DHCPv4) : DHCPv4 := with_clientIPAddr ip d.
Definition SetYourIPAddr (ip : IP) (d : DHCPv4) : DHCPv4 := with_yourIPAddr ip d.
Definition SetServerIPAddr (ip : IP) (d : DHCPv4) : DHCPv4 := with_serverIPAddr ip d.
Definition SetGatewayIPAddr (ip : IP) (d : DHCPv4) : DHCPv4 := with_gatewayIPAddr ip d.

(** [for i := from; i < 16; i++ { a[i] = 0 }] *)
Definition zeroFrom (from : nat) (a : list Z) : list Z :=
  fold_left (fun a i => <[i:=0]> a) (seq from (16 - from)) a.

(** Truncates to 16 bytes, copies into the array and pads with zeros. *)
Definition SetClientHwAddr (hw : list Z) (d : DHCPv4) : DHCPv4 :=
  let hw := if (16 <? length hw)%nat then take 16 hw else hw in
  let a := copy (take (length hw) (clientHwAddr d)) hw
           ++ drop (length hw) (clientHwAddr d) in
  with_clientHwAddr (zeroFrom (length hw) a) d.

(** Truncates or pads the name, then copies it into a fresh array. *)
Definition SetServerHostName (name : list Z) (d : DHCPv4) : DHCPv4 :=
  let name :=
    if (64 <? length name)%nat then take 64 name
    else if (length name <? 64)%nat
         then name ++ replicate (65 - length name) 0
         else name in
  with_serverHostName (copy (replicate 64 0) name) d.

Definition SetBootFileName (name : list Z) (d : DHCPv4) : DHCPv4 :=
  let name :=
    if (128 <? length name)%nat then take 128 name
    else if (length name <? 128)%nat
         then name ++ replicate (129 - length name) 0
         else name in
  with_bootFileName (copy (replicate 128 0) name) d.

Definition Options (d : DHCPv4) : list Option := options d.

(** All the options with the given code, in order. *)
Definition GetOption (code : Z) (d : DHCPv4) : list Option :=
  filter (fun opt => Opt.Code opt = code) (Options d).

(** The first option with the given code, [nil] when there is none. *)
Fixpoint firstWithCode (code : Z) (opts : list Option) : option Option :=
  match opts with
  | [] => None
  | opt :: rest =>
      if Opt.Code opt =? code then Some opt else firstWithCode code rest
  end.

Definition GetOneOption (code : Z) (d : DHCPv4) : option Option :=
  firstWithCode code (Options d).

(** Everything up to and including the first [End]. *)
Fixpoint strip (opts : list Option) : list Option :=
  match opts with
  | [] => []
  | opt :: rest =>
      if Opt.Code opt =? OptionEnd then [opt] else opt :: strip rest
  end.

Definition StrippedOptions (d : DHCPv4) : list Option := strip (options d).

Definition SetOptions (opts : list Option) (d : DHCPv4) : DHCPv4 :=
  with_options opts d.

(** Appends an option; when the last option is an [End], the new option takes
    its slot and the [End] is appended again. *)
Definition AddOption (option : Option) (d : DHCPv4) : DHCPv4 :=
  match last (options d) with
  | None => with_options (options d ++ [option]) d
  | Some l =>
      if negb (Opt.Code l =? OptionEnd)
      then with_options (options d ++ [option]) d
      else
        let end_ := l in
        with_options (<[(length (options d) - 1)%nat := option]> (options d)
                      ++ [end_]) d
  end.

(** The message type of the first [OptMessageType]; the type assertion
    to [*OptMessageType] panics on any other implementation. *)
Definition MessageType (d : DHCPv4) : result (option Z) :=
  match GetOneOption OptionDHCPMessageType d with
  | None => Ok None
  | Some (OptMessageType t) => Ok (Some t)
  | Some _ => Panic "interface conversion: Option is not *OptMessageType"
  end.

(** *** Parsing of the option area

    Modelled from the spec: [OptionsFromBytes] of [options.go], which is not
    among the sources.  Section 3.1: the wire form after the header begins
    with the magic cookie, followed by the option TLVs.  Section 4.2: a [0]
    byte is a [Pad] option of one byte; a [255] byte is [End] and stops the
    parse; otherwise [code], a one-byte [length] and [length] bytes of value
    are read and the variant parser of the code is run, an unknown code giving
    [OptionGeneric]; a short buffer or a variant-specific shape violation
    fails the whole parse; parsing continues until [End] or the end of the
    buffer.  The fuel only bounds the recursion: [OptionsFromBytes] supplies
    the length of the buffer, and every step consumes a byte.

    Section 3.4 gives the two encodings of a user class option and does not
    say which of them its parser assumes.  The parser of the model reads the
    RFC 3004 one, identifier by identifier, each after its length byte; an
    identifier that is longer than what is left of the value is a short
    buffer. *)
Fixpoint parseUserClasses (fuel : nat) (value : list Z)
  : result (list (list Z)) :=
  match value with
  | [] => Ok []
  | len :: body =>
      match fuel with
      | O => Err "user class parser out of steps"
      | S fuel =>
          if (Z.of_nat (length body) <? len) then
            Err "user class longer than the value"
          else
            let* ucs := parseUserClasses fuel (drop (Z.to_nat len) body) in
            Ok (take (Z.to_nat len) body :: ucs)
      end
  end.

Definition parseVariant (code : Z) (value : list Z) : result Option :=
  if code =? OptionDHCPMessageType then
    match value with
    | [t] => Ok (OptMessageType t)
    | _ => Err "invalid MessageType length"
    end
  else if code =? OptionParameterRequestList then
    Ok (OptParameterRequestList value)
  else if code =? OptionRequestedIPAddress then
    if Nat.eqb (length value) 4 then Ok (OptRequestedIPAddress (Some value))
    else Err "invalid RequestedIPAddress length"
  else if code =? OptionServerIdentifier then
    if Nat.eqb (length value) 4 then Ok (OptServerIdentifier (Some value))
    else Err "invalid ServerIdentifier length"
  else if code =? OptionUserClassInformation then
    let* ucs := parseUserClasses (length value) value in
    Ok (OptUserClass ucs true)
  else Ok (OptionGeneric code value).

Fixpoint parseOptions (fuel : nat) (data : list Z) : result (list Option) :=
  match data with
  | [] => Ok []
  | code :: rest =>
      match fuel with
      | O => Err "option parser out of steps"
      | S fuel =>
          if code =? OptionPad then
            let* opts := parseOptions fuel rest in
            Ok (OptionGeneric OptionPad [] :: opts)
          else if code =? OptionEnd then Ok [OptionGeneric OptionEnd []]
          else
            match rest with
            | [] => Err "option without a length byte"
            | len :: body =>
                if (Z.of_nat (length body) <? len) then
                  Err "option value longer than the buffer"
                else
                  let* opt := parseVariant code (take (Z.to_nat len) body) in
                  let* opts := parseOptions fuel (drop (Z.to_nat len) body) in
                  Ok (opt :: opts)
            end
      end
  end.

Definition OptionsFromBytes (data : list Z) : result (list Option) :=
  if (length data <? 4)%nat then Err "invalid options: shorter than 4 bytes"
  else if negb (bytesEqual (take 4 data) MagicCookie)
  then Err "invalid magic cookie"
  else parseOptions (length data) (drop 4 data).

(** *** Constructors *)

(** What [crypto/rand.Read(b)] gave for the 4-byte buffer [b]. *)
Record RandRead : Type := mkRandRead {
  rr_bytes : list Z;
  rr_n : Z;
  rr_err : option string
}.

Definition GenerateTransactionID (r : RandRead) : result Z :=
  if negb (rr_n r =? 4)
  then Err "Invalid random sequence: smaller than 32 bits"
  else match rr_err r with
       | Some e => Err e
       | None => Ok (LittleEndian_Uint32 (rr_bytes r))
       end.

Definition New (r : RandRead) : result DHCPv4 :=
  let* tid := GenerateTransactionID r in
  let d :=
    {| opcode := OpcodeBootRequest;
       hwType := HwTypeEthernet;
       hwAddrLen := 6;
       hopCount := 0;
       transactionID := tid;
       numSeconds := 0;
       flags := 0;
       clientIPAddr := IPv4zero;
       yourIPAddr := IPv4zero;
       serverIPAddr := IPv4zero;
       gatewayIPAddr := IPv4zero;
       clientHwAddr := copy (replicate 16 0) (replicate 16 0);
       serverHostName := copy (replicate 64 0) [];
       bootFileName := copy (replicate 128 0) [];
       options := [] |} in
  let* options := OptionsFromBytes MagicCookie in
  let d := with_options options d in
  (* the End option has to be added explicitly *)
  Ok (AddOption (OptionGeneric OptionEnd []) d).

Definition NewDiscovery (r : RandRead) (hwaddr : list Z) : result DHCPv4 :=
  let* d := New r in
  let d := SetOpcode OpcodeBootRequest d in
  let d := SetHwType HwTypeEthernet d in
  let d := SetHwAddrLen (Z.of_nat (length hwaddr) mod 256) d in
  let d := SetClientHwAddr hwaddr d in
  let d := SetBroadcast d in
  let d := AddOption (OptMessageType MessageTypeDiscover) d in
  let d := AddOption (OptParameterRequestList
                        [OptionSubnetMask; OptionRouter; OptionDomainName;
                         OptionDomainNameServer]) d in
  Ok d.

Definition NewInform (r : RandRead) (hwaddr : list Z) (localIP : IP)
  : result DHCPv4 :=
  let* d := New r in
  let d := SetOpcode OpcodeBootRequest d in
  let d := SetHwType HwTypeEthernet d in
  let d := SetHwAddrLen (Z.of_nat (length hwaddr) mod 256) d in
  let d := SetClientHwAddr hwaddr d in
  let d := SetClientIPAddr localIP d in
  let d := AddOption (OptMessageType MessageTypeInform) d in
  Ok d.

(** The loop of [NewRequestFromOffer] over the options of the offer: every
    option with the code of [ServerIdentifier] overwrites [serverIP]; the type
    assertion panics on another implementation with that code. *)
Fixpoint findServerIP (opts : list Option) (serverIP : IP) : result IP :=
  match opts with
  | [] => Ok serverIP
  | opt :: rest =>
      if Opt.Code opt =? OptionServerIdentifier then
        match opt with
        | OptServerIdentifier id => findServerIP rest id
        | _ => Panic "interface conversion: Option is not *OptServerIdentifier"
        end
      else findServerIP rest serverIP
  end.

(** [for _, mod := range modifiers { d = mod(d) }] *)
Fixpoint applyModifiers (modifiers : list Modifier) (d : DHCPv4)
  : result DHCPv4 :=
  match modifiers with
  | [] => Ok d
  | mod_ :: rest => let* d := mod_ d in applyModifiers rest d
  end.

Definition NewRequestFromOffer (r : RandRead) (offer : DHCPv4)
    (modifiers : list Modifier) : result DHCPv4 :=
  let* d := New r in
  let d := SetOpcode OpcodeBootRequest d in
  let d := SetHwType (hwType offer) d in
  let d := SetHwAddrLen (hwAddrLen offer) d in
  let hwaddr := clientHwAddr offer in
  let d := SetClientHwAddr hwaddr d in
  let d := SetTransactionID (transactionID offer) d in
  let d := if IsBroadcast offer then SetBroadcast d else SetUnicast d in
  (* find server IP address *)
  let* serverIP := findServerIP (options offer) None in
  match serverIP with
  | None => Err "Missing Server IP Address in DHCP Offer"
  | Some _ =>
      let d := SetServerIPAddr serverIP d in
      let d := AddOption (OptMessageType MessageTypeRequest) d in
      let d := AddOption (OptRequestedIPAddress (yourIPAddr offer)) d in
      let d := AddOption (OptServerIdentifier serverIP) d in
      applyModifiers modifiers d
  end.

Definition NewReplyFromRequest (r : RandRead) (request : DHCPv4)
    (modifiers : list Modifier) : result DHCPv4 :=
  let* reply := New r in
  let reply := SetOpcode OpcodeBootReply reply in
  let reply := SetHwType (hwType request) reply in
  let reply := SetHwAddrLen (hwAddrLen request) reply in
  let hwaddr := clientHwAddr request in
  let reply := SetClientHwAddr hwaddr reply in
  let reply := SetTransactionID (transactionID request) reply in
  let reply := SetFlags (flags request) reply in
  let reply := SetGatewayIPAddr (gatewayIPAddr request) reply in
  applyModifiers modifiers reply.

(** *** The wire format *)

Definition FromBytes (data : list Z) : result DHCPv4 :=
  if (length data <? HeaderSize)%nat
  then Err "Invalid DHCPv4 header: shorter than 236 bytes"
  else
    let d :=
      {| opcode := nth 0 data 0;
         hwType := nth 1 data 0;
         hwAddrLen := nth 2 data 0;
         hopCount := nth 3 data 0;
         transactionID := Uint32 (slice 4 8 data);
         numSeconds := Uint16 (slice 8 10 data);
         flags := Uint16 (slice 10 12 data);
         clientIPAddr := Some (slice 12 16 data);
         yourIPAddr := Some (slice 16 20 data);
         serverIPAddr := Some (slice 20 24 data);
         gatewayIPAddr := Some (slice 24 28 data);
         clientHwAddr := copy (replicate 16 0) (slice 28 44 data);
         serverHostName := copy (replicate 64 0) (slice 44 108 data);
         bootFileName := copy (replicate 128 0) (slice 108 236 data);
         options := [] |} in
    let* options := OptionsFromBytes (drop 236 data) in
    Ok (with_options options d).

(** [ValidateOptions], which [ToBytes] calls, only prints warnings. *)
Definition ToBytes (d : DHCPv4) : list Z :=
  let ret := [] in
  let ret := ret ++ [opcode d] in
  let ret := ret ++ [hwType d] in
  let ret := ret ++ [hwAddrLen d] in
  let ret := ret ++ [hopCount d] in
  let ret := ret ++ PutUint32 (transactionID d) in
  let ret := ret ++ PutUint16 (numSeconds d) in
  let ret := ret ++ PutUint16 (flags d) in
  let ret := ret ++ ipBytes (To4 (clientIPAddr d)) in
  let ret := ret ++ ipBytes (To4 (yourIPAddr d)) in
  let ret := ret ++ ipBytes (To4 (serverIPAddr d)) in
  let ret := ret ++ ipBytes (To4 (gatewayIPAddr d)) in
  let ret := ret ++ take 16 (clientHwAddr d) in
  let ret := ret ++ take 64 (serverHostName d) in
  let ret := ret ++ take 128 (bootFileName d) in
  let ret := ret ++ MagicCookie in
  fold_left (fun ret opt => ret ++ Opt.ToBytes opt) (options d) ret.

(** [IsOptionRequested]: the type assertion on each parameter request list
    found panics on another implementation with that code. *)
Fixpoint isRequestedIn (requested : Z) (prls : list Option) : result bool :=
  match prls with
  | [] => Ok false
  | OptParameterRequestList opts :: rest =>
      if existsb (Z.eqb requested) opts then Ok true
      else isRequestedIn requested rest
  | _ :: _ => Panic "interface conversion: Option is not *OptParameterRequestList"
  end.

Definition IsOptionRequested (requested : Z) (d : DHCPv4) : result bool :=
  isRequestedIn requested (GetOption OptionParameterRequestList d).

(** *** Modifiers of [modifiers.go]

    [GetOneOption] hands out the pointer that the option list holds, so a
    write through it changes the option in its place in the list: the first
    one with that code. *)
Fixpoint updateFirst (code : Z) (new : Option) (opts : list Option)
  : list Option :=
  match opts with
  | [] => []
  | opt :: rest =>
      if Opt.Code opt =? code then new :: rest
      else opt :: updateFirst code new rest
  end.


(** The scan of the requested codes for the two netboot codes. *)
Definition scanNetboot (requested : list Z) : bool * bool :=
  fold_left
    (fun found option =>
       if option =? OptionTFTPServerName then (true, snd found)
       else if option =? OptionBootfileName then (fst found, true)
       else found)
    requested (false, false).

Definition WithNetboot (d : DHCPv4) : result DHCPv4 :=
  match GetOneOption OptionParameterRequestList d with
  | Some (OptParameterRequestList requestedOpts) =>
      let found := scanNetboot requestedOpts in
      let requestedOpts :=
        if negb (fst found) then requestedOpts ++ [OptionTFTPServerName]
        else requestedOpts in
      let requestedOpts :=
        if negb (snd found) then requestedOpts ++ [OptionBootfileName]
        else requestedOpts in
      Ok (with_options
            (updateFirst OptionParameterRequestList
               (OptParameterRequestList requestedOpts) (options d)) d)
  | Some _ =>
      Panic "interface conversion: Option is not *OptParameterRequestList"
  | None =>
      Ok (AddOption (OptParameterRequestList
                       [OptionTFTPServerName; OptionBootfileName]) d)
  end.

Definition WithRequestedOptions (optionCodes : list Z) (d : DHCPv4)
  : result DHCPv4 :=
  let '(params, d) :=
    match GetOneOption OptionParameterRequestList d with
    | None =>
        let params := OptParameterRequestList [] in
        (params, AddOption params d)
    | Some params => (params, d)
    end in
  match params with
  | OptParameterRequestList requestedOpts =>
      Ok (with_options
            (updateFirst OptionParameterRequestList
               (OptParameterRequestList (requestedOpts ++ optionCodes))
               (options d)) d)
  | _ => Panic "interface conversion: Option is not *OptParameterRequestList"
  end.

Definition WithRelay (ip : IP) (d : DHCPv4) : result DHCPv4 :=
  let d := SetUnicast d in
  let d := SetGatewayIPAddr ip d in
  let d := SetHopCount 1 d in
  Ok d.

(** *** The receive path of [BroadcastSendReceive] ([client.go])

    The goroutine reads datagrams until one is the reply it waits for.  What
    the socket delivers is an input of the model: a list of reads, each a
    datagram or a read error.  When the list is used up the goroutine is
    blocked in [ReadMsgUDP]; the read deadline set before the loop ends that
    read with an error. *)
Definition MaxUDPReceivedPacketSize : nat := Z.to_nat 8192.

Inductive RecvEvent : Type :=
| Datagram (payload : list Z)
| ReadError (e : string).

Inductive LoopOutcome : Type :=
| Found (response : DHCPv4)   (* [break]; then [recvErrors <- nil] *)
| Failed (e : string)         (* [errs <- innerErr; return] *)
| Crashed (e : string)        (* a panic in the goroutine *)
| Blocked.                    (* no more datagrams: reading until the deadline *)

(** The two tests after [FromBytes] look at the variable [err] of the
    enclosing function, which is [nil] there, and not at [innerErr]: when
    the parse fails, [response] is [nil] and [response.TransactionID()]
    dereferences it. *)
Fixpoint receiveLoop (packet : DHCPv4) (messageType : Z)
    (events : list RecvEvent) : LoopOutcome :=
  match events with
  | [] => Blocked
  | ReadError e :: _ => Failed e
  | Datagram payload :: rest =>
      match FromBytes (take MaxUDPReceivedPacketSize payload) with
      | Err _ => Crashed "invalid memory address or nil pointer dereference"
      | Panic e => Crashed e
      | Ok response =>
          (* check that this is a response to our message *)
          if negb (transactionID response =? transactionID packet)
          then receiveLoop packet messageType rest
          (* wait for a response message *)
          else if negb (opcode response =? OpcodeBootReply)
          then receiveLoop packet messageType rest
          else if messageType =? MessageTypeNone then Found response
          else
            match MessageType response with
            | Panic e => Crashed e
            | Err e => Crashed e
            | Ok None => receiveLoop packet messageType rest
            | Ok (Some t) =>
                if t =? messageType then Found response
                else receiveLoop packet messageType rest
            end
      end
  end.

(** What the operating system and the clock decide in one call. *)
Record Network : Type := mkNetwork {
  marshalErr : option string;    (* result of [ipv4.Header.Marshal] *)
  fileConnErr : option string;   (* result of [net.FileConn] *)
  sendtoErr : option string;     (* result of [unix.Sendto] *)
  timerFirst : bool;             (* [time.After] fires before the goroutine is done *)
  received : list RecvEvent;
  deadlineErr : string           (* error of [ReadMsgUDP] at the read deadline *)
}.

Definition BroadcastSendReceive (net : Network) (packet : DHCPv4)
    (messageType : Z) : result DHCPv4 :=
  match marshalErr net with
  | Some e => Err e
  | None =>
      match sendtoErr net with
      | Some e => Err e
      | None =>
          if timerFirst net then Err "timed out while listening for replies"
          else
            match fileConnErr net with
            | Some _ => Panic "invalid memory address or nil pointer dereference"
            | None =>
                match receiveLoop packet messageType (received net) with
                | Found response => Ok response
                | Failed e => Err e
                | Crashed e => Panic e
                | Blocked => Err (deadlineErr net)
                end
            end
      end
  end.

End dhcpv4.

(** ** Package [dhcpv6]: the [OptIAPrefix] option *)

Module dhcpv6.

(** Modelled from the spec: the framing of the DHCPv6 options, whose parser
    is not among the sources.  Sections 3.2, 4.2 and 6.1: every option on
    the wire is [code : u16], [length : u16], both big-endian, and [length]
    bytes of value; a buffer with less than the header or the value bytes
    left is a parse error.  The variant parsers behind the dispatch by code
    are not specified: an option is kept here as its code and its value.  The
    fuel only bounds the recursion, every step consumes four bytes. *)
Fixpoint optionTLVs (fuel : nat) (data : list Z)
  : result (list (Z * list Z)) :=
  match data with
  | [] => Ok []
  | _ :: _ =>
      match fuel with
      | O => Err "option parser out of steps"
      | S fuel =>
          if (length data <? 4)%nat then Err "short buffer: option header"
          else
            let code := Uint16 (slice 0 2 data) in
            let len := Uint16 (slice 2 4 data) in
            let body := drop 4 data in
            if (Z.of_nat (length body) <? len) then
              Err "short buffer: option value"
            else
              let* opts := optionTLVs fuel (drop (Z.to_nat len) body) in
              Ok ((code, take (Z.to_nat len) body) :: opts)
      end
  end.

Definition ParseOptionTLVs (data : list Z) : result (list (Z * list Z)) :=
  optionTLVs (length data) data.

(** The option, over the form [Options] in which it holds its sub-options. *)
Record OptIAPrefix (Options : Type) : Type := mkOptIAPrefix {
  preferredLifetime : Z;   (* uint32 *)
  validLifetime : Z;       (* uint32 *)
  prefixLength : Z;        (* byte *)
  ipv6Prefix : list Z;     (* 16 bytes *)
  options : Options        (* the sub-options *)
}.

Arguments mkOptIAPrefix {Options}.
Arguments preferredLifetime {Options}.
Arguments validLifetime {Options}.
Arguments prefixLength {Options}.
Arguments ipv6Prefix {Options}.
Arguments options {Options}.

(** Modelled from the spec: [ParseOptIAPrefix], whose file is not among the
    sources (only its test file is).  Section 3.2: the payload is
    [preferred_lifetime : u32], [valid_lifetime : u32], [prefix_length : u8],
    [ipv6_prefix : 16 bytes], [sub_options : remainder]; the minimum
    parseable payload is 25 bytes and a shorter slice is a parse error.  The
    integers of the wire are big-endian (section 6.1).  Section 4.2 has the
    sub-options parsed by the option parser, a short buffer being an error,
    while the test file reads [Options()] back as a byte slice: how the
    remainder is read is the parameter [ParseOptions], its error being the
    error of the parse. *)
Definition ParseOptIAPrefix {Options : Type}
    (ParseOptions : list Z -> result Options) (data : list Z)
  : result (OptIAPrefix Options) :=
  if (length data <? 25)%nat
  then Err "Invalid IA for Prefix Delegation data length"
  else
    let* subOptions := ParseOptions (drop 25 data) in
    Ok {| preferredLifetime := Uint32 (slice 0 4 data);
          validLifetime := Uint32 (slice 4 8 data);
          prefixLength := nth 8 data 0;
          ipv6Prefix := slice 9 25 data;
          options := subOptions |}.

(** The remainder kept as the bytes it is. *)
Definition rawOptions (data : list Z) : result (list Z) := Ok data.

End dhcpv6.

(** * The vocabulary of the statements *)

Import dhcpv4.

(** The fixed BOOTP header of a message, field after field, with the four
    addresses in the form that [To4] gives. *)
Definition fixedHeader (d : DHCPv4) : list Z :=
  [opcode d; hwType d; hwAddrLen d; hopCount d]
  ++ PutUint32 (transactionID d)
  ++ PutUint16 (numSeconds d)
  ++ PutUint16 (flags d)
  ++ ipBytes (To4 (clientIPAddr d))
  ++ ipBytes (To4 (yourIPAddr d))
  ++ ipBytes (To4 (serverIPAddr d))
  ++ ipBytes (To4 (gatewayIPAddr d))
  ++ take 16 (clientHwAddr d)
  ++ take 64 (serverHostName d)
  ++ take 128 (bootFileName d).

(** The TLVs of an option list, in the order of the list. *)
Definition optionBytes (opts : list Option) : list Z :=
  concat (map Opt.ToBytes opts).

(** An address that converts to a 4-byte IPv4 address. *)
Definition isIPv4 (ip : IP) : Prop := To4 ip <> None.

Definition ipv4_addresses (d : DHCPv4) : Prop :=
  isIPv4 (clientIPAddr d) /\ isIPv4 (yourIPAddr d) /\
  isIPv4 (serverIPAddr d) /\ isIPv4 (gatewayIPAddr d).

(** How many of the four address fields convert to IPv4. *)
Definition countIPv4 (d : DHCPv4) : nat :=
  length (filter (fun ip => isIPv4 ip)
            [clientIPAddr d; yourIPAddr d; serverIPAddr d; gatewayIPAddr d]).

Definition sampleRand : RandRead := mkRandRead [17; 34; 51; 68] 4 None.
Definition sampleHwAddr : list Z := [0; 17; 34; 51; 68; 85].
Definition sampleClient : IP := Some [192; 168; 0; 1].
Definition IPv6loopback : IP :=
  Some [0; 0; 0; 0; 0; 0; 0; 0; 0; 0; 0; 0; 0; 0; 0; 1].

(** A request with the given client address and options, everything else as
    [New] leaves it. *)
Definition sampleMessage (client : IP) (opts : list Option) : DHCPv4 :=
  {| opcode := OpcodeBootRequest;
     hwType := HwTypeEthernet;
     hwAddrLen := 6;
     hopCount := 0;
     transactionID := 1144201745;
     numSeconds := 0;
     flags := 0;
     clientIPAddr := client;
     yourIPAddr := IPv4zero;
     serverIPAddr := IPv4zero;
     gatewayIPAddr := IPv4zero;
     clientHwAddr := sampleHwAddr ++ replicate 10 0;
     serverHostName := replicate 64 0;
     bootFileName := replicate 128 0;
     options := opts |}.

(** Every option that carries the code of [ServerIdentifier] is an
    [OptServerIdentifier]: the type assertion of the loop does not panic. *)
Definition serverIdentifiersTyped (opts : list Option) : Prop :=
  Forall (fun o => Opt.Code o = OptionServerIdentifier ->
                   exists id, o = OptServerIdentifier id) opts.

(** The identifier that the loop ends with: the one of the last option with
    that code, the initial value when there is none. *)
Definition lastServerID (opts : list Option) (init : IP) : IP :=
  match last (filter (fun o => Opt.Code o = OptionServerIdentifier) opts) with
  | Some (OptServerIdentifier id) => id
  | _ => init
  end.

Definition offerTwoServers : DHCPv4 :=
  sampleMessage sampleClient
    [OptMessageType MessageTypeOffer;
     OptServerIdentifier (Some [10; 0; 0; 1]);
     OptServerIdentifier (Some [10; 0; 0; 2]);
     OptionGeneric OptionEnd []].

(** The requested codes of the first parameter request list, none when the
    message has no such option. *)
Definition requestedOf (d : DHCPv4) : list Z :=
  match GetOneOption OptionParameterRequestList d with
  | Some (OptParameterRequestList l) => l
  | _ => []
  end.

(** The first option with the code of the parameter request list, if any,
    is an [OptParameterRequestList]: the type assertion does not panic. *)
Definition requestListTyped (d : DHCPv4) : Prop :=
  forall o, GetOneOption OptionParameterRequestList d = Some o ->
            exists l, o = OptParameterRequestList l.

(** A code is added at the end unless the list has it. *)
Definition addMissing (code : Z) (l : list Z) : list Z :=
  if existsb (Z.eqb code) l then l else l ++ [code].

Definition occurrences (code : Z) (l : list Z) : nat :=
  count_occ Z.eq_dec l code.

Definition requestsTFTPTwice : DHCPv4 :=
  sampleMessage sampleClient
    [OptParameterRequestList [OptionTFTPServerName; OptionTFTPServerName];
     OptionGeneric OptionEnd []].

(** The three conditions under which the loop breaks. *)
Definition accepted (packet : DHCPv4) (messageType : Z) (response : DHCPv4)
  : Prop :=
  transactionID response = transactionID packet /\
  opcode response = OpcodeBootReply /\
  (messageType = MessageTypeNone \/
   MessageType response = Ok (Some messageType)).

(** A parsed datagram that fails one of them. *)
Definition rejected (packet : DHCPv4) (messageType : Z) (response : DHCPv4)
  : Prop :=
  transactionID response <> transactionID packet \/
  opcode response <> OpcodeBootReply \/
  (messageType <> MessageTypeNone /\
   exists t, MessageType response = Ok t /\ t <> Some messageType).

Definition parsesTo (payload : list Z) (response : DHCPv4) : Prop :=
  FromBytes (take MaxUDPReceivedPacketSize payload) = Ok response.

(** What the parser of the option area returns under the code of the
    message type is an [OptMessageType]. *)
Definition messageTypesTyped (opts : list Option) : Prop :=
  Forall (fun o => Opt.Code o = OptionDHCPMessageType ->
                   exists t, o = OptMessageType t) opts.

(** A discovery, an offer that answers it, and an offer for another
    transaction. *)
Definition sampleDiscover : DHCPv4 :=
  sampleMessage sampleClient
    [OptMessageType MessageTypeDiscover; OptionGeneric OptionEnd []].

Definition sampleOffer : DHCPv4 :=
  with_opcode OpcodeBootReply
    (with_yourIPAddr (Some [192; 168; 0; 7])
       (sampleMessage (Some [0; 0; 0; 0])
          [OptMessageType MessageTypeOffer;
           OptServerIdentifier (Some [192; 168; 0; 254]);
           OptionGeneric OptionEnd []])).

Definition strayOffer : DHCPv4 := with_transactionID 7 sampleOffer.

Definition quietNetwork (events : list RecvEvent) : Network :=
  {| marshalErr := None; fileConnErr := None; sendtoErr := None;
     timerFirst := false; received := events;
     deadlineErr := "i/o timeout" |}.

(** The payloads of [TestOptIAPrefix] and
    [TestOptIAPrefixParseInvalidTooShort]. *)
Definition testPayload : list Z :=
  [170; 187; 204; 221; 238; 255; 0; 17; 36;
   0; 0; 0; 0; 0; 0; 0; 0; 0; 0; 0; 0; 0; 0; 0; 1].

Definition testPayloadTooShort : list Z :=
  [170; 187; 204; 221; 238; 255; 0; 17; 36; 0; 0; 0; 0; 0; 0; 0].

(** The form in which a parsed message holds an address: the one [To4]
    gives. *)
Definition canonicalOption (o : Option) : Option :=
  match o with
  | OptRequestedIPAddress ip => OptRequestedIPAddress (To4 ip)
  | OptServerIdentifier ip => OptServerIdentifier (To4 ip)
  | _ => o
  end.

Definition canonical (d : DHCPv4) : DHCPv4 :=
  mkDHCPv4 (opcode d) (hwType d) (hwAddrLen d) (hopCount d) (transactionID d)
    (numSeconds d) (flags d)
    (To4 (clientIPAddr d)) (To4 (yourIPAddr d))
    (To4 (serverIPAddr d)) (To4 (gatewayIPAddr d))
    (clientHwAddr d) (serverHostName d) (bootFileName d)
    (map canonicalOption (options d)).

(** A user class option that its parser reads back from its value. *)
Definition userClassReadBack (ucs : list (list Z)) (rfc : bool) : Prop :=
  parseVariant OptionUserClassInformation (Opt.userClassValue ucs rfc)
  = Ok (OptUserClass ucs rfc).

(** An option that the wire format can carry and give back. *)
Definition optionLegal (o : Option) : Prop :=
  match o with
  | OptionGeneric c data =>
      (length data <= 255)%nat /\
      c <> OptionDHCPMessageType /\ c <> OptionParameterRequestList /\
      c <> OptionRequestedIPAddress /\ c <> OptionServerIdentifier /\
      c <> OptionUserClassInformation /\
      (c = OptionPad \/ c = OptionEnd -> data = [])
  | OptMessageType _ => True
  | OptParameterRequestList l => (length l <= 255)%nat
  | OptRequestedIPAddress ip => isIPv4 ip
  | OptServerIdentifier ip => isIPv4 ip
  | OptUserClass ucs rfc =>
      (length (Opt.userClassValue ucs rfc) <= 255)%nat /\
      userClassReadBack ucs rfc
  end.

(** No option follows an [End]. *)
Fixpoint endOnlyLast (opts : list Option) : Prop :=
  match opts with
  | [] => True
  | o :: rest => (Opt.Code o = OptionEnd -> rest = []) /\ endOnlyLast rest
  end.

Definition optionsLegal (opts : list Option) : Prop :=
  Forall optionLegal opts /\ endOnlyLast opts.

Definition legal (d : DHCPv4) : Prop :=
  well_typed d /\ ipv4_addresses d /\ optionsLegal (options d).



(** An address held in its 4-byte form. *)
Definition fourBytes (ip : IP) : Prop :=
  exists p, ip = Some p /\ length p = 4%nat.



(** * Further functions of the package *)

(** ** Interfaces and their addresses ([dhcpv4.go]) *)

(** [net.IP.IsLoopback] *)
Definition IsLoopback (ip : IP) : bool :=
  match To4 ip with
  | Some ip4 => nth 0 ip4 0 =? 127
  | None => IP_Equal ip IPv6loopback
  end.

(** The implementations of [net.Addr]: [*net.IPAddr], [*net.IPNet] and any
    other one. *)
Inductive Addr : Type :=
| IPAddr (ip : IP)
| IPNet (ip : IP) (mask : list Z)
| OtherAddr.

(** What the package reads of a [net.Interface]. *)
Record Interface : Type := mkInterface {
  HardwareAddr : list Z;
  Addrs : result (list Addr)
}.

(** The address that an [Addr] carries. *)
Definition addrIP (a : Addr) : IP :=
  match a with
  | IPAddr ip => ip
  | IPNet ip _ => ip
  | OtherAddr => None
  end.

(** The 4-byte form of the address of [a] when it is an IPv4 address that
    does not start with 127. *)
Definition externalIPv4 (a : Addr) : list IP :=
  match To4 (addrIP a) with
  | Some p => if nth 0 p 0 =? 127 then [] else [Some p]
  | None => []
  end.

(** The body of the loop of [GetExternalIPv4Addrs]. *)
Definition keepExternalIPv4 (v4addrs : list IP) (addr : Addr) : list IP :=
  let ip :=
    match addr with
    | IPAddr ip => ip
    | IPNet ip _ => ip
    | OtherAddr => None
    end in
  match ip with
  | None => v4addrs
  | Some _ =>
      if IsLoopback ip then v4addrs
      else
        match To4 ip with
        | None => v4addrs
        | Some ip4 => v4addrs ++ [Some ip4]
        end
  end.

Definition GetExternalIPv4Addrs (addrs : list Addr) : result (list IP) :=
  Ok (fold_left keepExternalIPv4 addrs []).

Definition IPv4AddrsForInterface (iface : option Interface)
  : result (list IP) :=
  match iface with
  | None => Err "IPv4AddrsForInterface: iface cannot be nil"
  | Some iface =>
      let* addrs := Addrs iface in
      GetExternalIPv4Addrs addrs
  end.

(** [net.InterfaceByName] is an input: what the lookup of a name gives. *)
Definition NewDiscoveryForInterface
    (InterfaceByName : string -> result Interface) (r : RandRead)
    (ifname : string) : result DHCPv4 :=
  let* iface := InterfaceByName ifname in
  NewDiscovery r (HardwareAddr iface).

Definition NewInformForInterface
    (InterfaceByName : string -> result Interface) (r : RandRead)
    (ifname : string) (needsBroadcast : bool) : result DHCPv4 :=
  let* iface := InterfaceByName ifname in
  match IPv4AddrsForInterface (Some iface) with
  | Panic e => Panic e
  | Err _ | Ok [] =>
      Err ("could not get local IPs for iface " ++ ifname)
  | Ok (localIP :: _) =>
      let* pkt := NewInform r (HardwareAddr iface) localIP in
      Ok (if needsBroadcast then SetBroadcast pkt else SetUnicast pkt)
  end.

(** ** String forms and checks of a message ([dhcpv4.go]) *)

(** [strings.TrimRight(s, "\x00")] on the bytes of the string. *)
Fixpoint trimRightNUL (s : list Z) : list Z :=
  match s with
  | [] => []
  | b :: rest =>
      match trimRightNUL rest with
      | [] => if b =? 0 then [] else [b]
      | t => b :: t
      end
  end.

Definition ServerHostNameToString (d : DHCPv4) : list Z :=
  trimRightNUL (serverHostName d).

Definition BootFileNameToString (d : DHCPv4) : list Z :=
  trimRightNUL (bootFileName d).

Definition hexDigit (n : Z) : ascii :=
  nth (Z.to_nat n)
    ["0"; "1"; "2"; "3"; "4"; "5"; "6"; "7"; "8"; "9";
     "a"; "b"; "c"; "d"; "e"; "f"]%char "0"%char.

(** [fmt.Sprintf("%02x", b)] for a byte. *)
Definition hex02 (b : Z) : string :=
  String (hexDigit (b / 16)) (String (hexDigit (b mod 16)) EmptyString).

(** The slice expression [d.clientHwAddr[:d.hwAddrLen]] of the 16-byte array
    panics when the length exceeds 16. *)
Definition ClientHwAddrToString (d : DHCPv4) : result string :=
  if 16 <? hwAddrLen d then Panic "slice bounds out of range"
  else Ok (String.concat ":"
             (map hex02 (take (Z.to_nat (hwAddrLen d)) (clientHwAddr d)))).

(** The warnings that [ValidateOptions] prints, in order. *)
Inductive Warning : Type :=
| DuplicateEnd                 (* found duplicate End option *)
| AfterEnd (code : Z)          (* found option after End option *)
| NoEnd.                       (* no End option found *)

Definition validateStep (st : bool * list Warning) (opt : Option)
  : bool * list Warning :=
  let '(foundOptionEnd, log) := st in
  let log :=
    if foundOptionEnd then
      let log :=
        if Opt.Code opt =? OptionEnd then log ++ [DuplicateEnd] else log in
      if negb (Opt.Code opt =? OptionEnd) && negb (Opt.Code opt =? OptionPad)
      then log ++ [AfterEnd (Opt.Code opt)]
      else log
    else log in
  (if Opt.Code opt =? OptionEnd then true else foundOptionEnd, log).

Definition ValidateOptions (d : DHCPv4) : list Warning :=
  let '(foundOptionEnd, log) := fold_left validateStep (options d) (false, []) in
  if negb foundOptionEnd then log ++ [NoEnd] else log.


(** ** The client ([client.go]) *)

(** Modelled from the spec: the ports of [defaults.go], which is not among
    the sources (section 4.5: source port 68, destination port 67). *)
Definition ClientPort : Z := 68.
Definition ServerPort : Z := 67.

(** The UDP header that [MakeRawBroadcastPacket] writes. *)
Definition udpHeader (payload : list Z) : list Z :=
  PutUint16 ClientPort ++ PutUint16 ServerPort
  ++ PutUint16 ((8 + Z.of_nat (length payload)) mod 65536)
  ++ PutUint16 0.

(** [Marshal] is [ipv4.Header.Marshal] of [golang.org/x/net], an input: what
    it gives for the header with the total length passed. *)
Definition MakeRawBroadcastPacket (Marshal : Z -> result (list Z))
    (payload : list Z) : result (list Z) :=
  let udp := udpHeader payload in
  let* ret := Marshal (20 + Z.of_nat (length udp) + Z.of_nat (length payload)) in
  let ret := ret ++ udp in
  let ret := ret ++ payload in
  Ok ret.

(** What [Exchange] returns: the conversation and the error, or a panic. *)
Inductive Exchanged : Type :=
| Returned (conversation : list DHCPv4) (err : option string)
| Aborted (e : string).

(** What the system decides during one [Exchange]. *)
Record World : Type := mkWorld {
  broadcastSocketErr : option string;   (* of [MakeBroadcastSocket] *)
  listeningSocketErr : option string;   (* of [MakeListeningSocket] *)
  InterfaceByName : string -> result Interface;
  discoverRand : RandRead;              (* random source for the discovery *)
  requestRand : RandRead;               (* random source for the request *)
  offerNetwork : Network;               (* first [BroadcastSendReceive] *)
  ackNetwork : Network                  (* second [BroadcastSendReceive] *)
}.

(** The end of [Exchange], from the request on. *)
Definition exchangeRequest (w : World) (modifiers : list Modifier)
    (conversation : list DHCPv4) (offer : DHCPv4) : Exchanged :=
  match NewRequestFromOffer (requestRand w) offer modifiers with
  | Panic e => Aborted e
  | Err e => Returned conversation (Some e)
  | Ok request =>
      let conversation := conversation ++ [request] in
      match BroadcastSendReceive (ackNetwork w) request MessageTypeAck with
      | Panic e => Aborted e
      | Err e => Returned conversation (Some e)
      | Ok ack => Returned (conversation ++ [ack]) None
      end
  end.

Definition Exchange (w : World) (ifname : string) (discover : option DHCPv4)
    (modifiers : list Modifier) : Exchanged :=
  let conversation := [] in
  match broadcastSocketErr w with
  | Some e => Returned conversation (Some e)
  | None =>
  match listeningSocketErr w with
  | Some e => Returned conversation (Some e)
  | None =>
  match (match discover with
         | None => NewDiscoveryForInterface (InterfaceByName w)
                     (discoverRand w) ifname
         | Some discover => Ok discover
         end) with
  | Panic e => Aborted e
  | Err e => Returned conversation (Some e)
  | Ok discover =>
  match applyModifiers modifiers discover with
  | Panic e => Aborted e
  | Err e => Aborted e
  | Ok discover =>
      let conversation := conversation ++ [discover] in
      match BroadcastSendReceive (offerNetwork w) discover MessageTypeOffer with
      | Panic e => Aborted e
      | Err e => Returned conversation (Some e)
      | Ok offer =>
          let conversation := conversation ++ [offer] in
          exchangeRequest w modifiers conversation offer
      end
  end end end end.

(** * Further vocabulary *)

(** No option of the list has the code. *)
Definition noCode (code : Z) (opts : list Option) : Prop :=
  Forall (fun o => Opt.Code o <> code) opts.

(** An option list that [ValidateOptions] accepts: one [End], and only [Pad]
    options after it. *)
Definition endsProperly (opts : list Option) : Prop :=
  exists pre e pads,
    opts = pre ++ e :: pads /\
    noCode OptionEnd pre /\
    Opt.Code e = OptionEnd /\
    Forall (fun o => Opt.Code o = OptionPad) pads.

(** Every option under the code of the parameter request list is one. *)
Definition requestListsTyped (d : DHCPv4) : Prop :=
  Forall (fun o => Opt.Code o = OptionParameterRequestList ->
                   exists l, o = OptParameterRequestList l) (options d).

(** The warning, if any, that an option met after the first [End] draws. *)
Definition warningAfterEnd (o : Option) : list Warning :=
  if Opt.Code o =? OptionEnd then [DuplicateEnd]
  else if Opt.Code o =? OptionPad then []
  else [AfterEnd (Opt.Code o)].

(** A modifier that leaves the transaction id as it finds it. *)
Definition keepsTransactionID (m : Modifier) : Prop :=
  forall d d', m d = Ok d' -> transactionID d' = transactionID d.

(** The acknowledgement that follows the sample offer, and a world in which
    the exchange that starts with the sample discovery goes through. *)
Definition sampleAck : DHCPv4 :=
  with_options
    [OptMessageType MessageTypeAck;
     OptServerIdentifier (Some [192; 168; 0; 254]);
     OptionGeneric OptionEnd []] sampleOffer.

Definition sampleWorld : World :=
  {| broadcastSocketErr := None;
     listeningSocketErr := None;
     InterfaceByName := fun _ => Err "no such network interface";
     discoverRand := sampleRand;
     requestRand := sampleRand;
     offerNetwork :=
       quietNetwork [Datagram (ToBytes strayOffer);
                     Datagram (ToBytes sampleOffer)];
     ackNetwork := quietNetwork [Datagram (ToBytes sampleAck)] |}.

(** The serialization of the sample offer with the length byte set to 17. *)
Definition longLengthPacket : list Z :=
  ToBytes (with_hwAddrLen 17 sampleOffer).

(** * Properties *)

(** ** Fixed-width integers *)

Section Integers.

Lemma land_255 (v : Z) : Z.land v 255 = v mod 256.
Proof. change 255 with (Z.ones 8). rewrite Z.land_ones by lia. reflexivity. Qed.

Lemma shiftr_div (v n : Z) : 0 <= n -> Z.shiftr v n = v / 2 ^ n.
Proof. intros Hn. apply Z.shiftr_div_pow2. exact Hn. Qed.

(** A value below [2^k] and a value shifted left by [k] share no bit. *)
Lemma lor_shiftl_add (lo hi k : Z) :
  0 <= k -> 0 <= lo < 2 ^ k -> Z.lor lo (Z.shiftl hi k) = lo + hi * 2 ^ k.
Proof.
  intros Hk Hlo.
  assert (Hdisj : Z.land lo (Z.shiftl hi k) = 0).
  { apply Z.bits_inj'. intros n Hn.
    rewrite Z.land_spec, Z.bits_0.
    destruct (Z.lt_ge_cases n k) as [Hlt | Hge].
    - rewrite Z.shiftl_spec_low by exact Hlt. apply andb_false_r.
    - destruct (Z.eq_dec lo 0) as [-> | Hne].
      + rewrite Z.bits_0. reflexivity.
      + rewrite (Z.bits_above_log2 lo n); [reflexivity | lia |].
        apply Z.log2_lt_pow2; [lia |].
        apply Z.lt_le_trans with (2 ^ k); [lia |].
        apply Z.pow_le_mono_r; lia. }
  rewrite <- Z.lxor_lor by exact Hdisj.
  rewrite <- Z.add_nocarry_lxor by exact Hdisj.
  rewrite Z.shiftl_mul_pow2 by exact Hk. reflexivity.
Qed.

Lemma Uint16_value (a b : Z) :
  is_byte a -> is_byte b -> Uint16 [a; b] = a * 256 + b.
Proof.
  unfold is_byte, Uint16. intros Ha Hb. cbn [nth].
  rewrite lor_shiftl_add by lia. lia.
Qed.

Lemma Uint32_value (a b c d : Z) :
  is_byte a -> is_byte b -> is_byte c -> is_byte d ->
  Uint32 [a; b; c; d] = a * 2 ^ 24 + b * 2 ^ 16 + c * 2 ^ 8 + d.
Proof.
  unfold is_byte, Uint32. intros Ha Hb Hc Hd. cbn [nth].
  rewrite (lor_shiftl_add d c 8) by lia.
  rewrite (lor_shiftl_add _ b 16) by lia.
  rewrite (lor_shiftl_add _ a 24) by lia.
  lia.
Qed.

Lemma PutUint16_bytes (v : Z) : bytes_ok (PutUint16 v).
Proof.
  unfold PutUint16, bytes_ok, is_byte.
  repeat constructor; rewrite land_255; apply Z.mod_pos_bound; lia.
Qed.

Lemma PutUint32_bytes (v : Z) : bytes_ok (PutUint32 v).
Proof.
  unfold PutUint32, bytes_ok, is_byte.
  repeat constructor; rewrite land_255; apply Z.mod_pos_bound; lia.
Qed.

Lemma Uint16_PutUint16 (v : Z) : 0 <= v < 2 ^ 16 -> Uint16 (PutUint16 v) = v.
Proof.
  intros Hv. unfold PutUint16.
  rewrite Uint16_value;
    try (unfold is_byte; rewrite land_255; apply Z.mod_pos_bound; lia).
  rewrite !land_255, shiftr_div by lia.
  change (2 ^ 8) with 256. change (2 ^ 16) with 65536 in Hv.
  Z.div_mod_to_equations. lia.
Qed.

Lemma Uint32_PutUint32 (v : Z) : 0 <= v < 2 ^ 32 -> Uint32 (PutUint32 v) = v.
Proof.
  intros Hv. unfold PutUint32.
  rewrite Uint32_value;
    try (unfold is_byte; rewrite land_255; apply Z.mod_pos_bound; lia).
  rewrite !land_255, !shiftr_div by lia.
  change (2 ^ 8) with 256. change (2 ^ 16) with 65536.
  change (2 ^ 24) with 16777216. change (2 ^ 32) with 4294967296 in Hv.
  Z.div_mod_to_equations. lia.
Qed.

End Integers.

(** ** Addresses *)

Section Addresses.

Lemma To4_length (ip : IP) (p : list Z) : To4 ip = Some p -> length p = 4%nat.
Proof.
  destruct ip as [q |]; cbn; [| discriminate].
  destruct (Nat.eqb_spec (length q) IPv4len) as [H4 | _].
  - intros [= <-]. exact H4.
  - destruct (Nat.eqb_spec (length q) IPv6len) as [H16 | _]; cbn;
      [| discriminate].
    destruct (isZeros _ && _ && _); [| discriminate].
    intros [= <-]. unfold slice. rewrite length_take, length_drop.
    unfold IPv6len in H16. lia.
Qed.

Lemma ipBytes_To4_length (ip : IP) :
  length (ipBytes (To4 ip)) = if decide (isIPv4 ip) then 4%nat else 0%nat.
Proof.
  unfold isIPv4. destruct (To4 ip) as [p |] eqn:E.
  - rewrite decide_True by discriminate. cbn. eapply To4_length, E.
  - rewrite decide_False by (intros H; apply H; reflexivity). reflexivity.
Qed.

Lemma To4_idempotent (ip : IP) : To4 (To4 ip) = To4 ip.
Proof.
  destruct (To4 ip) as [p |] eqn:E; [| reflexivity].
  apply To4_length in E. cbn. rewrite E. reflexivity.
Qed.

Lemma To4_four (p : list Z) : length p = 4%nat -> To4 (Some p) = Some p.
Proof. intros H. cbn. rewrite H. reflexivity. Qed.

End Addresses.

(** ** The layout of [ToBytes] *)

Section Layout.

Lemma fold_append_bytes (opts : list Option) (ret : list Z) :
  fold_left (fun ret opt => ret ++ Opt.ToBytes opt) opts ret
  = ret ++ optionBytes opts.
Proof.
  revert ret. induction opts as [| o opts IH]; intros ret; cbn.
  - rewrite app_nil_r. reflexivity.
  - rewrite IH. unfold optionBytes. cbn. rewrite <- app_assoc. reflexivity.
Qed.

(** [ToBytes] is the header, the cookie and the TLVs, in that order. *)
Lemma ToBytes_layout (d : DHCPv4) :
  ToBytes d = fixedHeader d ++ MagicCookie ++ optionBytes (options d).
Proof.
  unfold ToBytes, fixedHeader. rewrite fold_append_bytes.
  cbn [app]. rewrite <- !app_assoc. reflexivity.
Qed.

Lemma fixedHeader_length (d : DHCPv4) :
  arrays_sized d -> length (fixedHeader d) = (220 + 4 * countIPv4 d)%nat.
Proof.
  intros (H16 & H64 & H128). unfold fixedHeader, countIPv4.
  rewrite !length_app, !length_take, !ipBytes_To4_length.
  rewrite H16, H64, H128. cbn [length PutUint32 PutUint16 filter list_filter].
  repeat case_decide; cbn [length]; lia.
Qed.

Lemma countIPv4_four (d : DHCPv4) :
  countIPv4 d = 4%nat <-> ipv4_addresses d.
Proof.
  unfold countIPv4, ipv4_addresses. cbn [filter list_filter].
  repeat case_decide; cbn [length]; split; intros Hc; try lia; tauto.
Qed.

Lemma countIPv4_le (d : DHCPv4) : (countIPv4 d <= 4)%nat.
Proof.
  unfold countIPv4. cbn [filter list_filter].
  repeat case_decide; cbn [length]; lia.
Qed.

End Layout.

(** ** Header size and magic cookie (C2, C10) *)

Section Header.

(** C2, as amended.  For every message whose four address fields convert to
    IPv4, whatever its option list holds: [ToBytes] returns at least 240
    bytes, its first 236 bytes are the fixed header, and the bytes
    [236..240] are the magic cookie [99, 130, 83, 99]. *)
Theorem ToBytes_header_then_cookie (d : DHCPv4) :
  arrays_sized d -> ipv4_addresses d ->
  (240 <= length (ToBytes d))%nat /\
  length (fixedHeader d) = 236%nat /\
  take 236 (ToBytes d) = fixedHeader d /\
  slice 236 240 (ToBytes d) = [99; 130; 83; 99].
Proof.
  intros Hsz Hip.
  assert (Hlen : length (fixedHeader d) = 236%nat).
  { rewrite fixedHeader_length by exact Hsz.
    apply countIPv4_four in Hip. rewrite Hip. reflexivity. }
  rewrite ToBytes_layout. repeat split.
  - rewrite !length_app, Hlen. cbn. lia.
  - exact Hlen.
  - rewrite take_app_length' by (symmetry; exact Hlen). reflexivity.
  - unfold slice. rewrite drop_app_length' by (symmetry; exact Hlen).
    reflexivity.
Qed.

Lemma ToBytes_header_then_cookie_witness :
  (240 <= length (ToBytes (sampleMessage sampleClient [])))%nat /\
  length (fixedHeader (sampleMessage sampleClient [])) = 236%nat /\
  take 236 (ToBytes (sampleMessage sampleClient []))
  = fixedHeader (sampleMessage sampleClient []) /\
  slice 236 240 (ToBytes (sampleMessage sampleClient []))
  = [99; 130; 83; 99].
Proof.
  apply (ToBytes_header_then_cookie (sampleMessage sampleClient [])).
  - repeat split.
  - repeat split; discriminate.
Defined.

(** C2 as stated fails: [NewInform] with an IPv6 local address builds a
    message with a non-empty option list whose serialization has the cookie
    at [232..236]; the bytes [236..240] are option bytes. *)
Lemma cookie_misplaced_for_IPv6_client :
  exists d,
    NewInform sampleRand sampleHwAddr IPv6loopback = Ok d /\
    well_typed d /\
    options d <> [] /\
    slice 232 236 (ToBytes d) = MagicCookie /\
    slice 236 240 (ToBytes d) = [53; 1; 8; 255] /\
    slice 236 240 (ToBytes d) <> MagicCookie.
Proof.
  eexists. split; [vm_compute; reflexivity |].
  split; [constructor; cbn; lia |].
  repeat split; try discriminate; vm_compute; reflexivity.
Qed.

(** With no address that converts and the lone [End] of [New], the
    serialization is shorter than 240 bytes. *)
Lemma ToBytes_shorter_than_240 :
  length (ToBytes (with_yourIPAddr None (with_serverIPAddr None
            (with_gatewayIPAddr None
               (sampleMessage None [OptionGeneric OptionEnd []])))))
  = 225%nat.
Proof. vm_compute. reflexivity. Qed.

(** C10.  The header that [ToBytes] emits before the cookie has
    [220 + 4 * k] bytes, [k] being the number of address fields that convert
    to IPv4: it has 236 bytes exactly when the four fields convert, it is
    shorter as soon as one does not, and the four setters store any address
    unchanged. *)
Theorem header_size_needs_IPv4 (d : DHCPv4) :
  arrays_sized d ->
  ToBytes d = fixedHeader d ++ MagicCookie ++ optionBytes (options d) /\
  length (fixedHeader d) = (220 + 4 * countIPv4 d)%nat /\
  (length (fixedHeader d) = 236%nat <-> ipv4_addresses d) /\
  (~ ipv4_addresses d -> (length (fixedHeader d) < 236)%nat) /\
  (forall ip : IP,
      clientIPAddr (SetClientIPAddr ip d) = ip /\
      yourIPAddr (SetYourIPAddr ip d) = ip /\
      serverIPAddr (SetServerIPAddr ip d) = ip /\
      gatewayIPAddr (SetGatewayIPAddr ip d) = ip).
Proof.
  intros Hsz.
  pose proof (fixedHeader_length d Hsz) as Hlen.
  pose proof (countIPv4_le d) as Hle.
  pose proof (countIPv4_four d) as H4.
  split; [apply ToBytes_layout |].
  split; [exact Hlen |].
  split; [| split].
  - rewrite Hlen. split; intros Hc; [apply H4; lia | apply H4 in Hc; lia].
  - intros Hno. rewrite Hlen.
    assert (countIPv4 d <> 4%nat) by (intros Hc; apply Hno, H4, Hc). lia.
  - intros ip. repeat split.
Qed.

Lemma header_size_needs_IPv4_witness :
  length (fixedHeader (SetClientIPAddr IPv6loopback (sampleMessage None [])))
  = 232%nat.
Proof.
  pose proof (header_size_needs_IPv4
                (SetClientIPAddr IPv6loopback (sampleMessage None []))
                ltac:(repeat split)) as (_ & Hlen & _).
  exact Hlen.
Defined.

End Header.

(** ** Short input (C8) *)

Section ShortInput.

(** C8.  On every input shorter than 236 bytes [FromBytes] returns the
    header error, hence no message. *)
Theorem FromBytes_short (data : list Z) :
  (length data < 236)%nat ->
  FromBytes data = Err "Invalid DHCPv4 header: shorter than 236 bytes" /\
  (forall d, FromBytes data <> Ok d).
Proof.
  intros Hlen. unfold FromBytes, HeaderSize.
  destruct (Nat.ltb_spec (length data) 236) as [_ | Hge]; [| lia].
  split; [reflexivity | discriminate].
Qed.

Lemma FromBytes_short_witness :
  FromBytes (replicate 235 0)
  = Err "Invalid DHCPv4 header: shorter than 236 bytes" /\
  (forall d, FromBytes (replicate 235 0) <> Ok d).
Proof.
  apply (FromBytes_short (replicate 235 0)).
  rewrite length_replicate. lia.
Defined.

End ShortInput.

(** ** Adding options (C4) *)

Section Adding.

Lemma AddOption_snoc_End (d : DHCPv4) (x e : Option) (pre : list Option) :
  options d = pre ++ [e] -> Opt.Code e = OptionEnd ->
  AddOption x d = with_options (pre ++ [x; e]) d.
Proof.
  intros Hopts Hcode. unfold AddOption.
  rewrite Hopts, last_snoc, Hcode, Z.eqb_refl. cbn [negb].
  f_equal. rewrite length_app. cbn [length].
  replace (length pre + 1 - 1)%nat with (length pre + 0)%nat by lia.
  rewrite insert_app_r. cbn. rewrite <- app_assoc. reflexivity.
Qed.

Lemma AddOption_snoc_other (d : DHCPv4) (x l : Option) (pre : list Option) :
  options d = pre ++ [l] -> Opt.Code l <> OptionEnd ->
  AddOption x d = with_options (pre ++ [l; x]) d.
Proof.
  intros Hopts Hcode. unfold AddOption.
  rewrite Hopts, last_snoc.
  destruct (Z.eqb_spec (Opt.Code l) OptionEnd) as [Heq | _]; [contradiction |].
  cbn [negb]. rewrite <- app_assoc. reflexivity.
Qed.

Lemma AddOption_empty (d : DHCPv4) (x : Option) :
  options d = [] -> AddOption x d = with_options [x] d.
Proof. intros Hopts. unfold AddOption. rewrite Hopts. reflexivity. Qed.

(** Once the list ends with an [End], it does so after any [AddOption]. *)
Lemma AddOption_keeps_End (d : DHCPv4) (x e : Option) :
  last (options d) = Some e -> Opt.Code e = OptionEnd ->
  last (options (AddOption x d)) = Some e.
Proof.
  intros Hlast Hcode.
  destruct (options d) as [| o os] eqn:Hopts using rev_ind;
    [discriminate |].
  rewrite last_snoc in Hlast. injection Hlast as ->.
  rewrite (AddOption_snoc_End d x e os Hopts Hcode). cbn.
  change (os ++ [x; e]) with (os ++ [x] ++ [e]).
  rewrite app_assoc, last_snoc. reflexivity.
Qed.

(** C4.  When the option list ends with an [End] option, [AddOption x] puts [x]
    immediately before that [End], which stays last; when the list is empty
    or ends with another option, [x] is appended.  No other field
    changes. *)
Theorem AddOption_End_law (d : DHCPv4) (x : Option) :
  (forall pre e,
      options d = pre ++ [e] -> Opt.Code e = OptionEnd ->
      AddOption x d = with_options (pre ++ [x; e]) d /\
      last (options (AddOption x d)) = Some e) /\
  (options d = [] -> AddOption x d = with_options (options d ++ [x]) d) /\
  (forall pre l,
      options d = pre ++ [l] -> Opt.Code l <> OptionEnd ->
      AddOption x d = with_options (options d ++ [x]) d).
Proof.
  split; [| split].
  - intros pre e Hopts Hcode. split.
    + apply AddOption_snoc_End; assumption.
    + apply AddOption_keeps_End; [| exact Hcode].
      rewrite Hopts. apply last_snoc.
  - intros Hopts. rewrite Hopts. apply AddOption_empty, Hopts.
  - intros pre l Hopts Hcode. rewrite Hopts, <- app_assoc.
    apply AddOption_snoc_other; assumption.
Qed.

Lemma AddOption_End_law_witness :
  options (AddOption (OptParameterRequestList [OptionRouter])
             (sampleMessage sampleClient
                [OptMessageType MessageTypeDiscover;
                 OptionGeneric OptionEnd []]))
  = [OptMessageType MessageTypeDiscover;
     OptParameterRequestList [OptionRouter];
     OptionGeneric OptionEnd []].
Proof.
  pose proof (AddOption_End_law
                (sampleMessage sampleClient
                   [OptMessageType MessageTypeDiscover;
                    OptionGeneric OptionEnd []])
                (OptParameterRequestList [OptionRouter])) as (Hend & _ & _).
  destruct (Hend [OptMessageType MessageTypeDiscover]
                 (OptionGeneric OptionEnd []) eq_refl eq_refl) as (Heq & _).
  rewrite Heq. reflexivity.
Defined.

End Adding.

(** ** Constructors (C5, C3) *)

Section Constructors.

Lemma GenerateTransactionID_ok (r : RandRead) :
  rr_n r = 4 -> rr_err r = None ->
  GenerateTransactionID r = Ok (LittleEndian_Uint32 (rr_bytes r)).
Proof.
  intros Hn He. unfold GenerateTransactionID. rewrite Hn, He. reflexivity.
Qed.

Lemma GenerateTransactionID_fails (r : RandRead) :
  rr_n r <> 4 \/ rr_err r <> None ->
  exists e, GenerateTransactionID r = Err e.
Proof.
  intros H. unfold GenerateTransactionID.
  destruct (Z.eqb_spec (rr_n r) 4) as [Hn | Hn]; cbn [negb]; [| eauto].
  destruct (rr_err r) as [e |]; [eauto |].
  destruct H as [H | H]; contradiction.
Qed.

Lemma OptionsFromBytes_cookie : OptionsFromBytes MagicCookie = Ok [].
Proof. reflexivity. Qed.

(** [New] fails only with the random source; otherwise its option list is
    the lone [End]. *)
Lemma New_cases (r : RandRead) :
  match New r with
  | Ok d =>
      rr_n r = 4 /\ rr_err r = None /\
      d = mkDHCPv4 OpcodeBootRequest HwTypeEthernet 6 0
            (LittleEndian_Uint32 (rr_bytes r)) 0 0
            IPv4zero IPv4zero IPv4zero IPv4zero
            (replicate 16 0) (replicate 64 0) (replicate 128 0)
            [OptionGeneric OptionEnd []]
  | Err _ => rr_n r <> 4 \/ rr_err r <> None
  | Panic _ => False
  end.
Proof.
  unfold New, GenerateTransactionID.
  destruct (Z.eqb_spec (rr_n r) 4) as [Hn | Hn]; cbn [negb bind]; [| tauto].
  destruct (rr_err r) as [e |]; cbn [bind]; [right; discriminate |].
  repeat split. exact Hn.
Qed.

(** C5, what the code does.  Whenever the random source delivers,
    [NewInform] returns a unicast message whose client address is
    [localIP] and whose option list is [MessageType(Inform)] followed by the
    [End] option that [New] has added: the list does hold an [End]. *)
Theorem NewInform_emits_End (r : RandRead) (hwaddr : list Z) (localIP : IP) :
  match NewInform r hwaddr localIP with
  | Ok d =>
      options d = [OptMessageType MessageTypeInform; OptionGeneric OptionEnd []]
      /\ last (options d) = Some (OptionGeneric OptionEnd [])
      /\ IsUnicast d = true
      /\ clientIPAddr d = localIP
  | Err _ => rr_n r <> 4 \/ rr_err r <> None
  | Panic _ => False
  end.
Proof.
  unfold NewInform. pose proof (New_cases r) as HN.
  destruct (New r) as [d | e | e]; cbn [bind]; [| exact HN | exact HN].
  destruct HN as (_ & _ & ->). repeat split.
Qed.

(** The failing input of C5, evaluated. *)
Example NewInform_sample_options :
  exists d,
    NewInform sampleRand sampleHwAddr sampleClient = Ok d /\
    options d = [OptMessageType MessageTypeInform; OptionGeneric OptionEnd []].
Proof. eexists. split; vm_compute; reflexivity. Qed.

(** *** [NewRequestFromOffer] *)

Lemma findServerIP_last (opts : list Option) (init : IP) :
  serverIdentifiersTyped opts ->
  findServerIP opts init = Ok (lastServerID opts init).
Proof.
  unfold serverIdentifiersTyped, lastServerID.
  revert init. induction opts as [| o opts IH]; intros init Hty;
    [reflexivity |].
  inversion Hty as [| ? ? Ho Hrest]; subst.
  cbn [findServerIP]. rewrite filter_cons.
  destruct (Z.eqb_spec (Opt.Code o) OptionServerIdentifier) as [Hc | Hc].
  - rewrite decide_True by exact Hc.
    destruct (Ho Hc) as [id ->]. rewrite (IH id Hrest), last_cons.
    destruct (last (filter _ opts)) as [o |] eqn:Hlast; [| reflexivity].
    apply last_Some_elem_of, list_elem_of_filter in Hlast.
    destruct Hlast as [Hco Hin].
    rewrite Forall_forall in Hrest.
    destruct (Hrest o Hin Hco) as [id' ->]. reflexivity.
  - rewrite decide_False by exact Hc. apply IH, Hrest.
Qed.

Lemma applyModifiers_app (ms1 ms2 : list Modifier) (d : DHCPv4) :
  applyModifiers (ms1 ++ ms2) d
  = bind (applyModifiers ms1 d) (applyModifiers ms2).
Proof.
  revert d. induction ms1 as [| m ms1 IH]; intros d; cbn; [reflexivity |].
  destruct (m d) as [d' | e | e]; cbn; [apply IH | reflexivity | reflexivity].
Qed.

(** The loop over the modifiers hands each one the message that the one
    before it returned, from left to right; a modifier that does not return
    ends the run. *)
Lemma applyModifiers_fold (modifiers : list Modifier) (d : DHCPv4) :
  applyModifiers modifiers d
  = fold_left (fun acc m => bind acc m) modifiers (Ok d).
Proof.
  enough (H : forall r : result DHCPv4,
             fold_left (fun acc m => bind acc m) modifiers r
             = bind r (applyModifiers modifiers))
    by (rewrite H; reflexivity).
  induction modifiers as [| m modifiers IH]; intros r; cbn [fold_left].
  - destruct r; reflexivity.
  - rewrite IH. destruct r; reflexivity.
Qed.

Lemma firstWithCode_None (code : Z) (opts : list Option) :
  firstWithCode code opts = None <->
  Forall (fun o => Opt.Code o <> code) opts.
Proof.
  induction opts as [| o opts IH]; cbn.
  - split; [constructor | reflexivity].
  - destruct (Z.eqb_spec (Opt.Code o) code) as [Hc | Hc].
    + split; [discriminate |]. intros H. inversion H. contradiction.
    + rewrite IH. split; [constructor; assumption |].
      intros H. inversion H. assumption.
Qed.

Lemma firstWithCode_Some (code : Z) (opts : list Option) (o : Option) :
  firstWithCode code opts = Some o -> Opt.Code o = code /\ o ∈ opts.
Proof.
  induction opts as [| o' opts IH]; cbn; [discriminate |].
  destruct (Z.eqb_spec (Opt.Code o') code) as [Hc | Hc].
  - intros [= <-]. split; [exact Hc | constructor].
  - intros H. destruct (IH H) as [H1 H2]. split; [exact H1 |].
    constructor. exact H2.
Qed.

Lemma filter_none (code : Z) (opts : list Option) :
  Forall (fun o => Opt.Code o <> code) opts ->
  filter (fun o => Opt.Code o = code) opts = [].
Proof.
  induction 1 as [| o opts Ho _ IH]; [reflexivity |].
  rewrite filter_cons, decide_False by exact Ho. exact IH.
Qed.

(** C3, as amended.  When the random source delivers and every option with
    the code of [ServerIdentifier] is an [OptServerIdentifier]:
    [NewRequestFromOffer] takes the identifier of the LAST such option of the
    offer; without such an option, or when that identifier is [nil], it
    returns the error and no message; otherwise it builds the request [req]
    that has that identifier as its server address, the transaction id of
    the offer and the options [MessageType(Request)],
    [RequestedIPAddress(offer.your_ip)], [ServerIdentifier(server_ip)],
    [End], and what it returns is [req] after the modifiers, applied from
    left to right, each to what the one before it returned: [req] itself
    for no modifier, [m2 (m1 req)] for the modifiers [m1, m2]. *)
Theorem NewRequestFromOffer_last_identifier
    (r : RandRead) (offer : DHCPv4) (modifiers : list Modifier) :
  rr_n r = 4 -> rr_err r = None ->
  serverIdentifiersTyped (options offer) ->
  (GetOneOption OptionServerIdentifier offer = None ->
   NewRequestFromOffer r offer modifiers
   = Err "Missing Server IP Address in DHCP Offer") /\
  match lastServerID (options offer) None with
  | None =>
      NewRequestFromOffer r offer modifiers
      = Err "Missing Server IP Address in DHCP Offer"
  | Some id =>
      exists req,
        NewRequestFromOffer r offer modifiers
        = fold_left (fun acc m => bind acc m) modifiers (Ok req) /\
        (modifiers = [] -> NewRequestFromOffer r offer modifiers = Ok req) /\
        (forall m1 m2,
            modifiers = [m1; m2] ->
            NewRequestFromOffer r offer modifiers = bind (m1 req) m2) /\
        serverIPAddr req = Some id /\
        opcode req = OpcodeBootRequest /\
        transactionID req = transactionID offer /\
        IsBroadcast req = IsBroadcast offer /\
        options req = [OptMessageType MessageTypeRequest;
                       OptRequestedIPAddress (yourIPAddr offer);
                       OptServerIdentifier (Some id);
                       OptionGeneric OptionEnd []]
  end.
Proof.
  intros Hn He Hty.
  assert (Hrun : forall ip,
             lastServerID (options offer) None = ip ->
             match ip with
             | None =>
                 NewRequestFromOffer r offer modifiers
                 = Err "Missing Server IP Address in DHCP Offer"
             | Some id =>
                 exists req,
                   NewRequestFromOffer r offer modifiers
                   = fold_left (fun acc m => bind acc m) modifiers (Ok req) /\
                   (modifiers = [] ->
                    NewRequestFromOffer r offer modifiers = Ok req) /\
                   (forall m1 m2,
                       modifiers = [m1; m2] ->
                       NewRequestFromOffer r offer modifiers
                       = bind (m1 req) m2) /\
                   serverIPAddr req = Some id /\
                   opcode req = OpcodeBootRequest /\
                   transactionID req = transactionID offer /\
                   IsBroadcast req = IsBroadcast offer /\
                   options req = [OptMessageType MessageTypeRequest;
                                  OptRequestedIPAddress (yourIPAddr offer);
                                  OptServerIdentifier (Some id);
                                  OptionGeneric OptionEnd []]
             end).
  { intros ip Hip. unfold NewRequestFromOffer.
    pose proof (New_cases r) as HN.
    destruct (New r) as [d | e | e]; [| tauto | contradiction].
    destruct HN as (_ & _ & ->). cbn [bind].
    rewrite (findServerIP_last _ _ Hty), Hip. cbn [bind].
    destruct ip as [id |]; [| reflexivity].
    eexists. split; [apply applyModifiers_fold |].
    split; [intros ->; reflexivity |].
    split.
    { intros m1 m2 ->. cbn [applyModifiers].
      destruct (m1 _) as [d1 | |]; cbn [bind]; [| reflexivity | reflexivity].
      destruct (m2 d1); reflexivity. }
    destruct (IsBroadcast offer); repeat split. }
  split; [| apply Hrun; reflexivity].
  intros Hnone. apply (Hrun None).
  unfold lastServerID, GetOneOption, Options in *.
  apply firstWithCode_None in Hnone. rewrite (filter_none _ _ Hnone).
  reflexivity.
Qed.

Lemma NewRequestFromOffer_last_identifier_witness :
  exists req,
    NewRequestFromOffer sampleRand offerTwoServers
      [WithRequestedOptions [OptionTFTPServerName]; WithNetboot]
    = bind (WithRequestedOptions [OptionTFTPServerName] req) WithNetboot /\
    serverIPAddr req = Some [10; 0; 0; 2].
Proof.
  destruct (NewRequestFromOffer_last_identifier
              sampleRand offerTwoServers
              [WithRequestedOptions [OptionTFTPServerName]; WithNetboot]
              eq_refl eq_refl)
    as (_ & req & Hrun & _ & _ & Hip & _).
  - repeat constructor; try discriminate; eauto.
  - exists req. split; [exact Hrun | exact Hip].
Defined.

(** The order of the modifiers shows in the request: [WithNetboot] after
    [WithRequestedOptions [TFTPServerName]] finds the code and adds only the
    other one, before it the code is requested twice. *)
Example NewRequestFromOffer_modifier_order :
  exists d1 d2,
    NewRequestFromOffer sampleRand offerTwoServers
      [WithRequestedOptions [OptionTFTPServerName]; WithNetboot] = Ok d1 /\
    NewRequestFromOffer sampleRand offerTwoServers
      [WithNetboot; WithRequestedOptions [OptionTFTPServerName]] = Ok d2 /\
    requestedOf d1 = [OptionTFTPServerName; OptionBootfileName] /\
    requestedOf d2
    = [OptionTFTPServerName; OptionBootfileName; OptionTFTPServerName].
Proof.
  do 2 eexists. split; [vm_compute; reflexivity |].
  split; [vm_compute; reflexivity |]. split; reflexivity.
Qed.

(** C3 as stated fails: with two [ServerIdentifier] options the request
    carries the second identifier, not the first. *)
Lemma NewRequestFromOffer_not_first :
  GetOneOption OptionServerIdentifier offerTwoServers
  = Some (OptServerIdentifier (Some [10; 0; 0; 1])) /\
  exists req,
    NewRequestFromOffer sampleRand offerTwoServers [] = Ok req /\
    serverIPAddr req = Some [10; 0; 0; 2] /\
    serverIPAddr req <> Some [10; 0; 0; 1] /\
    options req = [OptMessageType MessageTypeRequest;
                   OptRequestedIPAddress IPv4zero;
                   OptServerIdentifier (Some [10; 0; 0; 2]);
                   OptionGeneric OptionEnd []].
Proof.
  split; [reflexivity |].
  eexists. split; [vm_compute; reflexivity |].
  repeat split. discriminate.
Qed.

End Constructors.

(** ** [WithNetboot] (C6) *)

Section Netboot.

Lemma scanNetboot_fold (l : list Z) (found : bool * bool) :
  fold_left
    (fun found option =>
       if option =? OptionTFTPServerName then (true, snd found)
       else if option =? OptionBootfileName then (fst found, true)
       else found) l found
  = (fst found || existsb (Z.eqb OptionTFTPServerName) l,
     snd found || existsb (Z.eqb OptionBootfileName) l).
Proof.
  revert found. induction l as [| c l IH]; intros [ft fb]; cbn [fold_left].
  - cbn. rewrite !orb_false_r. reflexivity.
  - rewrite IH. cbn [existsb fst snd].
    rewrite (Z.eqb_sym OptionTFTPServerName c),
            (Z.eqb_sym OptionBootfileName c).
    destruct (Z.eqb_spec c OptionTFTPServerName) as [-> | _]; cbn.
    + rewrite orb_true_r. reflexivity.
    + destruct (c =? OptionBootfileName); cbn;
        rewrite ?orb_true_r; reflexivity.
Qed.

Lemma scanNetboot_existsb (l : list Z) :
  scanNetboot l = (existsb (Z.eqb OptionTFTPServerName) l,
                   existsb (Z.eqb OptionBootfileName) l).
Proof. unfold scanNetboot. rewrite scanNetboot_fold. reflexivity. Qed.

Lemma existsb_occurrences (code : Z) (l : list Z) :
  existsb (Z.eqb code) l = negb (Nat.eqb (occurrences code l) 0).
Proof.
  unfold occurrences. induction l as [| c l IH]; [reflexivity |].
  cbn [existsb count_occ]. destruct (Z.eq_dec c code) as [-> | Hne].
  - rewrite Z.eqb_refl. reflexivity.
  - destruct (Z.eqb_spec code c) as [-> | _]; [contradiction | exact IH].
Qed.

Lemma occurrences_app (code : Z) (l k : list Z) :
  occurrences code (l ++ k) = (occurrences code l + occurrences code k)%nat.
Proof. apply count_occ_app. Qed.

(** What one application leaves in the list. *)
Lemma occurrences_addMissing (code c : Z) (l : list Z) :
  occurrences c (addMissing code l)
  = if decide (c = code) then Nat.max 1 (occurrences c l)
    else occurrences c l.
Proof.
  unfold addMissing. rewrite existsb_occurrences.
  destruct (Nat.eqb_spec (occurrences code l) 0) as [H0 | Hpos]; cbn [negb].
  - rewrite occurrences_app. unfold occurrences at 2. cbn [count_occ].
    case_decide as Hc.
    + subst c. rewrite H0. destruct (Z.eq_dec code code); [| contradiction].
      reflexivity.
    + destruct (Z.eq_dec code c); [congruence | lia].
  - case_decide as Hc; [subst c; lia | reflexivity].
Qed.

Lemma existsb_addMissing (code : Z) (l : list Z) :
  existsb (Z.eqb code) (addMissing code l) = true.
Proof.
  unfold addMissing. destruct (existsb (Z.eqb code) l) eqn:E; [exact E |].
  rewrite existsb_app. cbn. rewrite Z.eqb_refl, orb_true_r. reflexivity.
Qed.

Lemma existsb_addMissing_other (code c : Z) (l : list Z) :
  existsb (Z.eqb c) l = true -> existsb (Z.eqb c) (addMissing code l) = true.
Proof.
  intros H. unfold addMissing. destruct (existsb (Z.eqb code) l); [exact H |].
  rewrite existsb_app, H. reflexivity.
Qed.

Lemma firstWithCode_updateFirst (code : Z) (new : Option)
    (opts : list Option) :
  Opt.Code new = code -> firstWithCode code opts <> None ->
  firstWithCode code (updateFirst code new opts) = Some new.
Proof.
  intros Hnew. induction opts as [| o opts IH]; cbn; [contradiction |].
  destruct (Z.eqb_spec (Opt.Code o) code) as [Hc | Hc]; cbn.
  - intros _. rewrite Hnew, Z.eqb_refl. reflexivity.
  - intros H. destruct (Z.eqb_spec (Opt.Code o) code); [contradiction |].
    apply IH, H.
Qed.

Lemma updateFirst_twice (code : Z) (new new' : Option) (opts : list Option) :
  Opt.Code new = code ->
  updateFirst code new' (updateFirst code new opts)
  = updateFirst code new' opts.
Proof.
  intros Hnew. induction opts as [| o opts IH]; cbn; [reflexivity |].
  destruct (Z.eqb_spec (Opt.Code o) code) as [Hc | Hc]; cbn.
  - rewrite Hnew, Z.eqb_refl. reflexivity.
  - destruct (Z.eqb_spec (Opt.Code o) code); [contradiction |].
    rewrite IH. reflexivity.
Qed.

Lemma updateFirst_same (code : Z) (o : Option) (opts : list Option) :
  firstWithCode code opts = Some o -> updateFirst code o opts = opts.
Proof.
  induction opts as [| o' opts IH]; cbn; [reflexivity |].
  destruct (Z.eqb_spec (Opt.Code o') code) as [Hc | Hc].
  - intros [= ->]. reflexivity.
  - intros H. rewrite (IH H). reflexivity.
Qed.

Lemma firstWithCode_app_None (code : Z) (l k : list Option) :
  firstWithCode code l = None ->
  firstWithCode code (l ++ k) = firstWithCode code k.
Proof.
  induction l as [| o l IH]; cbn; [reflexivity |].
  destruct (Opt.Code o =? code); [discriminate | exact IH].
Qed.

(** An option added to a list without its code is the first with it. *)
Lemma GetOneOption_AddOption (d : DHCPv4) (x : Option) :
  Opt.Code x <> OptionEnd ->
  GetOneOption (Opt.Code x) d = None ->
  GetOneOption (Opt.Code x) (AddOption x d) = Some x.
Proof.
  unfold GetOneOption, Options. intros Hx Hnone.
  destruct (options d) as [| l pre _] eqn:Hopts using rev_ind.
  - rewrite (AddOption_empty d x Hopts). cbn. rewrite Z.eqb_refl.
    reflexivity.
  - apply firstWithCode_None, Forall_app in Hnone.
    destruct Hnone as [Hpre Hl]. apply firstWithCode_None in Hpre.
    destruct (Z.eq_dec (Opt.Code l) OptionEnd) as [He | He].
    + rewrite (AddOption_snoc_End d x l pre Hopts He). cbn [options with_options].
      rewrite (firstWithCode_app_None _ _ _ Hpre). cbn.
      rewrite Z.eqb_refl. reflexivity.
    + rewrite (AddOption_snoc_other d x l pre Hopts He).
      cbn [options with_options].
      rewrite (firstWithCode_app_None _ _ _ Hpre). cbn.
      inversion Hl as [| ? ? Hne _]; subst.
      destruct (Z.eqb_spec (Opt.Code l) (Opt.Code x)); [contradiction |].
      rewrite Z.eqb_refl. reflexivity.
Qed.

(** One application of [WithNetboot], in closed form. *)
Lemma WithNetboot_run (d : DHCPv4) :
  requestListTyped d ->
  exists d1,
    WithNetboot d = Ok d1 /\
    GetOneOption OptionParameterRequestList d1
    = Some (OptParameterRequestList
              (addMissing OptionBootfileName
                 (addMissing OptionTFTPServerName (requestedOf d)))) /\
    (GetOneOption OptionParameterRequestList d = None ->
     d1 = AddOption (OptParameterRequestList
                       [OptionTFTPServerName; OptionBootfileName]) d).
Proof.
  intros Hty. unfold WithNetboot, requestedOf, requestListTyped in *.
  destruct (GetOneOption OptionParameterRequestList d) as [o |] eqn:Hget.
  - destruct (Hty o eq_refl) as [l ->].
    eexists. split; [reflexivity |]. split; [| discriminate].
    unfold GetOneOption, Options in *. cbn [options with_options].
    rewrite firstWithCode_updateFirst; [| reflexivity | congruence].
    rewrite scanNetboot_existsb. cbn [fst snd]. unfold addMissing.
    destruct (existsb (Z.eqb OptionTFTPServerName) l) eqn:Et; cbn [negb].
    + destruct (existsb (Z.eqb OptionBootfileName) l); reflexivity.
    + rewrite existsb_app.
      change (existsb (Z.eqb OptionBootfileName) [OptionTFTPServerName])
        with false.
      rewrite orb_false_r.
      destruct (existsb (Z.eqb OptionBootfileName) l); reflexivity.
  - eexists. split; [reflexivity |]. split; [| reflexivity].
    apply (GetOneOption_AddOption d
             (OptParameterRequestList
                [OptionTFTPServerName; OptionBootfileName]));
      [discriminate | exact Hget].
Qed.

Lemma with_options_same (d : DHCPv4) : with_options (options d) d = d.
Proof. destruct d. reflexivity. Qed.

(** C6, as amended.  When the first option with the code of the parameter
    request list, if any, is a parameter request list: [WithNetboot]
    returns, applying it a second time changes nothing, and one application
    appends [TFTPServerName] and then [BootfileName], each only if the list
    does not hold it, creating the list [TFTPServerName, BootfileName] when
    the message has none.  So each of the two codes occurs [max 1 n] times
    afterwards, [n] being its number of occurrences before, and every other
    code occurs as often as before. *)
Theorem WithNetboot_adds_once (d : DHCPv4) :
  requestListTyped d ->
  exists d1,
    WithNetboot d = Ok d1 /\
    WithNetboot d1 = Ok d1 /\
    GetOneOption OptionParameterRequestList d1
    = Some (OptParameterRequestList (requestedOf d1)) /\
    requestedOf d1
    = addMissing OptionBootfileName
        (addMissing OptionTFTPServerName (requestedOf d)) /\
    (forall code,
        occurrences code (requestedOf d1)
        = if decide (code = OptionTFTPServerName \/ code = OptionBootfileName)
          then Nat.max 1 (occurrences code (requestedOf d))
          else occurrences code (requestedOf d)) /\
    (GetOneOption OptionParameterRequestList d = None ->
     requestedOf d1 = [OptionTFTPServerName; OptionBootfileName]).
Proof.
  intros Hty. destruct (WithNetboot_run d Hty) as (d1 & Hrun & Hget1 & Hnew).
  assert (Hreq : requestedOf d1
                 = addMissing OptionBootfileName
                     (addMissing OptionTFTPServerName (requestedOf d))).
  { unfold requestedOf at 1. rewrite Hget1. reflexivity. }
  exists d1. split; [exact Hrun |]. split; [| split; [| split; [| split]]].
  - unfold WithNetboot. rewrite Hget1, scanNetboot_existsb. cbn [fst snd].
    rewrite (existsb_addMissing_other OptionBootfileName OptionTFTPServerName)
      by apply existsb_addMissing.
    rewrite existsb_addMissing. cbn [negb].
    unfold GetOneOption, Options in Hget1.
    rewrite (updateFirst_same _ _ _ Hget1). rewrite with_options_same.
    reflexivity.
  - rewrite Hreq. exact Hget1.
  - exact Hreq.
  - intros code. rewrite Hreq, !occurrences_addMissing.
    repeat case_decide; subst; try reflexivity; try tauto; try discriminate;
      lia.
  - intros Hnone. rewrite Hreq. unfold requestedOf. rewrite Hnone.
    reflexivity.
Qed.

Lemma WithNetboot_adds_once_witness :
  exists d1,
    WithNetboot (sampleMessage sampleClient
                   [OptParameterRequestList [OptionRouter; OptionBootfileName];
                    OptionGeneric OptionEnd []]) = Ok d1 /\
    WithNetboot d1 = Ok d1 /\
    requestedOf d1 = [OptionRouter; OptionBootfileName; OptionTFTPServerName].
Proof.
  destruct (WithNetboot_adds_once
              (sampleMessage sampleClient
                 [OptParameterRequestList [OptionRouter; OptionBootfileName];
                  OptionGeneric OptionEnd []]))
    as (d1 & Hrun & Hagain & _ & Hreq & _).
  - intros o [= <-]. eexists. reflexivity.
  - exists d1. split; [exact Hrun |]. split; [exact Hagain | exact Hreq].
Defined.

(** C6 as stated fails: [WithNetboot] does not remove what the list holds
    twice, so after two applications [TFTPServerName] still occurs twice. *)
Lemma WithNetboot_keeps_duplicates :
  exists d1 d2,
    WithNetboot requestsTFTPTwice = Ok d1 /\
    WithNetboot d1 = Ok d2 /\
    GetOneOption OptionParameterRequestList d2
    = Some (OptParameterRequestList
              [OptionTFTPServerName; OptionTFTPServerName;
               OptionBootfileName]) /\
    occurrences OptionTFTPServerName (requestedOf d2) = 2%nat.
Proof.
  do 2 eexists. split; [vm_compute; reflexivity |].
  split; [vm_compute; reflexivity |].
  split; reflexivity.
Qed.

(** With an [OptionGeneric] under the code of the list, the type assertion
    panics. *)
Example WithNetboot_panics :
  exists e,
    WithNetboot (sampleMessage sampleClient
                   [OptionGeneric OptionParameterRequestList [1; 3]]) = Panic e.
Proof. eexists. reflexivity. Qed.

End Netboot.

(** ** Reply correlation (C7) *)

Section Correlation.

Lemma receiveLoop_accepts (packet : DHCPv4) (messageType : Z)
    (payload : list Z) (response : DHCPv4) (rest : list RecvEvent) :
  parsesTo payload response -> accepted packet messageType response ->
  receiveLoop packet messageType (Datagram payload :: rest) = Found response.
Proof.
  unfold parsesTo. intros Hparse (Hid & Hop & Hty). cbn [receiveLoop].
  rewrite Hparse, Hid, Hop, !Z.eqb_refl. cbn [negb].
  destruct (Z.eqb_spec messageType MessageTypeNone) as [_ | Hne];
    [reflexivity |].
  destruct Hty as [Hnone | Hty]; [contradiction |].
  rewrite Hty, Z.eqb_refl. reflexivity.
Qed.

Lemma receiveLoop_drops (packet : DHCPv4) (messageType : Z)
    (payload : list Z) (response : DHCPv4) (rest : list RecvEvent) :
  parsesTo payload response -> rejected packet messageType response ->
  receiveLoop packet messageType (Datagram payload :: rest)
  = receiveLoop packet messageType rest.
Proof.
  unfold parsesTo. intros Hparse Hrej. cbn [receiveLoop]. rewrite Hparse.
  destruct (Z.eqb_spec (transactionID response) (transactionID packet))
    as [Hid | Hid]; cbn [negb]; [| reflexivity].
  destruct (Z.eqb_spec (opcode response) OpcodeBootReply) as [Hop | Hop];
    cbn [negb]; [| reflexivity].
  destruct Hrej as [Hrej | [Hrej | (Hne & t & Hty & Hdiff)]];
    [contradiction | contradiction |].
  destruct (Z.eqb_spec messageType MessageTypeNone) as [Heq | _];
    [contradiction |].
  rewrite Hty. destruct t as [t |]; [| reflexivity].
  destruct (Z.eqb_spec t messageType) as [-> | _];
    [contradiction | reflexivity].
Qed.

Lemma receiveLoop_Found (packet : DHCPv4) (messageType : Z)
    (events : list RecvEvent) (response : DHCPv4) :
  receiveLoop packet messageType events = Found response ->
  accepted packet messageType response /\
  exists payload, Datagram payload ∈ events /\ parsesTo payload response.
Proof.
  unfold parsesTo.
  induction events as [| ev events IH]; cbn [receiveLoop]; [discriminate |].
  destruct ev as [payload | e]; [| discriminate].
  assert (Hrest : receiveLoop packet messageType events = Found response ->
                  accepted packet messageType response /\
                  exists payload0,
                    Datagram payload0 ∈ Datagram payload :: events /\
                    FromBytes (take MaxUDPReceivedPacketSize payload0)
                    = Ok response).
  { intros H. destruct (IH H) as (Hacc & p & Hin & Hp).
    split; [exact Hacc |]. exists p. split; [right; exact Hin | exact Hp]. }
  destruct (FromBytes (take MaxUDPReceivedPacketSize payload))
    as [resp | e | e] eqn:Hparse; [| discriminate | discriminate].
  destruct (Z.eqb_spec (transactionID resp) (transactionID packet))
    as [Hid | Hid]; cbn [negb]; [| exact Hrest].
  destruct (Z.eqb_spec (opcode resp) OpcodeBootReply) as [Hop | Hop];
    cbn [negb]; [| exact Hrest].
  assert (Hhere : forall P : Prop,
             (messageType = MessageTypeNone \/
              MessageType resp = Ok (Some messageType)) ->
             Found resp = Found response ->
             accepted packet messageType response /\
             exists payload0,
               Datagram payload0 ∈ Datagram payload :: events /\
               FromBytes (take MaxUDPReceivedPacketSize payload0)
               = Ok response).
  { intros _ Hty [= <-]. split; [repeat split; assumption |].
    exists payload. split; [left | exact Hparse]. }
  destruct (Z.eqb_spec messageType MessageTypeNone) as [Hnone | Hnone].
  - apply (Hhere True). left. exact Hnone.
  - destruct (MessageType resp) as [[t |] | e | e] eqn:Hty;
      [| exact Hrest | discriminate | discriminate].
    destruct (Z.eqb_spec t messageType) as [-> | _]; [| exact Hrest].
    apply (Hhere True). right. reflexivity.
Qed.

Lemma parseVariant_messageType (code : Z) (value : list Z) (o : Option) :
  parseVariant code value = Ok o ->
  Opt.Code o = OptionDHCPMessageType -> exists t, o = OptMessageType t.
Proof.
  unfold parseVariant.
  destruct (Z.eqb_spec code OptionDHCPMessageType) as [-> | Hmt].
  { destruct value as [| t [| ? ?]]; try discriminate.
    intros [= <-] _. eauto. }
  destruct (code =? OptionParameterRequestList);
    [intros [= <-]; discriminate |].
  destruct (code =? OptionRequestedIPAddress).
  { destruct (Nat.eqb _ _); [intros [= <-] | ]; discriminate. }
  destruct (code =? OptionServerIdentifier).
  { destruct (Nat.eqb _ _); [intros [= <-] | ]; discriminate. }
  destruct (code =? OptionUserClassInformation).
  { destruct (parseUserClasses _ _); cbn [bind];
      [intros [= <-] | |]; discriminate. }
  intros [= <-]. cbn. contradiction.
Qed.

Lemma parseOptions_messageTypes (fuel : nat) :
  forall data opts,
    parseOptions fuel data = Ok opts -> messageTypesTyped opts.
Proof.
  unfold messageTypesTyped.
  induction fuel as [| fuel IH]; intros data opts;
    destruct data as [| code rest]; cbn [parseOptions];
    try (intros [= <-]; constructor); try discriminate.
  destruct (code =? OptionPad).
  { destruct (parseOptions fuel rest) as [opts' | |] eqn:Hrest;
      cbn [bind]; try discriminate.
    intros [= <-]. constructor; [discriminate | eapply IH, Hrest]. }
  destruct (code =? OptionEnd).
  { intros [= <-]. constructor; [discriminate | constructor]. }
  destruct rest as [| len body]; [discriminate |].
  destruct (Z.of_nat (length body) <? len); [discriminate |].
  destruct (parseVariant code (take (Z.to_nat len) body)) as [o | |] eqn:Ho;
    cbn [bind]; try discriminate.
  destruct (parseOptions fuel (drop (Z.to_nat len) body)) as [opts' | |]
    eqn:Hrest; cbn [bind]; try discriminate.
  intros [= <-]. constructor.
  - eapply parseVariant_messageType, Ho.
  - eapply IH, Hrest.
Qed.

(** The message type of a parsed message can be read: the type assertion
    does not panic. *)
Lemma MessageType_parsed (data : list Z) (d : DHCPv4) :
  FromBytes data = Ok d -> exists t, MessageType d = Ok t.
Proof.
  unfold FromBytes. destruct (_ <? _)%nat; [discriminate |].
  unfold OptionsFromBytes.
  destruct (_ <? _)%nat; [discriminate |].
  destruct (negb _); [discriminate |].
  destruct (parseOptions _ _) as [opts | |] eqn:Hparse; cbn [bind];
    try discriminate.
  intros [= <-]. apply parseOptions_messageTypes in Hparse.
  unfold MessageType, GetOneOption, Options. cbn [options with_options].
  destruct (firstWithCode OptionDHCPMessageType opts) as [o |] eqn:Hfirst;
    [| eauto].
  apply firstWithCode_Some in Hfirst as [Hcode Hin].
  unfold messageTypesTyped in Hparse. rewrite Forall_forall in Hparse.
  destruct (Hparse o Hin Hcode) as [t ->]. eauto.
Qed.

Lemma parsed_accepted_or_rejected (packet : DHCPv4) (messageType : Z)
    (payload : list Z) (response : DHCPv4) :
  parsesTo payload response ->
  accepted packet messageType response \/
  rejected packet messageType response.
Proof.
  intros Hparse. apply MessageType_parsed in Hparse as [t Ht].
  unfold accepted, rejected.
  destruct (Z.eq_dec (transactionID response) (transactionID packet));
    [| tauto].
  destruct (Z.eq_dec (opcode response) OpcodeBootReply); [| tauto].
  destruct (Z.eq_dec messageType MessageTypeNone); [tauto |].
  destruct t as [t |].
  - destruct (Z.eq_dec t messageType) as [-> | Hne]; [tauto |].
    right. right. right. split; [assumption |].
    eexists. split; [exact Ht | congruence].
  - right. right. right. split; [assumption |].
    eexists. split; [exact Ht | discriminate].
Qed.

(** Datagrams that parse and are rejected do not keep the loop from the
    reply that follows them. *)
Lemma receiveLoop_skips_noise (packet : DHCPv4) (messageType : Z)
    (noise : list (list Z)) (rest : list RecvEvent) :
  Forall (fun payload =>
            exists response,
              parsesTo payload response /\
              rejected packet messageType response) noise ->
  receiveLoop packet messageType (map Datagram noise ++ rest)
  = receiveLoop packet messageType rest.
Proof.
  induction 1 as [| payload noise (response & Hparse & Hrej) _ IH];
    [reflexivity |].
  cbn [map app]. rewrite (receiveLoop_drops _ _ _ _ _ Hparse Hrej).
  exact IH.
Qed.

(** X21.  A message that [BroadcastSendReceive] returns is the parse of one
    of the datagrams read, has the transaction id of the packet sent and the
    opcode [BOOTREPLY], and has the expected message type unless none is
    expected; the loop stops at a datagram that parses to such a message,
    and goes on to the next one after a datagram that parses to any other
    message; a datagram that parses is one or the other. *)
Theorem reply_correlation (packet : DHCPv4) (messageType : Z) :
  (forall net response,
      BroadcastSendReceive net packet messageType = Ok response ->
      transactionID response = transactionID packet /\
      opcode response = OpcodeBootReply /\
      (messageType = MessageTypeNone \/
       MessageType response = Ok (Some messageType)) /\
      exists payload,
        Datagram payload ∈ received net /\ parsesTo payload response) /\
  (forall payload response rest,
      parsesTo payload response -> rejected packet messageType response ->
      receiveLoop packet messageType (Datagram payload :: rest)
      = receiveLoop packet messageType rest) /\
  (forall payload response rest,
      parsesTo payload response -> accepted packet messageType response ->
      receiveLoop packet messageType (Datagram payload :: rest)
      = Found response) /\
  (forall payload response,
      parsesTo payload response ->
      accepted packet messageType response \/
      rejected packet messageType response).
Proof.
  split; [| split; [| split]].
  - intros net response. unfold BroadcastSendReceive.
    destruct (marshalErr net); [discriminate |].
    destruct (sendtoErr net); [discriminate |].
    destruct (timerFirst net); [discriminate |].
    destruct (fileConnErr net); [discriminate |].
    destruct (receiveLoop packet messageType (received net)) as [r | | |]
      eqn:Hloop; try discriminate.
    intros [= <-]. apply receiveLoop_Found in Hloop.
    destruct Hloop as ((Hid & Hop & Hty) & Hin). tauto.
  - intros payload response rest. apply receiveLoop_drops.
  - intros payload response rest. apply receiveLoop_accepts.
  - intros payload response. apply parsed_accepted_or_rejected.
Qed.

(** The offer of another transaction is passed over. *)
Example stray_offer_dropped :
  exists offer,
    BroadcastSendReceive
      (quietNetwork [Datagram (ToBytes strayOffer);
                     Datagram (ToBytes sampleOffer)])
      sampleDiscover MessageTypeOffer = Ok offer /\
    transactionID offer = transactionID sampleDiscover /\
    yourIPAddr offer = Some [192; 168; 0; 7].
Proof. eexists. split; [vm_compute; reflexivity |]. split; reflexivity. Qed.

(** C7.  The specification has every datagram that is not the awaited
    reply dropped silently.  For a datagram that [FromBytes] rejects the code
    does not do so, nor what it attempts itself: after [FromBytes] it means
    to report the parse error ([errs <- innerErr; return]) but tests the
    variable [err] of the enclosing function, which is [nil] there, and not
    [innerErr]; so it goes on with the [nil] response and
    [response.TransactionID()] dereferences it.  Whatever the packet sent,
    the message type awaited and the datagrams that follow, the goroutine
    panics, and with it the call of [BroadcastSendReceive]: a reply that
    follows is never looked at. *)
Theorem unparsable_datagram_aborts (packet : DHCPv4) (messageType : Z)
    (payload : list Z) (rest : list RecvEvent) (e : string) :
  FromBytes (take MaxUDPReceivedPacketSize payload) = Err e ->
  receiveLoop packet messageType (Datagram payload :: rest)
  = Crashed "invalid memory address or nil pointer dereference" /\
  forall net,
    marshalErr net = None -> sendtoErr net = None ->
    timerFirst net = false -> fileConnErr net = None ->
    received net = Datagram payload :: rest ->
    BroadcastSendReceive net packet messageType
    = Panic "invalid memory address or nil pointer dereference".
Proof.
  intros Hparse.
  assert (Hloop : receiveLoop packet messageType (Datagram payload :: rest)
                  = Crashed "invalid memory address or nil pointer dereference").
  { cbn [receiveLoop]. rewrite Hparse. reflexivity. }
  split; [exact Hloop |].
  intros net Hm Hs Ht Hf Hrecv. unfold BroadcastSendReceive.
  rewrite Hm, Hs, Ht, Hf, Hrecv, Hloop. reflexivity.
Qed.

(** The failing input: a datagram of 3 bytes read before the offer that
    answers the discovery.  Without it the offer is returned; with it the
    call panics. *)
Lemma unparsable_datagram_aborts_witness :
  BroadcastSendReceive (quietNetwork [Datagram (ToBytes sampleOffer)])
    sampleDiscover MessageTypeOffer = Ok (canonical sampleOffer) /\
  BroadcastSendReceive
    (quietNetwork [Datagram [1; 2; 3]; Datagram (ToBytes sampleOffer)])
    sampleDiscover MessageTypeOffer
  = Panic "invalid memory address or nil pointer dereference".
Proof.
  split; [vm_compute; reflexivity |].
  destruct (unparsable_datagram_aborts sampleDiscover MessageTypeOffer
              [1; 2; 3] [Datagram (ToBytes sampleOffer)]
              "Invalid DHCPv4 header: shorter than 236 bytes")
    as [_ Hrun].
  - vm_compute. reflexivity.
  - apply (Hrun (quietNetwork [Datagram [1; 2; 3];
                               Datagram (ToBytes sampleOffer)]));
      reflexivity.
Defined.

End Correlation.

(** ** [ParseOptIAPrefix] (C9) *)

Section IAPrefix.

Import dhcpv6.

Lemma slice_length (lo hi : nat) (s : list Z) :
  (hi <= length s)%nat -> length (slice lo hi s) = (hi - lo)%nat.
Proof.
  intros H. unfold slice. rewrite length_take, length_drop. lia.
Qed.

Lemma bytes_ok_nth (s : list Z) (i : nat) : bytes_ok s -> is_byte (nth i s 0).
Proof.
  intros H. destruct (Nat.lt_ge_cases i (length s)) as [Hlt | Hge].
  - apply Forall_nth; assumption.
  - rewrite nth_overflow by exact Hge. unfold is_byte. lia.
Qed.





(** With the remainder kept as the bytes it is, every payload of 25 bytes or
    more parses. *)
Lemma ParseOptIAPrefix_rawOptions (data : list Z) :
  (25 <= length data)%nat ->
  exists o,
    ParseOptIAPrefix rawOptions data = Ok o /\
    dhcpv6.options o = drop 25 data.
Proof.
  intros Hlen. unfold ParseOptIAPrefix, rawOptions.
  destruct (Nat.ltb_spec (length data) 25) as [Hlt | _]; [lia |].
  eexists. split; reflexivity.
Qed.

(** The sub-options of [TestOptIAPrefixSetGetOptions] are one option. *)
Example ParseOptIAPrefix_with_suboption :
  exists o,
    ParseOptIAPrefix ParseOptionTLVs (testPayload ++ [0; 8; 0; 2; 170; 187])
    = Ok o /\
    dhcpv6.options o = [(8, [170; 187])].
Proof. eexists. split; reflexivity. Qed.

Example TestOptIAPrefix :
  ParseOptIAPrefix ParseOptionTLVs testPayload
  = Ok (mkOptIAPrefix 2864434397 4009689105 36
          [0; 0; 0; 0; 0; 0; 0; 0; 0; 0; 0; 0; 0; 0; 0; 1] []) /\
  ParseOptIAPrefix rawOptions testPayload
  = Ok (mkOptIAPrefix 2864434397 4009689105 36
          [0; 0; 0; 0; 0; 0; 0; 0; 0; 0; 0; 0; 0; 0; 0; 1] []).
Proof. split; reflexivity. Qed.

Example TestOptIAPrefixParseInvalidTooShort :
  is_Ok (ParseOptIAPrefix ParseOptionTLVs testPayloadTooShort) = false /\
  is_Ok (ParseOptIAPrefix rawOptions testPayloadTooShort) = false.
Proof. split; reflexivity. Qed.

End IAPrefix.

(** ** Round trip of the wire format (C1) *)

Section RoundTrip.

Lemma slice_skip (a l : list Z) (n lo hi : nat) :
  length a = n -> (n <= lo)%nat ->
  slice lo hi (a ++ l) = slice (lo - n) (hi - n) l.
Proof.
  intros Hlen Hle. unfold slice.
  rewrite drop_app_ge by lia. rewrite Hlen.
  f_equal. lia.
Qed.

Lemma slice_here (b l : list Z) (n : nat) :
  length b = n -> slice 0 n (b ++ l) = b.
Proof.
  intros Hlen. unfold slice. rewrite drop_0, Nat.sub_0_r.
  apply take_app_length'. symmetry. exact Hlen.
Qed.

Lemma copy_full (dst src : list Z) :
  length src = length dst -> copy dst src = src.
Proof.
  intros H. unfold copy.
  rewrite take_ge, drop_ge, app_nil_r by lia. reflexivity.
Qed.

Lemma FromBytes_segments
    (op hw hl hc : Z)
    (xid ns fl cip yip sip gip chw shn bfn tail : list Z) :
  length xid = 4%nat -> length ns = 2%nat -> length fl = 2%nat ->
  length cip = 4%nat -> length yip = 4%nat -> length sip = 4%nat ->
  length gip = 4%nat -> length chw = 16%nat -> length shn = 64%nat ->
  length bfn = 128%nat ->
  FromBytes ([op; hw; hl; hc] ++ xid ++ ns ++ fl ++ cip ++ yip ++ sip ++ gip
             ++ chw ++ shn ++ bfn ++ tail)
  = let* opts := OptionsFromBytes tail in
    Ok (mkDHCPv4 op hw hl hc (Uint32 xid) (Uint16 ns) (Uint16 fl)
          (Some cip) (Some yip) (Some sip) (Some gip) chw shn bfn opts).
Proof.
  intros Hxid Hns Hfl Hcip Hyip Hsip Hgip Hchw Hshn Hbfn.
  unfold FromBytes, HeaderSize.
  destruct (Nat.ltb_spec
              (length ([op; hw; hl; hc] ++ xid ++ ns ++ fl ++ cip ++ yip
                       ++ sip ++ gip ++ chw ++ shn ++ bfn ++ tail)) 236)
    as [Hshort | _].
  { rewrite !length_app in Hshort. cbn [length] in Hshort. lia. }
  set (s0 := [op; hw; hl; hc]).
  assert (Hs0 : length s0 = 4%nat) by reflexivity.
  assert (E : drop 236 (s0 ++ xid ++ ns ++ fl ++ cip ++ yip ++ sip ++ gip
                        ++ chw ++ shn ++ bfn ++ tail) = tail).
  { rewrite !app_assoc. apply drop_app_length'.
    rewrite !length_app. lia. }
  rewrite E.
  repeat (rewrite (slice_skip s0 _ 4) by (first [exact Hs0 | lia]); cbn [Nat.sub]).
  rewrite (slice_here xid) by exact Hxid.
  repeat (rewrite (slice_skip xid _ 4) by (first [exact Hxid | lia]); cbn [Nat.sub]).
  rewrite (slice_here ns) by exact Hns.
  repeat (rewrite (slice_skip ns _ 2) by (first [exact Hns | lia]); cbn [Nat.sub]).
  rewrite (slice_here fl) by exact Hfl.
  repeat (rewrite (slice_skip fl _ 2) by (first [exact Hfl | lia]); cbn [Nat.sub]).
  rewrite (slice_here cip) by exact Hcip.
  repeat (rewrite (slice_skip cip _ 4) by (first [exact Hcip | lia]); cbn [Nat.sub]).
  rewrite (slice_here yip) by exact Hyip.
  repeat (rewrite (slice_skip yip _ 4) by (first [exact Hyip | lia]); cbn [Nat.sub]).
  rewrite (slice_here sip) by exact Hsip.
  repeat (rewrite (slice_skip sip _ 4) by (first [exact Hsip | lia]); cbn [Nat.sub]).
  rewrite (slice_here gip) by exact Hgip.
  repeat (rewrite (slice_skip gip _ 4) by (first [exact Hgip | lia]); cbn [Nat.sub]).
  rewrite (slice_here chw) by exact Hchw.
  repeat (rewrite (slice_skip chw _ 16) by (first [exact Hchw | lia]); cbn [Nat.sub]).
  rewrite (slice_here shn) by exact Hshn.
  repeat (rewrite (slice_skip shn _ 64) by (first [exact Hshn | lia]); cbn [Nat.sub]).
  rewrite (slice_here bfn) by exact Hbfn.
  rewrite !copy_full by (rewrite length_replicate; congruence).
  subst s0. cbn [nth app].
  destruct (OptionsFromBytes tail); reflexivity.
Qed.

Lemma parse_tlv (fuel : nat) (code : Z) (value rest : list Z) :
  code <> OptionPad -> code <> OptionEnd -> (length value <= 255)%nat ->
  parseOptions (S fuel) (Opt.tlv code value ++ rest)
  = let* opt := parseVariant code value in
    let* opts := parseOptions fuel rest in
    Ok (opt :: opts).
Proof.
  intros Hpad Hend Hlen. unfold Opt.tlv. cbn [app parseOptions].
  destruct (Z.eqb_spec code OptionPad) as [? | _]; [contradiction |].
  destruct (Z.eqb_spec code OptionEnd) as [? | _]; [contradiction |].
  rewrite Z.mod_small by lia. rewrite Nat2Z.id.
  destruct (Z.ltb_spec (Z.of_nat (length (value ++ rest)))
              (Z.of_nat (length value))) as [Hlt | _].
  { rewrite length_app in Hlt. lia. }
  rewrite take_app_length, drop_app_length. reflexivity.
Qed.

Lemma ipBytes_To4 (ip : IP) : isIPv4 ip -> Some (ipBytes (To4 ip)) = To4 ip.
Proof.
  unfold isIPv4. destruct (To4 ip); [reflexivity | contradiction].
Qed.

Lemma ipBytes_To4_four (ip : IP) :
  isIPv4 ip -> length (ipBytes (To4 ip)) = 4%nat.
Proof.
  intros Hip. rewrite ipBytes_To4_length, decide_True by exact Hip.
  reflexivity.
Qed.

Lemma parseVariant_ToBytes (o : Option) :
  optionLegal o -> Opt.Code o <> OptionPad -> Opt.Code o <> OptionEnd ->
  exists value,
    Opt.ToBytes o = Opt.tlv (Opt.Code o) value /\
    (length value <= 255)%nat /\
    parseVariant (Opt.Code o) value = Ok (canonicalOption o).
Proof.
  destruct o as [c data | t | l | ip | ip | ucs rfc];
    cbn [optionLegal Opt.Code].
  - intros (Hlen & H53 & H55 & H50 & H54 & H77 & _) Hpad Hend.
    exists data. cbn [Opt.ToBytes].
    destruct (Z.eqb_spec c OptionEnd) as [? | _]; [contradiction |].
    destruct (Z.eqb_spec c OptionPad) as [? | _]; [contradiction |].
    split; [reflexivity |]. split; [exact Hlen |].
    unfold parseVariant.
    destruct (Z.eqb_spec c OptionDHCPMessageType); [contradiction |].
    destruct (Z.eqb_spec c OptionParameterRequestList); [contradiction |].
    destruct (Z.eqb_spec c OptionRequestedIPAddress); [contradiction |].
    destruct (Z.eqb_spec c OptionServerIdentifier); [contradiction |].
    destruct (Z.eqb_spec c OptionUserClassInformation); [contradiction |].
    reflexivity.
  - intros _ _ _. exists [t]. repeat split. cbn. lia.
  - intros Hlen _ _. exists l. repeat split. exact Hlen.
  - intros Hip _ _. exists (ipBytes (To4 ip)).
    pose proof (ipBytes_To4_four ip Hip) as H4.
    split; [reflexivity |]. split; [lia |].
    unfold parseVariant. cbn [Z.eqb OptionRequestedIPAddress
      OptionDHCPMessageType OptionParameterRequestList Pos.eqb].
    rewrite H4. cbn [Nat.eqb canonicalOption].
    rewrite ipBytes_To4 by exact Hip. reflexivity.
  - intros Hip _ _. exists (ipBytes (To4 ip)).
    pose proof (ipBytes_To4_four ip Hip) as H4.
    split; [reflexivity |]. split; [lia |].
    unfold parseVariant. cbn [Z.eqb OptionRequestedIPAddress
      OptionServerIdentifier
      OptionDHCPMessageType OptionParameterRequestList Pos.eqb].
    rewrite H4. cbn [Nat.eqb canonicalOption].
    rewrite ipBytes_To4 by exact Hip. reflexivity.
  - intros [Hlen Hback] _ _. exists (Opt.userClassValue ucs rfc).
    split; [reflexivity |]. split; [exact Hlen | exact Hback].
Qed.

Lemma ToBytes_nonempty (o : Option) : (1 <= length (Opt.ToBytes o))%nat.
Proof.
  destruct o as [c data | | | | |]; cbn; try lia.
  destruct ((c =? OptionEnd) || (c =? OptionPad)); cbn; lia.
Qed.

(** The parser gives back a legal option list, addresses in their 4-byte
    form, whenever the steps allowed cover the bytes. *)
Lemma parseOptions_optionBytes (opts : list Option) :
  optionsLegal opts ->
  forall fuel, (length (optionBytes opts) <= fuel)%nat ->
  parseOptions fuel (optionBytes opts) = Ok (map canonicalOption opts).
Proof.
  unfold optionsLegal. intros [Hlegal Hend].
  induction opts as [| o opts IH]; intros fuel Hfuel.
  - destruct fuel; reflexivity.
  - inversion Hlegal as [| ? ? Ho Hrest]; subst.
    destruct Hend as [Hlast Hend].
    change (optionBytes (o :: opts))
      with (Opt.ToBytes o ++ optionBytes opts) in *.
    rewrite length_app in Hfuel.
    pose proof (ToBytes_nonempty o) as Hne.
    destruct fuel as [| fuel]; [lia |].
    destruct (Z.eq_dec (Opt.Code o) OptionEnd) as [Hc | Hc].
    { (* End: stops the parse, and nothing follows it *)
      rewrite (Hlast Hc).
      destruct o as [c data | | | | |]; try discriminate Hc.
      cbn [Opt.Code] in Hc. subst c.
      destruct Ho as (_ & _ & _ & _ & _ & _ & Hdata).
      rewrite Hdata by (right; reflexivity). reflexivity. }
    destruct (Z.eq_dec (Opt.Code o) OptionPad) as [Hp | Hp].
    { (* Pad: a single byte *)
      destruct o as [c data | | | | |]; try discriminate Hp.
      cbn [Opt.Code] in Hp. subst c.
      destruct Ho as (_ & _ & _ & _ & _ & _ & Hdata).
      rewrite Hdata by (left; reflexivity).
      cbn [Opt.ToBytes Z.eqb orb app parseOptions OptionEnd OptionPad].
      rewrite (IH Hrest Hend fuel) by (cbn in Hfuel; lia). reflexivity. }
    destruct (parseVariant_ToBytes o Ho Hp Hc) as (value & Hbytes & Hlen & Hparse).
    rewrite Hbytes in *.
    rewrite parse_tlv by assumption.
    rewrite Hparse. cbn [bind].
    rewrite (IH Hrest Hend fuel) by (unfold Opt.tlv in Hfuel; cbn in Hfuel; lia).
    reflexivity.
Qed.

Lemma OptionsFromBytes_optionBytes (opts : list Option) :
  optionsLegal opts ->
  OptionsFromBytes (MagicCookie ++ optionBytes opts)
  = Ok (map canonicalOption opts).
Proof.
  intros Hlegal. unfold OptionsFromBytes.
  change (MagicCookie ++ optionBytes opts)
    with (99 :: 130 :: 83 :: 99 :: optionBytes opts).
  cbn [length Nat.ltb Nat.leb take drop bytesEqual].
  change (bytesEqual [99; 130; 83; 99] MagicCookie) with true.
  cbn [negb]. apply parseOptions_optionBytes; [exact Hlegal | lia].
Qed.

Lemma roundtrip_canonical (d : DHCPv4) :
  legal d -> FromBytes (ToBytes d) = Ok (canonical d).
Proof.
  intros (Hwt & (Hc & Hy & Hs & Hg) & Hopts).
  destruct Hwt as [_ _ _ _ Hxid Hns Hfl H16 H64 H128].
  rewrite ToBytes_layout. unfold fixedHeader.
  rewrite <- !app_assoc.
  pose proof (ipBytes_To4_four _ Hc) as Hcl.
  pose proof (ipBytes_To4_four _ Hy) as Hyl.
  pose proof (ipBytes_To4_four _ Hs) as Hsl.
  pose proof (ipBytes_To4_four _ Hg) as Hgl.
  rewrite FromBytes_segments;
    try assumption; try reflexivity;
    try (rewrite length_take; lia).
  rewrite OptionsFromBytes_optionBytes by exact Hopts. cbn [bind].
  rewrite Uint32_PutUint32, !Uint16_PutUint16 by assumption.
  rewrite !ipBytes_To4 by assumption.
  rewrite !take_ge by lia.
  reflexivity.
Qed.

(** *** Equality of addresses *)









(** *** User class options *)

Lemma parseUserClasses_rfc (ucs : list (list Z)) :
  Forall (fun uc => (length uc <= 255)%nat) ucs ->
  forall fuel,
    (length (Opt.userClassValue ucs true) <= fuel)%nat ->
    parseUserClasses fuel (Opt.userClassValue ucs true) = Ok ucs.
Proof.
  induction 1 as [| uc ucs Huc _ IH]; intros fuel Hfuel.
  - destruct fuel; reflexivity.
  - cbn [Opt.userClassValue flat_map app] in *.
    change (flat_map (fun uc0 => (Z.of_nat (length uc0) mod 256) :: uc0) ucs)
      with (Opt.userClassValue ucs true) in *.
    cbn [length] in Hfuel. rewrite length_app in Hfuel.
    destruct fuel as [| fuel]; [lia |].
    cbn [parseUserClasses]. rewrite Z.mod_small by lia.
    destruct (Z.ltb_spec (Z.of_nat (length (uc ++ Opt.userClassValue ucs true)))
                (Z.of_nat (length uc))) as [Hlt | _].
    { rewrite length_app in Hlt. lia. }
    rewrite Nat2Z.id, take_app_length, drop_app_length.
    rewrite IH by lia. reflexivity.
Qed.

(** What the parser of the model reads back: the RFC 3004 encoding of
    identifiers of at most 255 bytes. *)
Lemma userClassReadBack_rfc (ucs : list (list Z)) :
  Forall (fun uc => (length uc <= 255)%nat) ucs ->
  userClassReadBack ucs true.
Proof.
  intros Hucs. unfold userClassReadBack, parseVariant.
  cbn [Z.eqb OptionUserClassInformation OptionDHCPMessageType
       OptionParameterRequestList OptionRequestedIPAddress
       OptionServerIdentifier Pos.eqb].
  rewrite (parseUserClasses_rfc ucs Hucs) by lia. reflexivity.
Qed.

Lemma userClassReadBack_legacy (ucs : list (list Z)) :
  ~ userClassReadBack ucs false.
Proof.
  unfold userClassReadBack, parseVariant.
  cbn [Z.eqb OptionUserClassInformation OptionDHCPMessageType
       OptionParameterRequestList OptionRequestedIPAddress
       OptionServerIdentifier Pos.eqb].
  destruct (parseUserClasses _ _); cbn [bind]; discriminate.
Qed.

(** The two encodings of section 3.4 overlap: the legacy encoding of the
    identifier [1, 2] is the RFC 3004 encoding of the identifier [2].  So no
    parser of the value reads every user class option back. *)
Lemma userClass_encodings_collide :
  Opt.ToBytes (OptUserClass [[1; 2]] false)
  = Opt.ToBytes (OptUserClass [[2]] true) /\
  forall parse : list Z -> result Option,
    ~ (parse (Opt.userClassValue [[1; 2]] false)
       = Ok (OptUserClass [[1; 2]] false) /\
       parse (Opt.userClassValue [[2]] true) = Ok (OptUserClass [[2]] true)).
Proof.
  split; [reflexivity |].
  intros parse [H1 H2].
  change (Opt.userClassValue [[2]] true) with [1; 2] in H2.
  change (Opt.userClassValue [[1; 2]] false) with [1; 2] in H1.
  rewrite H1 in H2. discriminate.
Qed.

Lemma parseUserClasses_fits (ucs : list (list Z)) :
  forall fuel,
    parseUserClasses fuel (Opt.userClassValue ucs true) = Ok ucs ->
    Forall (fun uc => (length uc <= 255)%nat) ucs.
Proof.
  induction ucs as [| uc ucs IH]; intros fuel Hrun; [constructor |].
  cbn [Opt.userClassValue flat_map app] in Hrun.
  change (flat_map (fun uc0 => (Z.of_nat (length uc0) mod 256) :: uc0) ucs)
    with (Opt.userClassValue ucs true) in Hrun.
  destruct fuel as [| fuel]; [discriminate |].
  cbn [parseUserClasses] in Hrun.
  pose proof (Z.mod_pos_bound (Z.of_nat (length uc)) 256 ltac:(lia)) as Hmod.
  set (n := Z.of_nat (length uc) mod 256) in *. clearbody n.
  destruct (Z.ltb_spec (Z.of_nat (length (uc ++ Opt.userClassValue ucs true))) n)
    as [| Hfit]; [discriminate |].
  destruct (parseUserClasses fuel _) as [rest | |] eqn:Hrest; cbn [bind] in Hrun;
    try discriminate.
  injection Hrun as Htake ->.
  assert (Hn : Z.to_nat n = length uc).
  { apply (f_equal (@length Z)) in Htake.
    rewrite length_take in Htake.
    change (flat_map _ ucs) with (Opt.userClassValue ucs true) in Htake.
    lia. }
  rewrite Hn, drop_app_length in Hrest.
  constructor; [lia | exact (IH _ Hrest)].
Qed.

(** In the model a user class option is read back exactly when it is in the
    RFC 3004 encoding and each identifier fits its length byte. *)
Lemma userClassReadBack_iff (ucs : list (list Z)) (rfc : bool) :
  userClassReadBack ucs rfc <->
  rfc = true /\ Forall (fun uc => (length uc <= 255)%nat) ucs.
Proof.
  split.
  - destruct rfc; [| intros H; destruct (userClassReadBack_legacy _ H)].
    unfold userClassReadBack, parseVariant.
    cbn [Z.eqb OptionUserClassInformation OptionDHCPMessageType
         OptionParameterRequestList OptionRequestedIPAddress
         OptionServerIdentifier Pos.eqb].
    destruct (parseUserClasses _ _) as [l | |] eqn:Hrun; cbn [bind];
      try discriminate.
    intros [= ->]. split; [reflexivity |].
    exact (parseUserClasses_fits _ _ Hrun).
  - intros [-> Hucs]. apply userClassReadBack_rfc, Hucs.
Qed.


Lemma sampleOffer_legal : legal sampleOffer.
Proof.
  split; [constructor; try reflexivity; vm_compute; split; congruence |].
  split; [repeat split; discriminate |].
  split; [| cbn; repeat split; discriminate].
  repeat constructor; try discriminate; cbn; try lia.
Qed.


(** Without an address in a [ServerIdentifier] option the serialization has
    an option of length 0 under that code, which the parser rejects. *)
Example roundtrip_needs_identifier_address :
  Opt.ToBytes (OptServerIdentifier None) = [54; 0] /\
  exists e,
    FromBytes (ToBytes (sampleMessage sampleClient
                          [OptServerIdentifier None;
                           OptionGeneric OptionEnd []])) = Err e.
Proof. split; [reflexivity |]. eexists. vm_compute. reflexivity. Qed.


End RoundTrip.

(** * Further properties *)

(** ** Addresses of an interface *)

Section External.

Lemma keepExternalIPv4_fold (addrs : list Addr) (acc : list IP) :
  fold_left keepExternalIPv4 addrs acc
  = acc ++ fold_left keepExternalIPv4 addrs [].
Proof.
  revert acc. induction addrs as [| a addrs IH]; intros acc; cbn [fold_left].
  - rewrite app_nil_r. reflexivity.
  - rewrite (IH (keepExternalIPv4 acc a)), (IH (keepExternalIPv4 [] a)).
    rewrite app_assoc. f_equal.
    unfold keepExternalIPv4.
    destruct a as [[p |] | [p |] m |]; rewrite ?app_nil_r; try reflexivity;
      destruct (IsLoopback _); rewrite ?app_nil_r; try reflexivity;
      destruct (To4 _); rewrite ?app_nil_r; reflexivity.
Qed.

Lemma GetExternalIPv4Addrs_flat_map (addrs : list Addr) :
  GetExternalIPv4Addrs addrs = Ok (flat_map externalIPv4 addrs).
Proof.
  unfold GetExternalIPv4Addrs. f_equal.
  induction addrs as [| a addrs IH]; [reflexivity |].
  cbn [fold_left flat_map]. rewrite keepExternalIPv4_fold, IH. f_equal.
  unfold keepExternalIPv4, IsLoopback, externalIPv4.
  destruct a as [[q |] | [q |] m |]; cbn [addrIP]; try reflexivity;
    destruct (To4 (Some q)) as [p |] eqn:E; try reflexivity;
    destruct (IP_Equal _ _); reflexivity.
Qed.

Lemma externalIPv4_elem (a : Addr) (ip : IP) :
  ip ∈ externalIPv4 a <->
  exists p, ip = Some p /\ To4 (addrIP a) = Some p /\ nth 0 p 0 <> 127.
Proof.
  unfold externalIPv4. destruct (To4 (addrIP a)) as [p |].
  - destruct (Z.eqb_spec (nth 0 p 0) 127) as [H127 | H127].
    + split; [intros H; inversion H |].
      intros (q & _ & [= <-] & Hne). contradiction.
    + rewrite list_elem_of_singleton. split.
      * intros ->. exists p. tauto.
      * intros (q & -> & [= <-] & _). reflexivity.
  - split; [intros H; inversion H | intros (q & _ & H & _); discriminate].
Qed.

(** X1.  [GetExternalIPv4Addrs] never fails; what it returns are exactly the
    4-byte forms of the addresses of the list that convert to IPv4 and do
    not start with 127, in the order of the list: every address returned
    has 4 bytes and is no loopback address, and no such address of the list
    is left out. *)
Theorem GetExternalIPv4Addrs_sound_complete (addrs : list Addr) :
  exists ips,
    GetExternalIPv4Addrs addrs = Ok ips /\
    ips = flat_map externalIPv4 addrs /\
    Forall (fun ip => exists p a,
                ip = Some p /\ length p = 4%nat /\ nth 0 p 0 <> 127 /\
                a ∈ addrs /\ To4 (addrIP a) = Some p) ips /\
    (forall a p, a ∈ addrs -> To4 (addrIP a) = Some p -> nth 0 p 0 <> 127 ->
                 Some p ∈ ips) /\
    (length ips <= length addrs)%nat.
Proof.
  exists (flat_map externalIPv4 addrs).
  split; [apply GetExternalIPv4Addrs_flat_map |]. split; [reflexivity |].
  split; [| split].
  - apply Forall_forall. intros ip Hin.
    apply list_elem_of_In, in_flat_map in Hin as (a & Ha & Hin).
    apply list_elem_of_In in Ha, Hin.
    apply externalIPv4_elem in Hin as (p & -> & Hto & Hne).
    exists p, a. repeat split; try assumption. eapply To4_length, Hto.
  - intros a p Ha Hto Hne. apply list_elem_of_In, in_flat_map.
    exists a. split; [apply list_elem_of_In, Ha |].
    apply list_elem_of_In, externalIPv4_elem. exists p. tauto.
  - induction addrs as [| a addrs IH]; [reflexivity |].
    cbn [flat_map length]. rewrite length_app. unfold externalIPv4 at 1.
    destruct (To4 (addrIP a)); [destruct (_ =? _) |]; cbn [length]; lia.
Qed.

End External.

(** ** Hardware address, names and flags *)

Section Fields.

Lemma zero_fill (k : nat) :
  forall (n : nat) (a : list Z),
    (n + k <= length a)%nat ->
    fold_left (fun a i => <[i:=0]> a) (seq n k) a
    = take n a ++ replicate k 0 ++ drop (n + k) a.
Proof.
  induction k as [| k IH]; intros n a Hlen; cbn [seq fold_left replicate].
  - rewrite Nat.add_0_r. cbn. rewrite take_drop. reflexivity.
  - rewrite IH by (rewrite length_insert; lia).
    rewrite take_insert_lt by lia.
    rewrite drop_insert_lt by lia.
    assert (Hn : (n < length a)%nat) by lia.
    destruct (lookup_lt_is_Some_2 a n Hn) as [x Hx].
    rewrite (take_S_r a n x Hx).
    rewrite insert_app_r_alt by (rewrite length_take; lia).
    rewrite length_take. replace (n - n `min` length a)%nat with 0%nat by lia.
    cbn [app]. rewrite <- app_assoc. cbn.
    replace (n + S k)%nat with (S (n + k)) by lia. reflexivity.
Qed.

Lemma SetClientHwAddr_array (hwaddr : list Z) (d : DHCPv4) :
  length (clientHwAddr d) = 16%nat ->
  clientHwAddr (SetClientHwAddr hwaddr d)
  = take 16 hwaddr ++ replicate (16 - length hwaddr) 0.
Proof.
  intros H16. unfold SetClientHwAddr. cbn [clientHwAddr with_clientHwAddr].
  set (hw := if (16 <? length hwaddr)%nat then take 16 hwaddr else hwaddr).
  assert (Hhw : hw = take 16 hwaddr).
  { subst hw. destruct (Nat.ltb_spec 16 (length hwaddr)); [reflexivity |].
    rewrite take_ge by lia. reflexivity. }
  clearbody hw.
  assert (Hlen : (length hw <= 16)%nat).
  { rewrite Hhw, length_take. lia. }
  unfold zeroFrom, copy.
  rewrite zero_fill.
  - rewrite length_take, H16.
    replace (length hw `min` 16)%nat with (length hw) by lia.
    rewrite (take_ge hw) by lia.
    rewrite (drop_ge (take (length hw) (clientHwAddr d)))
      by (rewrite length_take; lia).
    rewrite app_nil_r, take_app_length.
    rewrite (drop_ge (hw ++ _))
      by (rewrite length_app, length_drop, H16; lia).
    rewrite app_nil_r, Hhw. f_equal. f_equal.
    rewrite length_take. lia.
  - rewrite !length_app, length_take, !length_drop, length_take, H16. lia.
Qed.

(** X2.  [SetClientHwAddr] leaves a 16-byte array that holds the first 16
    bytes of the address given and zeros after them: nothing of the former
    content remains, and a longer address is cut, whatever the message held
    before. *)
Theorem SetClientHwAddr_truncates_and_pads (hwaddr : list Z) (d : DHCPv4) :
  length (clientHwAddr d) = 16%nat ->
  clientHwAddr (SetClientHwAddr hwaddr d)
  = take 16 hwaddr ++ replicate (16 - length hwaddr) 0 /\
  length (clientHwAddr (SetClientHwAddr hwaddr d)) = 16%nat /\
  (forall d', length (clientHwAddr d') = 16%nat ->
              clientHwAddr (SetClientHwAddr hwaddr d')
              = clientHwAddr (SetClientHwAddr hwaddr d)).
Proof.
  intros H16. rewrite (SetClientHwAddr_array hwaddr d H16).
  split; [reflexivity |]. split.
  - rewrite length_app, length_take, length_replicate. lia.
  - intros d' H16'. apply SetClientHwAddr_array, H16'.
Qed.

Lemma SetClientHwAddr_truncates_and_pads_witness :
  clientHwAddr (SetClientHwAddr [1; 2; 3] (sampleMessage sampleClient []))
  = [1; 2; 3; 0; 0; 0; 0; 0; 0; 0; 0; 0; 0; 0; 0; 0].
Proof.
  destruct (SetClientHwAddr_truncates_and_pads [1; 2; 3]
              (sampleMessage sampleClient []) eq_refl) as [Heq _].
  exact Heq.
Defined.

Lemma trimRightNUL_zeros (k : nat) : trimRightNUL (replicate k 0) = [].
Proof. induction k as [| k IH]; cbn; [| rewrite IH]; reflexivity. Qed.

Lemma trimRightNUL_app_zeros (s : list Z) (k : nat) :
  trimRightNUL (s ++ replicate k 0) = trimRightNUL s.
Proof.
  induction s as [| b s IH]; cbn; [apply trimRightNUL_zeros |].
  rewrite IH. reflexivity.
Qed.

Lemma trimRightNUL_id (s : list Z) :
  last s <> Some 0 -> trimRightNUL s = s.
Proof.
  induction s as [| b s IH]; [reflexivity |].
  intros Hlast. cbn [trimRightNUL].
  destruct s as [| c s].
  - cbn in *. destruct (Z.eqb_spec b 0) as [-> | _]; [contradiction |].
    reflexivity.
  - rewrite last_cons_cons in Hlast. rewrite (IH Hlast). reflexivity.
Qed.

Lemma padded_name (n : nat) (name : list Z) :
  copy (replicate n 0)
    (if (n <? length name)%nat then take n name
     else if (length name <? n)%nat
          then name ++ replicate (S n - length name) 0
          else name)
  = take n name ++ replicate (n - length name) 0.
Proof.
  unfold copy. rewrite length_replicate.
  destruct (Nat.ltb_spec n (length name)) as [Hlong | Hle].
  - rewrite take_take, Nat.min_id, length_take, drop_replicate.
    replace (n - n `min` length name)%nat with 0%nat by lia.
    replace (n - length name)%nat with 0%nat by lia. reflexivity.
  - destruct (Nat.ltb_spec (length name) n) as [Hshort | Hge].
    + rewrite length_app, length_replicate, drop_replicate.
      replace (n - (length name + (S n - length name)))%nat with 0%nat by lia.
      cbn [replicate]. rewrite app_nil_r.
      rewrite take_app_ge by lia. rewrite take_replicate.
      rewrite (take_ge name) by lia. f_equal. f_equal. lia.
    + rewrite drop_replicate.
      replace (n - length name)%nat with 0%nat by lia. reflexivity.
Qed.

(** X3.  [SetServerHostName] and [SetBootFileName] store the name cut at 64,
    resp. 128, bytes and padded with NUL bytes to the full width; the string
    form read back is the name cut at that width without its trailing NUL
    bytes, hence the name itself when it fits and does not end with a NUL
    byte. *)
Theorem names_are_cut_and_padded (name : list Z) (d : DHCPv4) :
  serverHostName (SetServerHostName name d)
  = take 64 name ++ replicate (64 - length name) 0 /\
  bootFileName (SetBootFileName name d)
  = take 128 name ++ replicate (128 - length name) 0 /\
  length (serverHostName (SetServerHostName name d)) = 64%nat /\
  length (bootFileName (SetBootFileName name d)) = 128%nat /\
  ServerHostNameToString (SetServerHostName name d)
  = trimRightNUL (take 64 name) /\
  BootFileNameToString (SetBootFileName name d)
  = trimRightNUL (take 128 name) /\
  ((length name <= 64)%nat -> last name <> Some 0 ->
   ServerHostNameToString (SetServerHostName name d) = name) /\
  ((length name <= 128)%nat -> last name <> Some 0 ->
   BootFileNameToString (SetBootFileName name d) = name).
Proof.
  assert (H64 : serverHostName (SetServerHostName name d)
                = take 64 name ++ replicate (64 - length name) 0)
    by apply (padded_name 64).
  assert (H128 : bootFileName (SetBootFileName name d)
                 = take 128 name ++ replicate (128 - length name) 0)
    by apply (padded_name 128).
  unfold ServerHostNameToString, BootFileNameToString.
  rewrite H64, H128, !trimRightNUL_app_zeros.
  repeat split.
  - rewrite length_app, length_take, length_replicate. lia.
  - rewrite length_app, length_take, length_replicate. lia.
  - intros Hlen Hlast. rewrite take_ge by lia. apply trimRightNUL_id, Hlast.
  - intros Hlen Hlast. rewrite take_ge by lia. apply trimRightNUL_id, Hlast.
Qed.

Lemma land_pow2_bit (f n : Z) :
  0 <= n -> Z.land f (2 ^ n) = if Z.testbit f n then 2 ^ n else 0.
Proof.
  intros Hn. apply Z.bits_inj'. intros m Hm.
  rewrite Z.land_spec, Z.pow2_bits_eqb by exact Hn.
  destruct (Z.eqb_spec n m) as [-> | Hne].
  - rewrite andb_true_r. destruct (Z.testbit f m) eqn:E.
    + rewrite Z.pow2_bits_true by exact Hm. reflexivity.
    + rewrite Z.bits_0. reflexivity.
  - rewrite andb_false_r. destruct (Z.testbit f n).
    + rewrite Z.pow2_bits_false by exact Hne. reflexivity.
    + rewrite Z.bits_0. reflexivity.
Qed.

(** X4.  The broadcast bit: after [SetBroadcast] the message is broadcast
    and after [SetUnicast] it is unicast, a message is unicast exactly when
    it is not broadcast, both leave the 15 other bits of the flags as they
    are, and both can be repeated without effect. *)
Theorem broadcast_bit (d : DHCPv4) :
  IsBroadcast (SetBroadcast d) = true /\
  IsUnicast (SetBroadcast d) = false /\
  IsUnicast (SetUnicast d) = true /\
  IsBroadcast (SetUnicast d) = false /\
  IsUnicast d = negb (IsBroadcast d) /\
  Z.land (flags (SetBroadcast d)) 32767 = Z.land (flags d) 32767 /\
  Z.land (flags (SetUnicast d)) 32767 = Z.land (flags d) 32767 /\
  SetBroadcast (SetBroadcast d) = SetBroadcast d /\
  SetUnicast (SetUnicast d) = SetUnicast d /\
  (0 <= flags d < 2 ^ 16 ->
   0 <= flags (SetBroadcast d) < 2 ^ 16 /\
   0 <= flags (SetUnicast d) < 2 ^ 16).
Proof.
  unfold IsBroadcast, IsUnicast, SetBroadcast, SetUnicast.
  cbn [flags with_flags].
  assert (Hb : Z.land (Z.lor (flags d) 32768) 32768 = 32768).
  { rewrite Z.land_lor_distr_l, Z.land_diag.
    change 32768 with (2 ^ 15). rewrite land_pow2_bit by lia.
    destruct (Z.testbit (flags d) 15); reflexivity. }
  assert (Hu : Z.land (Z.land (flags d) 32767) 32768 = 0).
  { rewrite <- Z.land_assoc. change (Z.land 32767 32768) with 0.
    apply Z.land_0_r. }
  assert (Hl : Z.land (Z.lor (flags d) 32768) 32767 = Z.land (flags d) 32767).
  { rewrite Z.land_lor_distr_l. change (Z.land 32768 32767) with 0.
    apply Z.lor_0_r. }
  assert (Hll : Z.land (Z.land (flags d) 32767) 32767 = Z.land (flags d) 32767).
  { rewrite <- Z.land_assoc. reflexivity. }
  rewrite Hb, Hu, Hl, Hll.
  repeat split; try reflexivity.
  - change 32768 with (2 ^ 15). rewrite land_pow2_bit by lia.
    destruct (Z.testbit (flags d) 15); reflexivity.
  - unfold with_flags. cbn. f_equal.
    rewrite <- Z.lor_assoc. reflexivity.
  - apply Z.lor_nonneg. lia.
  - change 65536 with (2 ^ 16) in *.
    destruct (Z.eq_dec (Z.lor (flags d) 32768) 0) as [-> | Hne]; [lia |].
    apply Z.log2_lt_pow2; [apply Z.le_neq; split;
      [apply Z.lor_nonneg; lia | congruence] |].
    rewrite Z.log2_lor by lia.
    apply Z.max_lub_lt; [| reflexivity].
    destruct (Z.eq_dec (flags d) 0) as [-> | Hf]; [reflexivity |].
    apply Z.log2_lt_pow2; lia.
  - apply Z.land_nonneg. right. lia.
  - change 32767 with (Z.ones 15). rewrite Z.land_ones by lia.
    pose proof (Z.mod_pos_bound (flags d) (2 ^ 15) ltac:(lia)). lia.
Qed.

End Fields.

(** ** Looking options up *)

Section Lookup.

Lemma firstWithCode_head (code : Z) (opts : list Option) :
  firstWithCode code opts
  = head (filter (fun opt => Opt.Code opt = code) opts).
Proof.
  induction opts as [| o opts IH]; [reflexivity |].
  cbn [firstWithCode]. rewrite filter_cons.
  destruct (Z.eqb_spec (Opt.Code o) code) as [Hc | Hc].
  - rewrite decide_True by exact Hc. reflexivity.
  - rewrite decide_False by exact Hc. exact IH.
Qed.


Lemma strip_prefix (opts : list Option) :
  exists rest, opts = strip opts ++ rest /\
               (rest <> [] ->
                exists e, last (strip opts) = Some e /\ Opt.Code e = OptionEnd).
Proof.
  induction opts as [| o opts (rest & Heq & Hrest)].
  - exists []. split; [reflexivity | congruence].
  - cbn [strip]. destruct (Z.eqb_spec (Opt.Code o) OptionEnd) as [Hc | Hc].
    + exists opts. split; [reflexivity |]. intros _. exists o. split;
        [reflexivity | exact Hc].
    + exists rest. split; [cbn; congruence |].
      intros Hne. destruct (Hrest Hne) as (e & Hlast & He).
      exists e. split; [| exact He].
      rewrite last_cons, Hlast. reflexivity.
Qed.

Lemma strip_no_End (opts : list Option) :
  noCode OptionEnd opts -> strip opts = opts.
Proof.
  induction 1 as [| o opts Ho _ IH]; [reflexivity |].
  cbn [strip]. destruct (Z.eqb_spec (Opt.Code o) OptionEnd);
    [contradiction | congruence].
Qed.

Lemma strip_at_End (pre rest : list Option) (e : Option) :
  noCode OptionEnd pre -> Opt.Code e = OptionEnd ->
  strip (pre ++ e :: rest) = pre ++ [e].
Proof.
  intros Hpre He. induction Hpre as [| o pre Ho _ IH]; cbn [app strip].
  - rewrite He, Z.eqb_refl. reflexivity.
  - destruct (Z.eqb_spec (Opt.Code o) OptionEnd); [contradiction |].
    rewrite IH. reflexivity.
Qed.

Lemma strip_idempotent (opts : list Option) : strip (strip opts) = strip opts.
Proof.
  induction opts as [| o opts IH]; [reflexivity |].
  cbn [strip]. destruct (Z.eqb_spec (Opt.Code o) OptionEnd) as [Hc | Hc].
  - cbn [strip]. rewrite Hc, Z.eqb_refl. reflexivity.
  - cbn [strip]. destruct (Z.eqb_spec (Opt.Code o) OptionEnd);
      [contradiction |]. rewrite IH. reflexivity.
Qed.

(** X6.  [StrippedOptions] is the option list up to and including its first
    [End]: a prefix of the list, the whole list when it has no [End], and
    otherwise the options before the first [End] followed by that [End];
    stripping what was stripped changes nothing. *)
Theorem StrippedOptions_prefix (d : DHCPv4) :
  StrippedOptions d `prefix_of` options d /\
  (noCode OptionEnd (options d) -> StrippedOptions d = options d) /\
  (forall pre e rest,
      options d = pre ++ e :: rest -> noCode OptionEnd pre ->
      Opt.Code e = OptionEnd -> StrippedOptions d = pre ++ [e]) /\
  StrippedOptions (SetOptions (StrippedOptions d) d) = StrippedOptions d.
Proof.
  unfold StrippedOptions, SetOptions. cbn [options with_options].
  split; [| split; [| split]].
  - destruct (strip_prefix (options d)) as (rest & Heq & _).
    exists rest. exact Heq.
  - apply strip_no_End.
  - intros pre e rest -> Hpre He. apply strip_at_End; assumption.
  - apply strip_idempotent.
Qed.

End Lookup.

(** ** Adding options, continued *)

Section AddingMore.

Lemma AddOption_cases (d : DHCPv4) (x : Option) :
  (exists pre e,
      options d = pre ++ [e] /\ Opt.Code e = OptionEnd /\
      options (AddOption x d) = pre ++ [x; e]) \/
  ((forall e, last (options d) = Some e -> Opt.Code e <> OptionEnd) /\
   options (AddOption x d) = options d ++ [x]).
Proof.
  destruct (options d) as [| l pre _] eqn:Hopts using rev_ind.
  - right. split; [discriminate |].
    rewrite (AddOption_empty d x Hopts). reflexivity.
  - destruct (Z.eq_dec (Opt.Code l) OptionEnd) as [He | He].
    + left. exists pre, l. split; [reflexivity |]. split; [exact He |].
      rewrite (AddOption_snoc_End d x l pre Hopts He). reflexivity.
    + right. split.
      * intros e. rewrite last_snoc. intros [= <-]. exact He.
      * rewrite (AddOption_snoc_other d x l pre Hopts He). cbn.
        rewrite <- app_assoc. reflexivity.
Qed.

(** X7.  [AddOption] adds exactly the option given: the list grows by one,
    the options it held stay, in their order; the options of any other code
    are the same as before, and the new option, unless it is an [End], is
    the last one of its code. *)
Theorem AddOption_keeps_order (d : DHCPv4) (x : Option) :
  length (options (AddOption x d)) = S (length (options d)) /\
  options (AddOption x d) ≡ₚ x :: options d /\
  options d `sublist_of` options (AddOption x d) /\
  (forall code, code <> Opt.Code x ->
                GetOption code (AddOption x d) = GetOption code d) /\
  (Opt.Code x <> OptionEnd ->
   GetOption (Opt.Code x) (AddOption x d)
   = GetOption (Opt.Code x) d ++ [x]).
Proof.
  unfold GetOption, Options.
  destruct (AddOption_cases d x)
    as [(pre & e & Hopts & He & Hnew) | (Hlast & Hnew)]; rewrite Hnew.
  - rewrite Hopts. split; [rewrite !length_app; cbn; lia |].
    split; [| split; [| split]].
    + change (pre ++ [x; e]) with (pre ++ x :: [e]).
      symmetry. apply Permutation_middle.
    + apply sublist_app; [reflexivity |]. apply sublist_cons, sublist_skip.
      constructor.
    + intros code Hne. rewrite !filter_app.
      change [x; e] with ([x] ++ [e]). rewrite filter_app.
      rewrite (filter_cons _ x), decide_False by congruence. reflexivity.
    + intros Hx. rewrite !filter_app.
      change [x; e] with ([x] ++ [e]). rewrite filter_app.
      rewrite (filter_cons _ x), decide_True by reflexivity.
      rewrite (filter_cons _ e), decide_False by congruence.
      cbn. rewrite app_nil_r. reflexivity.
  - split; [rewrite length_app; cbn; lia |].
    split; [| split; [| split]].
    + rewrite Permutation_app_comm. reflexivity.
    + apply sublist_inserts_r. reflexivity.
    + intros code Hne. rewrite filter_app.
      rewrite (filter_cons _ x), decide_False by congruence.
      cbn. rewrite app_nil_r. reflexivity.
    + intros Hx. rewrite filter_app.
      rewrite (filter_cons _ x), decide_True by reflexivity. reflexivity.
Qed.

End AddingMore.

(** ** [ValidateOptions] *)

Section Validation.

Lemma validateStep_after (log : list Warning) (o : Option) :
  validateStep (true, log) o = (true, log ++ warningAfterEnd o).
Proof.
  unfold validateStep, warningAfterEnd.
  destruct (Opt.Code o =? OptionEnd); cbn [negb andb]; [reflexivity |].
  destruct (Opt.Code o =? OptionPad); cbn [negb];
    rewrite ?app_nil_r; reflexivity.
Qed.

Lemma validateStep_before (log : list Warning) (o : Option) :
  validateStep (false, log) o = (Opt.Code o =? OptionEnd, log).
Proof.
  unfold validateStep. destruct (Opt.Code o =? OptionEnd); reflexivity.
Qed.

Lemma validate_after (opts : list Option) (log : list Warning) :
  fold_left validateStep opts (true, log)
  = (true, log ++ flat_map warningAfterEnd opts).
Proof.
  revert log. induction opts as [| o opts IH]; intros log; cbn [fold_left].
  - cbn. rewrite app_nil_r. reflexivity.
  - rewrite validateStep_after, IH, <- app_assoc. reflexivity.
Qed.

Lemma validate_before (pre : list Option) :
  noCode OptionEnd pre ->
  forall rest,
    fold_left validateStep (pre ++ rest) (false, [])
    = fold_left validateStep rest (false, []).
Proof.
  induction 1 as [| o pre Ho _ IH]; intros rest; [reflexivity |].
  cbn [app fold_left]. rewrite validateStep_before.
  destruct (Z.eqb_spec (Opt.Code o) OptionEnd); [contradiction |].
  apply IH.
Qed.

(** The option list, cut at its first [End]. *)
Lemma split_at_End (opts : list Option) :
  noCode OptionEnd opts \/
  exists pre e rest,
    opts = pre ++ e :: rest /\ noCode OptionEnd pre /\ Opt.Code e = OptionEnd.
Proof.
  induction opts as [| o opts IH]; [left; constructor |].
  destruct (Z.eq_dec (Opt.Code o) OptionEnd) as [He | He].
  - right. exists [], o, opts. repeat split; [constructor | exact He].
  - destruct IH as [Hno | (pre & e & rest & -> & Hpre & Hend)].
    + left. constructor; assumption.
    + right. exists (o :: pre), e, rest.
      repeat split; [constructor; assumption | exact Hend].
Qed.

Lemma ValidateOptions_no_End (d : DHCPv4) :
  noCode OptionEnd (options d) -> ValidateOptions d = [NoEnd].
Proof.
  intros Hno. unfold ValidateOptions.
  pose proof (validate_before (options d) Hno []) as H.
  rewrite app_nil_r in H. rewrite H. reflexivity.
Qed.

Lemma ValidateOptions_with_End (d : DHCPv4) (pre rest : list Option)
    (e : Option) :
  options d = pre ++ e :: rest -> noCode OptionEnd pre ->
  Opt.Code e = OptionEnd ->
  ValidateOptions d = flat_map warningAfterEnd rest.
Proof.
  intros Hopts Hpre He. unfold ValidateOptions.
  rewrite Hopts, (validate_before pre Hpre). cbn [fold_left].
  rewrite validateStep_before, He, Z.eqb_refl, validate_after. reflexivity.
Qed.

Lemma no_warning_pads (rest : list Option) :
  flat_map warningAfterEnd rest = [] <->
  Forall (fun o => Opt.Code o = OptionPad) rest.
Proof.
  induction rest as [| o rest IH]; cbn [flat_map].
  - split; [constructor | reflexivity].
  - unfold warningAfterEnd at 1.
    destruct (Z.eqb_spec (Opt.Code o) OptionEnd) as [He | He].
    + split; [discriminate |]. intros H. inversion H as [| ? ? Hp _]; subst.
      rewrite He in Hp. discriminate Hp.
    + destruct (Z.eqb_spec (Opt.Code o) OptionPad) as [Hp | Hp].
      * cbn [app]. rewrite IH. split; [constructor; assumption |].
        intros H. inversion H. assumption.
      * split; [discriminate |]. intros H. inversion H. contradiction.
Qed.

(** X8.  [ValidateOptions] prints "no End" exactly for a list without [End]
    option, and nothing else in that case; for a list with one it prints one
    warning for each option after the first [End] that is not a [Pad].  So it
    prints nothing exactly for the lists that hold an [End] followed by [Pad]
    options only. *)
Theorem ValidateOptions_warnings (d : DHCPv4) :
  (noCode OptionEnd (options d) -> ValidateOptions d = [NoEnd]) /\
  (forall pre e rest,
      options d = pre ++ e :: rest -> noCode OptionEnd pre ->
      Opt.Code e = OptionEnd ->
      ValidateOptions d = flat_map warningAfterEnd rest) /\
  (NoEnd ∈ ValidateOptions d <-> noCode OptionEnd (options d)) /\
  (ValidateOptions d = [] <-> endsProperly (options d)).
Proof.
  split; [apply ValidateOptions_no_End |].
  split; [intros pre e rest; apply ValidateOptions_with_End |].
  destruct (split_at_End (options d))
    as [Hno | (pre & e & rest & Hopts & Hpre & He)].
  - rewrite (ValidateOptions_no_End d Hno). split.
    + split; [intros _; exact Hno | intros _; left].
    + split; [discriminate |].
      intros (pre & e & pads & Hopts & _ & He & _).
      unfold noCode in Hno. rewrite Hopts, Forall_app in Hno.
      destruct Hno as [_ Hno]. inversion Hno. contradiction.
  - rewrite (ValidateOptions_with_End d pre rest e Hopts Hpre He). split.
    + split.
      * intros Hin. apply list_elem_of_In, in_flat_map in Hin.
        destruct Hin as (o & _ & Hin). unfold warningAfterEnd in Hin.
        destruct (_ =? _); [| destruct (_ =? _)]; cbn in Hin;
          intuition discriminate.
      * intros Hno. unfold noCode in Hno. rewrite Hopts, Forall_app in Hno.
        destruct Hno as [_ Hno]. inversion Hno. contradiction.
    + rewrite no_warning_pads. split.
      * intros Hpads. exists pre, e, rest. tauto.
      * intros (pre' & e' & pads & Hopts' & Hpre' & He' & Hpads).
        assert (Hsame : pre ++ [e] = pre' ++ [e']).
        { rewrite <- (strip_at_End pre rest e Hpre He),
                  <- (strip_at_End pre' pads e' Hpre' He').
          congruence. }
        apply app_inj_tail in Hsame as [-> ->].
        rewrite Hopts in Hopts'. apply app_inv_head in Hopts'.
        injection Hopts' as ->. exact Hpads.
Qed.

End Validation.

(** ** Constructors, continued *)

Section ConstructorsMore.

Lemma LittleEndian_Uint32_value (a b c d : Z) :
  is_byte a -> is_byte b -> is_byte c -> is_byte d ->
  LittleEndian_Uint32 [a; b; c; d] = a + b * 2 ^ 8 + c * 2 ^ 16 + d * 2 ^ 24.
Proof.
  unfold is_byte, LittleEndian_Uint32. intros Ha Hb Hc Hd. cbn [nth].
  rewrite (lor_shiftl_add a b 8) by lia.
  rewrite (lor_shiftl_add _ c 16) by lia.
  rewrite (lor_shiftl_add _ d 24) by lia.
  lia.
Qed.

Lemma PutUint32_of_bytes (a b c d : Z) :
  is_byte a -> is_byte b -> is_byte c -> is_byte d ->
  PutUint32 (a * 2 ^ 24 + b * 2 ^ 16 + c * 2 ^ 8 + d) = [a; b; c; d].
Proof.
  unfold is_byte, PutUint32. intros Ha Hb Hc Hd.
  rewrite !land_255, !shiftr_div by lia.
  change (2 ^ 8) with 256. change (2 ^ 16) with 65536.
  change (2 ^ 24) with 16777216.
  repeat f_equal; Z.div_mod_to_equations; lia.
Qed.

Lemma PutUint16_of_bytes (a b : Z) :
  is_byte a -> is_byte b -> PutUint16 (a * 256 + b) = [a; b].
Proof.
  unfold is_byte, PutUint16. intros Ha Hb.
  rewrite !land_255, !shiftr_div by lia. change (2 ^ 8) with 256.
  repeat f_equal; Z.div_mod_to_equations; lia.
Qed.

(** X9.  The transaction id of [New] is the 4 random bytes read as a
    little-endian integer, a 32-bit value, and [ToBytes] writes it
    big-endian: the bytes [4..8] of the serialization are the random bytes
    in reverse order. *)
Theorem transaction_id_bytes_reversed (r : RandRead) (d : DHCPv4) :
  New r = Ok d -> length (rr_bytes r) = 4%nat -> bytes_ok (rr_bytes r) ->
  transactionID d
  = nth 0 (rr_bytes r) 0 + nth 1 (rr_bytes r) 0 * 2 ^ 8
    + nth 2 (rr_bytes r) 0 * 2 ^ 16 + nth 3 (rr_bytes r) 0 * 2 ^ 24 /\
  0 <= transactionID d < 2 ^ 32 /\
  slice 4 8 (ToBytes d) = rev (rr_bytes r).
Proof.
  intros Hnew Hlen Hok. pose proof (New_cases r) as HN.
  rewrite Hnew in HN. destruct HN as (_ & _ & ->).
  destruct (rr_bytes r) as [| a [| b [| c [| e [| ? ?]]]]]; try discriminate.
  inversion Hok as [| ? ? Ha Hok1]; subst.
  inversion Hok1 as [| ? ? Hb Hok2]; subst.
  inversion Hok2 as [| ? ? Hc Hok3]; subst.
  inversion Hok3 as [| ? ? He _]; subst.
  cbn [transactionID nth].
  rewrite (LittleEndian_Uint32_value a b c e) by assumption.
  split; [reflexivity |].
  split; [unfold is_byte in *; lia |].
  unfold ToBytes. cbn [opcode hwType hwAddrLen hopCount transactionID app].
  replace (a + b * 2 ^ 8 + c * 2 ^ 16 + e * 2 ^ 24)
    with (e * 2 ^ 24 + c * 2 ^ 16 + b * 2 ^ 8 + a) by lia.
  rewrite PutUint32_of_bytes by assumption.
  rewrite fold_append_bytes. reflexivity.
Qed.

Lemma transaction_id_bytes_reversed_witness :
  exists d,
    New sampleRand = Ok d /\
    transactionID d = 1144201745 /\
    slice 4 8 (ToBytes d) = [68; 51; 34; 17].
Proof.
  eexists. split; [reflexivity |].
  destruct (transaction_id_bytes_reversed sampleRand _ eq_refl eq_refl)
    as (Hid & _ & Hwire).
  - repeat constructor; cbn; lia.
  - split; [exact Hid | exact Hwire].
Defined.

(** X10.  Whenever the random source delivers, [NewDiscovery] returns a
    broadcast [BOOTREQUEST] for Ethernet whose options are
    [MessageType(Discover)], the parameter request list [SubnetMask, Router,
    DomainName, DomainNameServer] and [End], in that order; the hardware
    address field holds the first 16 bytes of the address, zero-padded, and
    the length field is the length of the address modulo 256, at most 16.
    [ValidateOptions] prints nothing for it, and it serializes to 250
    bytes.  It fails only when the random source does. *)
Theorem NewDiscovery_message (r : RandRead) (hwaddr : list Z) :
  match NewDiscovery r hwaddr with
  | Ok d =>
      opcode d = OpcodeBootRequest /\
      hwType d = HwTypeEthernet /\
      hwAddrLen d = Z.min 16 (Z.of_nat (length hwaddr) mod 256) /\
      clientHwAddr d = take 16 hwaddr ++ replicate (16 - length hwaddr) 0 /\
      transactionID d = LittleEndian_Uint32 (rr_bytes r) /\
      IsBroadcast d = true /\
      options d = [OptMessageType MessageTypeDiscover;
                   OptParameterRequestList
                     [OptionSubnetMask; OptionRouter; OptionDomainName;
                      OptionDomainNameServer];
                   OptionGeneric OptionEnd []] /\
      MessageType d = Ok (Some MessageTypeDiscover) /\
      ValidateOptions d = [] /\
      length (ToBytes d) = 250%nat
  | Err _ => rr_n r <> 4 \/ rr_err r <> None
  | Panic _ => False
  end.
Proof.
  unfold NewDiscovery. pose proof (New_cases r) as HN.
  destruct (New r) as [d | e | e]; cbn [bind]; [| exact HN | exact HN].
  destruct HN as (_ & _ & ->).
  assert (Hhw : forall d0,
             length (clientHwAddr d0) = 16%nat ->
             clientHwAddr (SetClientHwAddr hwaddr d0)
             = take 16 hwaddr ++ replicate (16 - length hwaddr) 0)
    by (intros d0; apply SetClientHwAddr_array).
  split; [reflexivity |]. split; [reflexivity |].
  split.
  { cbn. destruct (Z.ltb_spec 16 (Z.of_nat (length hwaddr) mod 256)); lia. }
  split; [apply Hhw; reflexivity |].
  split; [reflexivity |]. split; [reflexivity |]. split; [reflexivity |].
  split; [reflexivity |]. split; [reflexivity |].
  rewrite ToBytes_layout, !length_app.
  rewrite fixedHeader_length.
  - reflexivity.
  - split; [| split; reflexivity].
    etransitivity; [apply f_equal, Hhw; reflexivity |].
    rewrite length_app, length_take, length_replicate. lia.
Qed.

(** What [NewInform] returns, field by field. *)
Lemma NewInform_cases (r : RandRead) (hwaddr : list Z) (localIP : IP) :
  match NewInform r hwaddr localIP with
  | Ok d =>
      options d = [OptMessageType MessageTypeInform; OptionGeneric OptionEnd []]
      /\ flags d = 0 /\ clientIPAddr d = localIP
  | Err _ => rr_n r <> 4 \/ rr_err r <> None
  | Panic _ => False
  end.
Proof.
  unfold NewInform. pose proof (New_cases r) as HN.
  destruct (New r) as [d | e | e]; cbn [bind]; [| exact HN | exact HN].
  destruct HN as (_ & _ & ->). repeat split.
Qed.

End ConstructorsMore.

(** ** Replies, interfaces and parsed headers *)

Section Replies.

Lemma take_datagram (l : list Z) :
  Z.of_nat (length l) <= 8192 -> take MaxUDPReceivedPacketSize l = l.
Proof.
  intros H. apply take_ge. unfold MaxUDPReceivedPacketSize. lia.
Qed.

(** X11.  When the random source delivers, the reply that
    [NewReplyFromRequest] builds without modifiers for a well-typed request
    is a [BOOTREPLY] with the transaction id, flags, hardware type and
    address and gateway of the request and the lone [End] as options.  When
    the gateway address of the request converts to IPv4, the receive loop of
    a client that sent the request accepts the serialized reply if no
    message type is expected, and drops it if one is, since the reply
    carries none.  When the gateway address does not convert (a [nil]
    address, say), the serialized reply is four bytes short, does not parse,
    and the receive loop panics. *)
Theorem reply_from_request_correlates
    (r : RandRead) (request : DHCPv4) (rest : list RecvEvent) :
  rr_n r = 4 -> rr_err r = None ->
  well_typed request ->
  exists reply,
    NewReplyFromRequest r request [] = Ok reply /\
    opcode reply = OpcodeBootReply /\
    transactionID reply = transactionID request /\
    flags reply = flags request /\
    hwType reply = hwType request /\
    clientHwAddr reply = clientHwAddr request /\
    gatewayIPAddr reply = gatewayIPAddr request /\
    options reply = [OptionGeneric OptionEnd []] /\
    (isIPv4 (gatewayIPAddr request) ->
     receiveLoop request MessageTypeNone (Datagram (ToBytes reply) :: rest)
     = Found (canonical reply) /\
     (forall messageType, messageType <> MessageTypeNone ->
        receiveLoop request messageType (Datagram (ToBytes reply) :: rest)
        = receiveLoop request messageType rest)) /\
    (~ isIPv4 (gatewayIPAddr request) ->
     length (ToBytes reply) = 237%nat /\
     forall messageType,
       receiveLoop request messageType (Datagram (ToBytes reply) :: rest)
       = Crashed "invalid memory address or nil pointer dereference").
Proof.
  intros Hn He Hwt. unfold NewReplyFromRequest.
  pose proof (New_cases r) as HN.
  destruct (New r) as [d | e | e]; [| tauto | contradiction].
  destruct HN as (_ & _ & ->). cbn [bind applyModifiers].
  eexists. split; [reflexivity |].
  destruct Hwt as [_ Hhw Hhl _ Hxid _ Hfl H16 _ _].
  split; [reflexivity |]. split; [reflexivity |]. split; [reflexivity |].
  split; [reflexivity |].
  assert (Harr : forall d0,
             length (clientHwAddr d0) = 16%nat ->
             clientHwAddr (SetClientHwAddr (clientHwAddr request) d0)
             = clientHwAddr request).
  { intros d0 Hd0. rewrite SetClientHwAddr_array by exact Hd0.
    rewrite take_ge, H16 by lia. cbn. apply app_nil_r. }
  split; [apply Harr; reflexivity |].
  split; [reflexivity |]. split; [reflexivity |].
  match goal with
  | |- context [ToBytes ?m] => set (reply := m)
  end.
  assert (Hsized : arrays_sized reply).
  { split; [| split; reflexivity].
    etransitivity; [apply f_equal, Harr; reflexivity | exact H16]. }
  split.
  - intros Hgw.
    assert (Hlegal : legal reply).
    { split; [| split].
      - constructor; try reflexivity; try assumption.
        + unfold reply. cbn. unfold OpcodeBootReply. lia.
        + unfold reply. cbn.
          destruct (Z.ltb_spec 16 (hwAddrLen request)); lia.
        + unfold reply. cbn. lia.
        + unfold reply. cbn. lia.
        + apply Hsized.
      - repeat split; try discriminate. exact Hgw.
      - split; [| cbn; tauto].
        repeat constructor; try discriminate. }
    pose proof (roundtrip_canonical reply Hlegal) as Hrt.
    assert (Hlen : length (ToBytes reply) = 241%nat).
    { rewrite ToBytes_layout, !length_app, fixedHeader_length by exact Hsized.
      destruct Hlegal as (_ & Hip & _). apply countIPv4_four in Hip.
      rewrite Hip. reflexivity. }
    assert (Hparse : parsesTo (ToBytes reply) (canonical reply)).
    { unfold parsesTo. rewrite take_datagram by lia. exact Hrt. }
    split.
    + apply receiveLoop_accepts; [exact Hparse |].
      repeat split. left. reflexivity.
    + intros messageType Hmt. eapply receiveLoop_drops; [exact Hparse |].
      right. right. split; [exact Hmt |].
      exists None. split; [reflexivity | discriminate].
  - intros Hgw.
    assert (Hcount : countIPv4 reply = 3%nat).
    { unfold countIPv4, reply. cbn [clientIPAddr yourIPAddr serverIPAddr].
      cbn [filter list_filter].
      assert (Hzero : isIPv4 IPv4zero) by discriminate.
      repeat case_decide; try reflexivity; contradiction. }
    assert (Hfh : length (fixedHeader reply) = 232%nat).
    { rewrite fixedHeader_length, Hcount by exact Hsized. reflexivity. }
    assert (Hlen : length (ToBytes reply) = 237%nat).
    { rewrite ToBytes_layout, !length_app, Hfh. reflexivity. }
    assert (Htail : drop 236 (ToBytes reply) = [255]).
    { rewrite ToBytes_layout, drop_app_ge, Hfh by lia. reflexivity. }
    split; [exact Hlen |].
    intros messageType. cbn [receiveLoop].
    rewrite take_datagram by lia.
    unfold FromBytes, HeaderSize.
    destruct (Nat.ltb_spec (length (ToBytes reply)) 236) as [Hlt | _]; [lia |].
    rewrite Htail. reflexivity.
Qed.

Lemma sampleDiscover_typed : well_typed sampleDiscover.
Proof. constructor; try reflexivity; vm_compute; split; congruence. Qed.

Lemma reply_from_request_correlates_witness :
  exists reply,
    NewReplyFromRequest sampleRand sampleDiscover [] = Ok reply /\
    receiveLoop sampleDiscover MessageTypeOffer [Datagram (ToBytes reply)]
    = Blocked.
Proof.
  destruct (reply_from_request_correlates sampleRand sampleDiscover []
              eq_refl eq_refl sampleDiscover_typed)
    as (reply & Hrun & _ & _ & _ & _ & _ & _ & _ & Hgood & _).
  destruct (Hgood ltac:(discriminate)) as [_ Hdrop].
  exists reply. split; [exact Hrun |].
  rewrite Hdrop by discriminate. reflexivity.
Defined.

(** X12.  [NewInformForInterface] succeeds only for an interface that has an
    address which converts to IPv4 and is no loopback address; the client
    address of the message is the 4-byte form of the first such address, the
    broadcast bit is the one asked for, and the options are
    [MessageType(Inform)] and [End].  When the lookup of the interface
    works but there is no such address, or the addresses cannot be read, the
    error names the interface. *)
Theorem NewInformForInterface_client_address
    (byName : string -> result Interface) (r : RandRead) (ifname : string)
    (needsBroadcast : bool) :
  match NewInformForInterface byName r ifname needsBroadcast with
  | Ok pkt =>
      exists iface addrs p,
        byName ifname = Ok iface /\ Addrs iface = Ok addrs /\
        head (flat_map externalIPv4 addrs) = Some (Some p) /\
        clientIPAddr pkt = Some p /\ length p = 4%nat /\ nth 0 p 0 <> 127 /\
        IsBroadcast pkt = needsBroadcast /\
        options pkt = [OptMessageType MessageTypeInform;
                       OptionGeneric OptionEnd []]
  | Err e =>
      (exists iface, byName ifname = Ok iface /\
                     rr_n r = 4 /\ rr_err r = None) ->
      e = ("could not get local IPs for iface " ++ ifname)%string /\
      forall iface addrs,
        byName ifname = Ok iface -> Addrs iface = Ok addrs ->
        flat_map externalIPv4 addrs = []
  | Panic _ => exists e, byName ifname = Panic e \/
                         exists iface, byName ifname = Ok iface /\
                                       Addrs iface = Panic e
  end.
Proof.
  unfold NewInformForInterface.
  destruct (byName ifname) as [iface | e | e]; cbn [bind];
    [| intros (? & [=] & _) | eauto].
  unfold IPv4AddrsForInterface.
  destruct (Addrs iface) as [addrs | e | e] eqn:Haddrs; cbn [bind].
  - rewrite GetExternalIPv4Addrs_flat_map.
    destruct (flat_map externalIPv4 addrs) as [| localIP ips] eqn:Hips.
    + intros _. split; [reflexivity |].
      intros iface' addrs' [= <-] Ha. rewrite Haddrs in Ha.
      injection Ha as <-. exact Hips.
    + pose proof (NewInform_cases r (HardwareAddr iface) localIP) as HI.
      destruct (NewInform r (HardwareAddr iface) localIP) as [pkt | e | e];
        cbn [bind].
      * destruct HI as (Hopts & Hflags & Hip).
        assert (Hin : localIP ∈ flat_map externalIPv4 addrs)
          by (rewrite Hips; left).
        apply list_elem_of_In, in_flat_map in Hin as (a & _ & Hin).
        apply list_elem_of_In, externalIPv4_elem in Hin
          as (p & -> & Hto & Hne).
        exists iface, addrs, p.
        split; [reflexivity |]. split; [exact Haddrs |].
        split; [rewrite Hips; reflexivity |].
        split; [destruct needsBroadcast; exact Hip |].
        split; [eapply To4_length, Hto |]. split; [exact Hne |].
        split; [| destruct needsBroadcast; exact Hopts].
        destruct needsBroadcast; unfold IsBroadcast, SetBroadcast, SetUnicast;
          cbn [flags with_flags]; rewrite Hflags; reflexivity.
      * intros (iface' & _ & Hn & He). exfalso. tauto.
      * contradiction.
  - intros _. split; [reflexivity |].
    intros iface' addrs' [= <-] Ha. rewrite Haddrs in Ha. discriminate Ha.
  - exists e. right. exists iface. tauto.
Qed.

End Replies.

(** ** What parsing gives *)

Section Parsed.

Lemma slice_join (a b c : nat) (l : list Z) :
  (a <= b)%nat -> (b <= c)%nat ->
  slice a b l ++ slice b c l = slice a c l.
Proof.
  intros Hab Hbc. unfold slice.
  replace (c - a)%nat with ((b - a) + (c - b))%nat by lia.
  rewrite <- take_take_drop, drop_drop.
  replace (a + (b - a))%nat with b by lia. reflexivity.
Qed.

Lemma slice_bytes (a b : nat) (l : list Z) : bytes_ok l -> bytes_ok (slice a b l).
Proof. intros H. unfold slice. apply Forall_take, Forall_drop, H. Qed.

Lemma PutUint32_Uint32 (s : list Z) :
  length s = 4%nat -> bytes_ok s -> PutUint32 (Uint32 s) = s.
Proof.
  intros Hlen Hok.
  destruct s as [| a [| b [| c [| e [| ? ?]]]]]; try discriminate.
  inversion Hok as [| ? ? Ha Hok1]; subst.
  inversion Hok1 as [| ? ? Hb Hok2]; subst.
  inversion Hok2 as [| ? ? Hc Hok3]; subst.
  inversion Hok3 as [| ? ? He _]; subst.
  rewrite Uint32_value by assumption. apply PutUint32_of_bytes; assumption.
Qed.

Lemma PutUint16_Uint16 (s : list Z) :
  length s = 2%nat -> bytes_ok s -> PutUint16 (Uint16 s) = s.
Proof.
  intros Hlen Hok.
  destruct s as [| a [| b [| ? ?]]]; try discriminate.
  inversion Hok as [| ? ? Ha Hok1]; subst.
  inversion Hok1 as [| ? ? Hb _]; subst.
  rewrite Uint16_value by assumption. apply PutUint16_of_bytes; assumption.
Qed.

Lemma Uint32_range (s : list Z) :
  length s = 4%nat -> bytes_ok s -> 0 <= Uint32 s < 2 ^ 32.
Proof.
  intros Hlen Hok.
  destruct s as [| a [| b [| c [| e [| ? ?]]]]]; try discriminate.
  inversion Hok as [| ? ? Ha Hok1]; subst.
  inversion Hok1 as [| ? ? Hb Hok2]; subst.
  inversion Hok2 as [| ? ? Hc Hok3]; subst.
  inversion Hok3 as [| ? ? He _]; subst.
  rewrite Uint32_value by assumption. unfold is_byte in *. lia.
Qed.

Lemma Uint16_range (s : list Z) :
  length s = 2%nat -> bytes_ok s -> 0 <= Uint16 s < 2 ^ 16.
Proof.
  intros Hlen Hok.
  destruct s as [| a [| b [| ? ?]]]; try discriminate.
  inversion Hok as [| ? ? Ha Hok1]; subst.
  inversion Hok1 as [| ? ? Hb _]; subst.
  rewrite Uint16_value by assumption. unfold is_byte in *. lia.
Qed.

Lemma first_four (l : list Z) :
  (4 <= length l)%nat ->
  [nth 0 l 0; nth 1 l 0; nth 2 l 0; nth 3 l 0] = slice 0 4 l.
Proof.
  intros H. do 4 (destruct l as [| ? l]; [cbn in H; lia |]). reflexivity.
Qed.

(** What [FromBytes] returns for [data], before the options are set. *)
Lemma FromBytes_fields (data : list Z) (d : DHCPv4) :
  FromBytes data = Ok d ->
  (236 <= length data)%nat /\
  exists opts,
    OptionsFromBytes (drop 236 data) = Ok opts /\
    d = mkDHCPv4 (nth 0 data 0) (nth 1 data 0) (nth 2 data 0) (nth 3 data 0)
          (Uint32 (slice 4 8 data)) (Uint16 (slice 8 10 data))
          (Uint16 (slice 10 12 data))
          (Some (slice 12 16 data)) (Some (slice 16 20 data))
          (Some (slice 20 24 data)) (Some (slice 24 28 data))
          (slice 28 44 data) (slice 44 108 data) (slice 108 236 data) opts.
Proof.
  unfold FromBytes, HeaderSize.
  destruct (Nat.ltb_spec (length data) 236) as [| Hlen]; [discriminate |].
  destruct (OptionsFromBytes (drop 236 data)) as [opts | |]; cbn [bind];
    try discriminate.
  intros [= <-]. split; [exact Hlen |]. exists opts. split; [reflexivity |].
  unfold with_options.
  cbn [opcode hwType hwAddrLen hopCount transactionID numSeconds flags
       clientIPAddr yourIPAddr serverIPAddr gatewayIPAddr clientHwAddr
       serverHostName bootFileName options].
  rewrite !copy_full
    by (rewrite slice_length by lia; reflexivity).
  reflexivity.
Qed.

(** X13.  A message that [FromBytes] returns for a sequence of bytes is
    well typed, its four addresses are slices of 4 bytes, and its fixed
    header is the first 236 bytes of the input: [ToBytes] writes those 236
    bytes back unchanged. *)
Theorem parsed_header_is_input (data : list Z) (d : DHCPv4) :
  FromBytes data = Ok d -> bytes_ok data ->
  well_typed d /\
  fourBytes (clientIPAddr d) /\ fourBytes (yourIPAddr d) /\
  fourBytes (serverIPAddr d) /\ fourBytes (gatewayIPAddr d) /\
  fixedHeader d = take 236 data /\
  take 236 (ToBytes d) = take 236 data.
Proof.
  intros Hparse Hok.
  apply FromBytes_fields in Hparse as (Hlen & opts & _ & ->).
  assert (Hsl : forall a b, (b <= 236)%nat ->
                            length (slice a b data) = (b - a)%nat)
    by (intros a b Hb; apply slice_length; lia).
  assert (Hfour : forall a, (a + 4 <= 236)%nat ->
                            fourBytes (Some (slice a (a + 4) data))).
  { intros a Ha. eexists. split; [reflexivity |]. rewrite Hsl by lia. lia. }
  assert (Hhdr : fixedHeader
           (mkDHCPv4 (nth 0 data 0) (nth 1 data 0) (nth 2 data 0)
              (nth 3 data 0) (Uint32 (slice 4 8 data))
              (Uint16 (slice 8 10 data)) (Uint16 (slice 10 12 data))
              (Some (slice 12 16 data)) (Some (slice 16 20 data))
              (Some (slice 20 24 data)) (Some (slice 24 28 data))
              (slice 28 44 data) (slice 44 108 data) (slice 108 236 data)
              opts)
           = take 236 data).
  { unfold fixedHeader.
    cbn [opcode hwType hwAddrLen hopCount transactionID numSeconds flags
         clientIPAddr yourIPAddr serverIPAddr gatewayIPAddr clientHwAddr
         serverHostName bootFileName].
    rewrite first_four by lia.
    rewrite PutUint32_Uint32 by (first [apply Hsl; lia | apply slice_bytes, Hok]).
    rewrite !PutUint16_Uint16
      by (first [apply Hsl; lia | apply slice_bytes, Hok]).
    rewrite !To4_four by (rewrite Hsl by lia; reflexivity).
    cbn [ipBytes].
    rewrite !take_ge by (rewrite Hsl by lia; lia).
    rewrite (slice_join 44 108 236) by lia.
    rewrite (slice_join 28 44 236) by lia.
    rewrite (slice_join 24 28 236) by lia.
    rewrite (slice_join 20 24 236) by lia.
    rewrite (slice_join 16 20 236) by lia.
    rewrite (slice_join 12 16 236) by lia.
    rewrite (slice_join 10 12 236) by lia.
    rewrite (slice_join 8 10 236) by lia.
    rewrite (slice_join 4 8 236) by lia.
    rewrite (slice_join 0 4 236) by lia.
    unfold slice. rewrite drop_0. reflexivity. }
  split.
  { constructor;
      cbn [opcode hwType hwAddrLen hopCount transactionID numSeconds flags
           clientHwAddr serverHostName bootFileName];
      try (apply (bytes_ok_nth data _ Hok));
      try (apply Hsl; lia).
    - apply Uint32_range; [apply Hsl; lia | apply slice_bytes, Hok].
    - apply Uint16_range; [apply Hsl; lia | apply slice_bytes, Hok].
    - apply Uint16_range; [apply Hsl; lia | apply slice_bytes, Hok]. }
  split; [apply (Hfour 12%nat); lia |].
  split; [apply (Hfour 16%nat); lia |].
  split; [apply (Hfour 20%nat); lia |].
  split; [apply (Hfour 24%nat); lia |].
  split; [exact Hhdr |].
  rewrite ToBytes_layout, Hhdr.
  rewrite take_app_length'; [reflexivity |].
  rewrite length_take. lia.
Qed.

Lemma parsed_header_is_input_witness :
  exists d,
    FromBytes (ToBytes sampleOffer) = Ok d /\
    take 236 (ToBytes d) = take 236 (ToBytes sampleOffer).
Proof.
  eexists. split; [exact (roundtrip_canonical sampleOffer sampleOffer_legal) |].
  destruct (parsed_header_is_input (ToBytes sampleOffer) _
              (roundtrip_canonical sampleOffer sampleOffer_legal))
    as (_ & _ & _ & _ & _ & _ & Hback).
  - vm_compute. repeat constructor; discriminate.
  - exact Hback.
Defined.

(** X14.  [ClientHwAddrToString] returns for every message whose length
    field is at most 16, as [SetHwAddrLen] leaves it; [FromBytes] copies the
    length byte of the input as it is, and for a parsed message whose length
    byte exceeds 16 the slice expression panics. *)
Theorem ClientHwAddrToString_panics_on_long_length
    (data : list Z) (d : DHCPv4) :
  FromBytes data = Ok d ->
  hwAddrLen d = nth 2 data 0 /\
  (16 < nth 2 data 0 -> exists e, ClientHwAddrToString d = Panic e) /\
  (nth 2 data 0 <= 16 -> exists s, ClientHwAddrToString d = Ok s) /\
  (forall n, exists s, ClientHwAddrToString (SetHwAddrLen n d) = Ok s).
Proof.
  intros Hparse.
  apply FromBytes_fields in Hparse as (_ & opts & _ & ->).
  unfold ClientHwAddrToString, SetHwAddrLen. cbn [hwAddrLen with_hwAddrLen].
  split; [reflexivity |]. split; [| split].
  - intros H. destruct (Z.ltb_spec 16 (nth 2 data 0)); [eauto | lia].
  - intros H. destruct (Z.ltb_spec 16 (nth 2 data 0)); [lia | eauto].
  - intros n. destruct (Z.ltb_spec 16 n) as [Hn | Hn].
    + cbn. eauto.
    + destruct (Z.ltb_spec 16 n); [lia | eauto].
Qed.

Lemma ClientHwAddrToString_panics_on_long_length_witness :
  exists d e,
    FromBytes longLengthPacket = Ok d /\ ClientHwAddrToString d = Panic e.
Proof.
  assert (Hparse : FromBytes longLengthPacket
                   = Ok (canonical (with_hwAddrLen 17 sampleOffer)))
    by (vm_compute; reflexivity).
  destruct (ClientHwAddrToString_panics_on_long_length _ _ Hparse)
    as (_ & Hpanic & _).
  destruct (Hpanic ltac:(vm_compute; reflexivity)) as [e He].
  eexists. exists e. split; [exact Hparse | exact He].
Defined.

Example ClientHwAddrToString_sample :
  ClientHwAddrToString sampleOffer = Ok "00:11:22:33:44:55"%string.
Proof. reflexivity. Qed.

End Parsed.

(** ** Modifiers, continued *)

Section ModifiersMore.

Lemma updateFirst_app_None (code : Z) (new : Option) (l k : list Option) :
  firstWithCode code l = None ->
  updateFirst code new (l ++ k) = l ++ updateFirst code new k.
Proof.
  induction l as [| o l IH]; cbn; [reflexivity |].
  destruct (Opt.Code o =? code); [discriminate |].
  intros H. rewrite (IH H). reflexivity.
Qed.

(** Replacing the option that [AddOption] has just added. *)
Lemma updateFirst_AddOption (d : DHCPv4) (x y : Option) :
  Opt.Code x <> OptionEnd -> Opt.Code y = Opt.Code x ->
  GetOneOption (Opt.Code x) d = None ->
  updateFirst (Opt.Code x) y (options (AddOption x d))
  = options (AddOption y d).
Proof.
  unfold GetOneOption, Options. intros Hx Hy Hnone.
  destruct (options d) as [| l pre _] eqn:Hopts using rev_ind.
  - rewrite (AddOption_empty d x Hopts), (AddOption_empty d y Hopts).
    cbn. rewrite Z.eqb_refl. reflexivity.
  - pose proof Hnone as Hall.
    apply firstWithCode_None, Forall_app in Hall as [Hpre Hl].
    apply firstWithCode_None in Hpre.
    inversion Hl as [| ? ? Hne _]; subst.
    destruct (Z.eq_dec (Opt.Code l) OptionEnd) as [He | He].
    + rewrite (AddOption_snoc_End d x l pre Hopts He),
              (AddOption_snoc_End d y l pre Hopts He).
      cbn [options with_options].
      rewrite (updateFirst_app_None _ _ _ _ Hpre). cbn.
      rewrite Z.eqb_refl. reflexivity.
    + rewrite (AddOption_snoc_other d x l pre Hopts He),
              (AddOption_snoc_other d y l pre Hopts He).
      cbn [options with_options].
      rewrite (updateFirst_app_None _ _ _ _ Hpre). cbn.
      destruct (Z.eqb_spec (Opt.Code l) (Opt.Code x)); [contradiction |].
      rewrite Z.eqb_refl. reflexivity.
Qed.

Lemma AddOption_frame (d : DHCPv4) (x : Option) :
  AddOption x d = with_options (options (AddOption x d)) d.
Proof.
  unfold AddOption. destruct (last (options d)) as [l |]; [| reflexivity].
  destruct (negb _); reflexivity.
Qed.

(** One application of [WithRequestedOptions], in closed form. *)
Lemma WithRequestedOptions_run (codes : list Z) (d : DHCPv4) :
  requestListTyped d ->
  WithRequestedOptions codes d
  = Ok (match GetOneOption OptionParameterRequestList d with
        | Some _ =>
            with_options
              (updateFirst OptionParameterRequestList
                 (OptParameterRequestList (requestedOf d ++ codes))
                 (options d)) d
        | None => AddOption (OptParameterRequestList codes) d
        end).
Proof.
  intros Hty. unfold WithRequestedOptions, requestedOf, requestListTyped in *.
  destruct (GetOneOption OptionParameterRequestList d) as [o |] eqn:Hget.
  - destruct (Hty o eq_refl) as [l ->]. reflexivity.
  - f_equal.
    rewrite (AddOption_frame d (OptParameterRequestList codes)).
    rewrite (AddOption_frame d (OptParameterRequestList [])) at 2.
    unfold with_options at 1. cbn [opcode hwType hwAddrLen hopCount
      transactionID numSeconds flags clientIPAddr yourIPAddr serverIPAddr
      gatewayIPAddr clientHwAddr serverHostName bootFileName options
      with_options].
    unfold with_options. f_equal.
    apply (updateFirst_AddOption d (OptParameterRequestList [])
             (OptParameterRequestList codes)); [discriminate | reflexivity |].
    exact Hget.
Qed.

Lemma GetOneOption_requested (codes : list Z) (d d1 : DHCPv4) :
  requestListTyped d -> WithRequestedOptions codes d = Ok d1 ->
  GetOneOption OptionParameterRequestList d1
  = Some (OptParameterRequestList (requestedOf d ++ codes)).
Proof.
  intros Hty Hrun. rewrite (WithRequestedOptions_run codes d Hty) in Hrun.
  injection Hrun as <-. unfold requestedOf.
  destruct (GetOneOption OptionParameterRequestList d) as [o |] eqn:Hget.
  - unfold GetOneOption, Options in *. cbn [options with_options].
    apply firstWithCode_updateFirst; [reflexivity | congruence].
  - apply (GetOneOption_AddOption d (OptParameterRequestList codes));
      [discriminate | exact Hget].
Qed.

Lemma with_options_twice (u v : list Option) (d : DHCPv4) :
  with_options v (with_options u d) = with_options v d.
Proof. reflexivity. Qed.

(** X15.  On a message whose first option with the code of the parameter
    request list, if there is one, is a parameter request list,
    [WithRequestedOptions] appends the codes, duplicates included, to that
    list, adding the option when the message has none (even for an empty
    list of codes); afterwards each of the codes is requested, and two
    applications in a row are one application with the two lists of codes
    joined.  On any other message, one whose first option with that code is
    of another type, the type assertion panics. *)
Theorem WithRequestedOptions_appends (codes : list Z) (d : DHCPv4) :
  (requestListTyped d ->
   exists d1,
     WithRequestedOptions codes d = Ok d1 /\
     GetOneOption OptionParameterRequestList d1
     = Some (OptParameterRequestList (requestedOf d ++ codes)) /\
     (forall c, c ∈ codes -> IsOptionRequested c d1 = Ok true) /\
     (forall more,
         WithRequestedOptions more d1
         = WithRequestedOptions (codes ++ more) d) /\
     (GetOneOption OptionParameterRequestList d = None ->
      d1 = AddOption (OptParameterRequestList codes) d)) /\
  (~ requestListTyped d ->
   WithRequestedOptions codes d
   = Panic "interface conversion: Option is not *OptParameterRequestList").
Proof.
  split; [| intros Hnot; unfold WithRequestedOptions;
            destruct (GetOneOption OptionParameterRequestList d) as [o |]
              eqn:Hget;
            [destruct o; try reflexivity | ];
            exfalso; apply Hnot; intros o' Ho; rewrite Hget in Ho;
            [injection Ho as <-; eauto | discriminate]].
  intros Hty.
  pose proof (WithRequestedOptions_run codes d Hty) as Hrun.
  eexists. split; [exact Hrun |].
  pose proof (GetOneOption_requested codes d _ Hty Hrun) as Hget1.
  split; [exact Hget1 |]. split; [| split].
  - intros c Hc. unfold IsOptionRequested, GetOption, Options.
    unfold GetOneOption, Options in Hget1.
    rewrite firstWithCode_head in Hget1.
    destruct (filter _ _) as [| o os]; [discriminate |].
    injection Hget1 as ->. cbn [isRequestedIn].
    replace (existsb (Z.eqb c) (requestedOf d ++ codes)) with true;
      [reflexivity |].
    symmetry. apply existsb_exists. exists c.
    split; [| apply Z.eqb_refl].
    apply in_or_app. right. apply list_elem_of_In, Hc.
  - intros more.
    assert (Hty1 : requestListTyped
                     (match GetOneOption OptionParameterRequestList d with
                      | Some _ =>
                          with_options
                            (updateFirst OptionParameterRequestList
                               (OptParameterRequestList
                                  (requestedOf d ++ codes)) (options d)) d
                      | None => AddOption (OptParameterRequestList codes) d
                      end)).
    { intros o Ho. rewrite Hget1 in Ho. injection Ho as <-. eauto. }
    rewrite (WithRequestedOptions_run more _ Hty1),
            (WithRequestedOptions_run (codes ++ more) d Hty).
    f_equal. rewrite Hget1.
    assert (Hreq1 : requestedOf
                      (match GetOneOption OptionParameterRequestList d with
                       | Some _ =>
                           with_options
                             (updateFirst OptionParameterRequestList
                                (OptParameterRequestList
                                   (requestedOf d ++ codes)) (options d)) d
                       | None => AddOption (OptParameterRequestList codes) d
                       end) = requestedOf d ++ codes).
    { unfold requestedOf at 1. rewrite Hget1. reflexivity. }
    rewrite Hreq1, <- app_assoc.
    destruct (GetOneOption OptionParameterRequestList d) as [o |] eqn:Hget.
    + cbn [options with_options]. rewrite with_options_twice.
      rewrite updateFirst_twice by reflexivity. reflexivity.
    + assert (Hnil : requestedOf d = []) by (unfold requestedOf; rewrite Hget; reflexivity).
      rewrite Hnil. cbn [app].
      rewrite (AddOption_frame d (OptParameterRequestList (codes ++ more))).
      rewrite (AddOption_frame d (OptParameterRequestList codes)) at 2.
      rewrite with_options_twice. f_equal.
      apply (updateFirst_AddOption d (OptParameterRequestList codes)
               (OptParameterRequestList (codes ++ more)));
        [discriminate | reflexivity | exact Hget].
  - intros Hnone. rewrite Hnone. reflexivity.
Qed.

Lemma WithRequestedOptions_appends_witness :
  exists d1,
    WithRequestedOptions [OptionSubnetMask; OptionRouter]
      (sampleMessage sampleClient
         [OptParameterRequestList [OptionSubnetMask];
          OptionGeneric OptionEnd []]) = Ok d1 /\
    GetOneOption OptionParameterRequestList d1
    = Some (OptParameterRequestList
              [OptionSubnetMask; OptionSubnetMask; OptionRouter]).
Proof.
  destruct (WithRequestedOptions_appends [OptionSubnetMask; OptionRouter]
              (sampleMessage sampleClient
                 [OptParameterRequestList [OptionSubnetMask];
                  OptionGeneric OptionEnd []])) as [Hgood _].
  destruct Hgood as (d1 & Hrun & Hget & _).
  - intros o [= <-]. eauto.
  - exists d1. split; [exact Hrun | exact Hget].
Defined.

(** An [OptionGeneric] under the code of the parameter request list makes
    the type assertion of [WithRequestedOptions] panic. *)
Example WithRequestedOptions_panics :
  WithRequestedOptions [OptionRouter]
    (sampleMessage sampleClient [OptionGeneric OptionParameterRequestList [1]])
  = Panic "interface conversion: Option is not *OptParameterRequestList".
Proof. reflexivity. Qed.

Lemma isRequestedIn_typed (c : Z) (opts : list Option) :
  Forall (fun o => Opt.Code o = OptionParameterRequestList ->
                   exists l, o = OptParameterRequestList l) opts ->
  exists b,
    isRequestedIn c (filter (fun opt => Opt.Code opt = OptionParameterRequestList)
                       opts) = Ok b /\
    (b = true <-> exists l, OptParameterRequestList l ∈ opts /\ c ∈ l).
Proof.
  induction 1 as [| o opts Ho _ (b & Hrun & Hb)].
  - exists false. split; [reflexivity |]. split; [discriminate |].
    intros (l & Hin & _). inversion Hin.
  - rewrite filter_cons.
    destruct (decide (Opt.Code o = OptionParameterRequestList)) as [Hc | Hc].
    + destruct (Ho Hc) as [l ->]. cbn [isRequestedIn].
      destruct (existsb (Z.eqb c) l) eqn:E.
      * exists true. split; [reflexivity |]. split; [| reflexivity].
        intros _. exists l. split; [left |].
        apply existsb_exists in E as (c' & Hin & Heq).
        apply Z.eqb_eq in Heq. subst c'. apply list_elem_of_In, Hin.
      * exists b. split; [exact Hrun |]. rewrite Hb. split.
        -- intros (l' & Hin & Hc'). exists l'. split; [right |]; assumption.
        -- intros (l' & Hin & Hc'). apply elem_of_cons in Hin as [Heq | Hin].
           ++ injection Heq as ->. exfalso.
              assert (existsb (Z.eqb c) l = true); [| congruence].
              apply existsb_exists. exists c.
              split; [apply list_elem_of_In, Hc' | apply Z.eqb_refl].
           ++ exists l'. tauto.
    + exists b. split; [exact Hrun |]. rewrite Hb. split.
      * intros (l' & Hin & Hc'). exists l'. split; [right |]; assumption.
      * intros (l' & Hin & Hc'). apply elem_of_cons in Hin as [Heq | Hin].
        -- subst o. contradiction Hc. reflexivity.
        -- exists l'. tauto.
Qed.

(** X16.  When every option under the code of the parameter request list is
    one, [IsOptionRequested] returns, and it answers true exactly when some
    parameter request list of the message, the first or a later one, holds
    the code. *)
Theorem IsOptionRequested_any_list (c : Z) (d : DHCPv4) :
  requestListsTyped d ->
  exists b,
    IsOptionRequested c d = Ok b /\
    (b = true <->
     exists l, OptParameterRequestList l ∈ options d /\ c ∈ l).
Proof. apply isRequestedIn_typed. Qed.

Lemma IsOptionRequested_any_list_witness :
  IsOptionRequested OptionRouter
    (sampleMessage sampleClient
       [OptParameterRequestList [OptionSubnetMask];
        OptParameterRequestList [OptionRouter]]) = Ok true.
Proof.
  destruct (IsOptionRequested_any_list OptionRouter
              (sampleMessage sampleClient
                 [OptParameterRequestList [OptionSubnetMask];
                  OptParameterRequestList [OptionRouter]]))
    as (b & Hrun & Hb).
  - repeat constructor; eauto.
  - rewrite Hrun. f_equal. apply Hb.
    exists [OptionRouter]. split; [right; left | left].
Defined.

(** X17.  [WithRelay] makes the message unicast, sets the gateway address
    and the hop count 1 and leaves every other field and the options as they
    are; applied again with the same address it changes nothing, and of two
    relays in a row the second one decides. *)
Theorem WithRelay_fields (ip : IP) (d : DHCPv4) :
  exists d1,
    WithRelay ip d = Ok d1 /\
    IsUnicast d1 = true /\
    gatewayIPAddr d1 = ip /\
    hopCount d1 = 1 /\
    Z.land (flags d1) 32767 = Z.land (flags d) 32767 /\
    d1 = with_flags (flags d1)
           (with_gatewayIPAddr ip (with_hopCount 1 d)) /\
    WithRelay ip d1 = Ok d1 /\
    (forall ip', WithRelay ip' d1 = WithRelay ip' d).
Proof.
  eexists. split; [reflexivity |].
  assert (Hll : Z.land (Z.land (flags d) 32767) 32767 = Z.land (flags d) 32767).
  { rewrite <- Z.land_assoc. reflexivity. }
  assert (Hu : Z.land (Z.land (flags d) 32767) 32768 = 0).
  { rewrite <- Z.land_assoc. change (Z.land 32767 32768) with 0.
    apply Z.land_0_r. }
  unfold WithRelay, IsUnicast, SetUnicast, SetGatewayIPAddr, SetHopCount.
  cbn [flags with_flags with_gatewayIPAddr with_hopCount gatewayIPAddr
       hopCount].
  rewrite Hu, Hll.
  repeat split.
Qed.

End ModifiersMore.

(** ** The client, continued *)

Section Client.

(** X18.  [MakeRawBroadcastPacket] asks for an IP header with the total
    length 28 plus the length of the payload and returns that header, eight
    bytes of UDP header and the payload, in this order; the UDP header has
    the source port 68, the destination port 67, the checksum 0 and, as its
    length, 8 plus the length of the payload cut to 16 bits, which is the
    true length only for a payload below 65528 bytes.  An error of the
    header is returned as it is. *)
Theorem MakeRawBroadcastPacket_layout (Marshal : Z -> result (list Z))
    (payload : list Z) :
  match Marshal (28 + Z.of_nat (length payload)) with
  | Ok header =>
      exists udp,
        MakeRawBroadcastPacket Marshal payload
        = Ok (header ++ udp ++ payload) /\
        length udp = 8%nat /\
        bytes_ok udp /\
        Uint16 (slice 0 2 udp) = 68 /\
        Uint16 (slice 2 4 udp) = 67 /\
        Uint16 (slice 4 6 udp) = (8 + Z.of_nat (length payload)) mod 65536 /\
        Uint16 (slice 6 8 udp) = 0 /\
        (Uint16 (slice 4 6 udp) = 8 + Z.of_nat (length payload) <->
         Z.of_nat (length payload) < 65528) /\
        drop (length header + 8) (header ++ udp ++ payload) = payload
  | Err e => MakeRawBroadcastPacket Marshal payload = Err e
  | Panic e => MakeRawBroadcastPacket Marshal payload = Panic e
  end.
Proof.
  unfold MakeRawBroadcastPacket.
  change (Z.of_nat (length (udpHeader payload))) with 8.
  replace (20 + 8 + Z.of_nat (length payload))
    with (28 + Z.of_nat (length payload)) by lia.
  destruct (Marshal _) as [header | e | e]; cbn [bind]; try reflexivity.
  exists (udpHeader payload).
  assert (Hlen : 0 <= (8 + Z.of_nat (length payload)) mod 65536 < 65536)
    by (apply Z.mod_pos_bound; lia).
  split; [rewrite <- app_assoc; reflexivity |].
  split; [reflexivity |].
  split.
  { unfold udpHeader, bytes_ok, PutUint16.
    repeat (apply Forall_cons; split;
            [unfold is_byte; rewrite land_255;
             apply Z.mod_pos_bound; lia |]).
    apply Forall_nil; exact I. }
  split; [reflexivity |]. split; [reflexivity |].
  split.
  { change (slice 4 6 (udpHeader payload))
      with (PutUint16 ((8 + Z.of_nat (length payload)) mod 65536)).
    apply Uint16_PutUint16. exact Hlen. }
  split; [reflexivity |].
  split.
  { change (slice 4 6 (udpHeader payload))
      with (PutUint16 ((8 + Z.of_nat (length payload)) mod 65536)).
    rewrite (Uint16_PutUint16 _ Hlen). split.
    - intros H. rewrite H in Hlen. lia.
    - intros H. apply Z.mod_small. lia. }
  rewrite app_assoc, drop_app_length'; [reflexivity |].
  rewrite length_app. reflexivity.
Qed.

(** A message that [BroadcastSendReceive] returns passed the three tests of
    the loop. *)
Lemma BroadcastSendReceive_Ok (net : Network) (packet : DHCPv4)
    (messageType : Z) (response : DHCPv4) :
  BroadcastSendReceive net packet messageType = Ok response ->
  accepted packet messageType response.
Proof.
  unfold BroadcastSendReceive.
  destruct (marshalErr net); [discriminate |].
  destruct (sendtoErr net); [discriminate |].
  destruct (timerFirst net); [discriminate |].
  destruct (fileConnErr net); [discriminate |].
  destruct (receiveLoop packet messageType (received net)) as [r | | |]
    eqn:Hloop; try discriminate.
  intros [= <-]. apply receiveLoop_Found in Hloop. tauto.
Qed.

(** X19.  On a network without send and socket errors, when the timer
    fires before the receiving goroutine is done, [BroadcastSendReceive]
    returns the error "timed out while listening for replies".  Otherwise
    datagrams that parse to messages of other transactions, to requests or
    to messages of another type are passed over: it returns the first
    message after them that passes, whatever follows it; the read error that
    comes after them; and, when nothing comes after them, the error with
    which the read deadline ends the read. *)
Theorem BroadcastSendReceive_first_reply (net : Network) (packet : DHCPv4)
    (messageType : Z) (noise : list (list Z)) :
  marshalErr net = None -> sendtoErr net = None -> fileConnErr net = None ->
  Forall (fun payload =>
            exists response,
              parsesTo payload response /\
              rejected packet messageType response) noise ->
  (timerFirst net = true ->
   BroadcastSendReceive net packet messageType
   = Err "timed out while listening for replies") /\
  (timerFirst net = false ->
   (forall payload response rest,
       received net = map Datagram noise ++ Datagram payload :: rest ->
       parsesTo payload response -> accepted packet messageType response ->
       BroadcastSendReceive net packet messageType = Ok response) /\
   (forall e rest,
       received net = map Datagram noise ++ ReadError e :: rest ->
       BroadcastSendReceive net packet messageType = Err e) /\
   (received net = map Datagram noise ->
    BroadcastSendReceive net packet messageType = Err (deadlineErr net))).
Proof.
  intros Hm Hs Hf Hnoise. unfold BroadcastSendReceive.
  rewrite Hm, Hs, Hf. split; intros Ht; rewrite Ht; [reflexivity |].
  repeat split.
  - intros payload response rest -> Hparse Hacc.
    rewrite (receiveLoop_skips_noise _ _ _ _ Hnoise),
            (receiveLoop_accepts _ _ _ _ _ Hparse Hacc).
    reflexivity.
  - intros e rest ->.
    rewrite (receiveLoop_skips_noise _ _ _ _ Hnoise). reflexivity.
  - intros ->. rewrite <- (app_nil_r (map Datagram noise)).
    rewrite (receiveLoop_skips_noise _ _ _ _ Hnoise). reflexivity.
Qed.

Lemma BroadcastSendReceive_first_reply_witness :
  BroadcastSendReceive
    (quietNetwork [Datagram (ToBytes strayOffer);
                   Datagram (ToBytes sampleOffer)])
    sampleDiscover MessageTypeOffer
  = Ok (canonical sampleOffer) /\
  BroadcastSendReceive (quietNetwork [Datagram (ToBytes strayOffer)])
    sampleDiscover MessageTypeOffer
  = Err "i/o timeout".
Proof.
  assert (Hnoise : Forall (fun payload =>
                             exists response,
                               parsesTo payload response /\
                               rejected sampleDiscover MessageTypeOffer
                                 response) [ToBytes strayOffer]).
  { constructor; [| constructor].
    eexists. split; [vm_compute; reflexivity |].
    left. vm_compute. discriminate. }
  split.
  - destruct (BroadcastSendReceive_first_reply
                (quietNetwork [Datagram (ToBytes strayOffer);
                               Datagram (ToBytes sampleOffer)])
                sampleDiscover MessageTypeOffer [ToBytes strayOffer]
                eq_refl eq_refl eq_refl Hnoise) as [_ Hrun].
    destruct (Hrun eq_refl) as [Hfirst _].
    apply (Hfirst (ToBytes sampleOffer) (canonical sampleOffer) []);
      [reflexivity | vm_compute; reflexivity |].
    repeat split. right. reflexivity.
  - destruct (BroadcastSendReceive_first_reply
                (quietNetwork [Datagram (ToBytes strayOffer)])
                sampleDiscover MessageTypeOffer [ToBytes strayOffer]
                eq_refl eq_refl eq_refl Hnoise) as [_ Hrun].
    destruct (Hrun eq_refl) as (_ & _ & Hquiet).
    apply Hquiet. reflexivity.
Defined.

Lemma transactionID_AddOption (x : Option) (d : DHCPv4) :
  transactionID (AddOption x d) = transactionID d.
Proof. rewrite (AddOption_frame d x). reflexivity. Qed.

Lemma applyModifiers_keeps_id (modifiers : list Modifier) :
  Forall keepsTransactionID modifiers ->
  forall d d', applyModifiers modifiers d = Ok d' ->
               transactionID d' = transactionID d.
Proof.
  induction 1 as [| m modifiers Hm _ IH]; intros d d'; cbn.
  - intros [= <-]. reflexivity.
  - destruct (m d) as [d1 | |] eqn:Hd1; cbn [bind]; try discriminate.
    intros Hrest. rewrite (IH _ _ Hrest). apply (Hm _ _ Hd1).
Qed.

Lemma NewRequestFromOffer_keeps_id (r : RandRead) (offer request : DHCPv4)
    (modifiers : list Modifier) :
  Forall keepsTransactionID modifiers ->
  NewRequestFromOffer r offer modifiers = Ok request ->
  transactionID request = transactionID offer.
Proof.
  intros Hmods. unfold NewRequestFromOffer.
  destruct (New r) as [d | |]; cbn [bind]; try discriminate.
  destruct (findServerIP (options offer) None) as [[ip |] | |];
    cbn [bind]; try discriminate.
  intros Hrun. rewrite (applyModifiers_keeps_id _ Hmods _ _ Hrun).
  rewrite !transactionID_AddOption.
  destruct (IsBroadcast offer); reflexivity.
Qed.

(** X20.  With modifiers that keep the transaction id, [Exchange] returns
    without an error exactly the four messages discovery, offer, request and
    acknowledgement: they have one transaction id, the offer and the
    acknowledgement are replies of these two message types, and the request
    is the one that [NewRequestFromOffer] makes of the offer.  With an error
    the conversation has fewer than four messages, and none when a socket
    could not be made. *)
Theorem Exchange_conversation (w : World) (ifname : string)
    (discover : option DHCPv4) (modifiers : list Modifier) :
  Forall keepsTransactionID modifiers ->
  match Exchange w ifname discover modifiers with
  | Returned conversation None =>
      exists d offer request ack,
        conversation = [d; offer; request; ack] /\
        (forall d0, discover = Some d0 -> applyModifiers modifiers d0 = Ok d) /\
        NewRequestFromOffer (requestRand w) offer modifiers = Ok request /\
        transactionID offer = transactionID d /\
        transactionID request = transactionID d /\
        transactionID ack = transactionID d /\
        opcode offer = OpcodeBootReply /\
        opcode ack = OpcodeBootReply /\
        MessageType offer = Ok (Some MessageTypeOffer) /\
        MessageType ack = Ok (Some MessageTypeAck)
  | Returned conversation (Some _) =>
      (length conversation < 4)%nat /\
      (broadcastSocketErr w <> None \/ listeningSocketErr w <> None ->
       conversation = [])
  | Aborted _ =>
      broadcastSocketErr w = None /\ listeningSocketErr w = None
  end.
Proof.
  intros Hmods. unfold Exchange.
  destruct (broadcastSocketErr w) as [e |];
    [split; [cbn; lia | reflexivity] |].
  destruct (listeningSocketErr w) as [e |];
    [split; [cbn; lia | reflexivity] |].
  assert (Hsockets : None <> @None string \/ None <> @None string -> False)
    by (intros [H | H]; apply H; reflexivity).
  assert (Hstart :
    forall found : result DHCPv4,
      (forall d0, discover = Some d0 -> found = Ok d0) ->
      match
        match found with
        | Ok discover0 =>
            match applyModifiers modifiers discover0 with
            | Ok discover1 =>
                match BroadcastSendReceive (offerNetwork w) discover1
                        MessageTypeOffer with
                | Ok offer =>
                    exchangeRequest w modifiers ([] ++ [discover1] ++ [offer])
                      offer
                | Err e => Returned ([] ++ [discover1]) (Some e)
                | Panic e => Aborted e
                end
            | Err e | Panic e => Aborted e
            end
        | Err e => Returned [] (Some e)
        | Panic e => Aborted e
        end
      with
      | Returned conversation None =>
          exists d offer request ack,
            conversation = [d; offer; request; ack] /\
            (forall d0, discover = Some d0 ->
                        applyModifiers modifiers d0 = Ok d) /\
            NewRequestFromOffer (requestRand w) offer modifiers = Ok request /\
            transactionID offer = transactionID d /\
            transactionID request = transactionID d /\
            transactionID ack = transactionID d /\
            opcode offer = OpcodeBootReply /\
            opcode ack = OpcodeBootReply /\
            MessageType offer = Ok (Some MessageTypeOffer) /\
            MessageType ack = Ok (Some MessageTypeAck)
      | Returned conversation (Some _) =>
          (length conversation < 4)%nat /\
          (None <> @None string \/ None <> @None string -> conversation = [])
      | Aborted _ => @None string = None /\ @None string = None
      end).
  { intros found Hfound.
    destruct found as [d0 | e | e];
      [| split; [cbn; lia | reflexivity] | split; reflexivity].
    destruct (applyModifiers modifiers d0) as [d | e | e] eqn:Hd;
      [| split; reflexivity | split; reflexivity].
    destruct (BroadcastSendReceive (offerNetwork w) d MessageTypeOffer)
      as [offer | e | e] eqn:Hoffer;
      [| split; [cbn; lia | intros H; destruct (Hsockets H)]
       | split; reflexivity].
    unfold exchangeRequest.
    destruct (NewRequestFromOffer (requestRand w) offer modifiers)
      as [request | e | e] eqn:Hrequest;
      [| split; [cbn; lia | intros H; destruct (Hsockets H)]
       | split; reflexivity].
    destruct (BroadcastSendReceive (ackNetwork w) request MessageTypeAck)
      as [ack | e | e] eqn:Hack;
      [| split; [cbn; lia | intros H; destruct (Hsockets H)]
       | split; reflexivity].
    apply BroadcastSendReceive_Ok in Hoffer as (Hoid & Hoop & Hoty).
    apply BroadcastSendReceive_Ok in Hack as (Haid & Haop & Haty).
    pose proof (NewRequestFromOffer_keeps_id _ _ _ _ Hmods Hrequest) as Hrid.
    destruct Hoty as [Hoty | Hoty]; [discriminate |].
    destruct Haty as [Haty | Haty]; [discriminate |].
    exists d, offer, request, ack.
    split; [reflexivity |].
    split.
    { intros d1 Hd1. specialize (Hfound d1 Hd1). injection Hfound as ->.
      exact Hd. }
    repeat split; try assumption; congruence. }
  destruct discover as [d0 |].
  - apply (Hstart (Ok d0)). intros d1 [= <-]. reflexivity.
  - apply Hstart. discriminate.
Qed.

Lemma Exchange_conversation_witness :
  exists d offer request ack,
    Exchange sampleWorld "eth0" (Some sampleDiscover)
      [WithRelay (Some [10; 0; 0; 1])]
    = Returned [d; offer; request; ack] None /\
    transactionID request = transactionID d /\
    MessageType ack = Ok (Some MessageTypeAck).
Proof.
  pose proof (Exchange_conversation sampleWorld "eth0" (Some sampleDiscover)
                [WithRelay (Some [10; 0; 0; 1])]) as H.
  destruct (Exchange sampleWorld "eth0" (Some sampleDiscover)
              [WithRelay (Some [10; 0; 0; 1])])
    as [conversation [e |] | e] eqn:Hrun; try (vm_compute in Hrun; discriminate).
  destruct H as (d & offer & request & ack & -> & _ & _ & _ & Hid & _ & _ & _
                 & _ & Hty).
  { constructor; [| constructor]. intros d d' [= <-]. reflexivity. }
  exists d, offer, request, ack. repeat split; assumption.
Defined.

End Client.
